(** * Real-estate dashboard: fetch, merge, derive, filter, persist

    A shallow embedding of [realtor_agent/api.py].  The pandas and numpy
    operations the program calls are written out as functions on an explicit
    table model; the two HTTP endpoints are state transformers on the
    process-wide pointer [latest_csv] and the data directory. *)

From Stdlib Require Import Floats ZArith Bool Lia DecimalString.
From stdpp Require Import gmap strings list sorting.

Local Open Scope string_scope.

(** ** Exceptions *)

Inductive exn : Type :=
  | ConnectionError
  | Timeout
  | HTTPError (status : Z)
  | JSONDecodeError
  | KeyError (key : string)
  | KeyError_not_in_index (labels : list string)
  | AttributeError (name : string)
  | TypeError
  | ValueError
  | IndexingError
  | EmptyDataError
  | OSError.

Inductive result (A : Type) : Type :=
  | Ok (a : A)
  | Raise (e : exn).
Arguments Ok {A} a.
Arguments Raise {A} e.

#[global] Instance result_ret : MRet result := @Ok.
#[global] Instance result_bind : MBind result :=
  λ A B f m, match m with Ok a => f a | Raise e => Raise e end.

(** ** The numeric and text kernels of numpy and pandas

    Four library routines are not spelled out by the program and are taken as
    given: the index sort behind [sort_values] (numpy's [argsort] with the
    default [kind="quicksort"]), the decimal text [to_csv] writes for a
    float, the numeric field reader of [read_csv], and the number a float
    becomes after [to_json] (ten decimal places) and [json.loads]. *)

Record Kernels : Type := {
  argsort : list float → list nat;
  float_repr : float → string;
  read_number : string → option float;
  json_number : float → float;
}.

(** ** Tables *)

Module pd.

(** A cell holds a float, a string, or a boolean.  Every JSON number is
    read as the binary64 float it is compared and divided as (integers
    included), and [nan] stands for a missing value.  The provider's
    listings carry numbers and strings only; booleans appear only in tables
    read back by [read_csv]. *)
Inductive cell : Type :=
  | CNum (f : float)
  | CStr (s : string)
  | CBool (b : bool).

Definition NaN : cell := CNum nan.

(** A scalar of the provider's JSON: a number or a string.  Nested
    objects, arrays, booleans and [null] are not covered. *)
Inductive scalar : Type :=
  | SNum (f : float)
  | SStr (s : string).

Definition cell_of (v : scalar) : cell :=
  match v with
  | SNum f => CNum f
  | SStr s => CStr s
  end.

Abbreviation row := (gmap string cell).

Definition at_ (r : row) (c : string) : cell := default NaN (r !! c).

(** Rows carry their index label. *)
Record DataFrame : Type := mkDF {
  columns : list string;
  rows : list (nat * row);
}.

Definition Series : Type := list (nat * cell).
Definition Mask : Type := list (nat * bool).

(** One JSON object of the provider's [props] array: key/value pairs in
    document order. *)
Definition listing : Type := list (string * scalar).

(** [dict] keeps the last value of a repeated key, as [json.loads] does. *)
Definition dict (l : listing) : row := cell_of <$> list_to_map (reverse l).

Definition reindex (cols : list string) (r : row) : row :=
  list_to_map ((λ c, (c, at_ r c)) <$> cols).

(** The distinct keys of a list, each where it is first seen. *)
Definition first_seen (keys : list string) : list string :=
  foldl (λ seen k, if bool_decide (k ∈ seen) then seen else (seen ++ [k])%list) [] keys.

(** [pd.json_normalize(records)]: the columns are the keys in order of first
    appearance, a key a record lacks reads as NaN, the index is 0..n-1. *)
Definition json_normalize (props : list listing) : DataFrame :=
  let cols := first_seen (props ≫= fmap fst) in
  mkDF cols (imap (λ i l, (i, reindex cols (dict l))) props).

(** [df[c] = v] for a scalar [v]. *)
Definition setitem_scalar (df : DataFrame) (c : string) (v : cell) : DataFrame :=
  mkDF (if bool_decide (c ∈ columns df) then columns df else columns df ++ [c])
       ((λ ir : nat * row, (ir.1, <[c := v]> ir.2)) <$> rows df).

Definition series_at (s : Series) (i : nat) : cell :=
  default NaN (snd <$> find (λ p : nat * cell, bool_decide (p.1 = i)) s).

(** [df[c] = s] for a series [s]: values are aligned on the index. *)
Definition setitem_series (df : DataFrame) (c : string) (s : Series) : DataFrame :=
  mkDF (if bool_decide (c ∈ columns df) then columns df else columns df ++ [c])
       ((λ ir : nat * row, (ir.1, <[c := series_at s ir.1]> ir.2)) <$> rows df).

Definition merge_columns (a b : list string) : list string :=
  a ++ list_difference b a.

(** [pd.concat(dfs, ignore_index=True)]. *)
Definition concat (dfs : list DataFrame) : result DataFrame :=
  match dfs with
  | [] => Raise ValueError
  | _ =>
      let cols := foldl merge_columns [] (columns <$> dfs) in
      Ok (mkDF cols (imap (λ i ir, (i, reindex cols ir.2)) (dfs ≫= rows)))
  end.

Definition column (df : DataFrame) (c : string) : Series :=
  (λ ir : nat * row, (ir.1, at_ ir.2 c)) <$> rows df.

(** [df[c]]. *)
Definition getitem (df : DataFrame) (c : string) : result Series :=
  if bool_decide (c ∈ columns df) then Ok (column df c) else Raise (KeyError c).

(** [df.c]. *)
Definition getattr (df : DataFrame) (c : string) : result Series :=
  if bool_decide (c ∈ columns df) then Ok (column df c) else Raise (AttributeError c).

(** The float a cell is read as in arithmetic and comparisons; text has
    none (the operation raises [TypeError]). *)
Definition number (x : cell) : result float :=
  match x with
  | CNum f => Ok f
  | CBool b => Ok (if b then 1%float else 0%float)
  | CStr _ => Raise TypeError
  end.

(** [a / b] on two columns of one table. *)
Definition truediv (a b : Series) : result Series :=
  mapM (λ ix : nat * cell,
          x ← number ix.2; y ← number (series_at b ix.1);
          mret (ix.1, CNum (PrimFloat.div x y))) a.

(** [s.between(lo, hi)], both ends included. *)
Definition between (s : Series) (lo hi : float) : result Mask :=
  mapM (λ ix : nat * cell,
          x ← number ix.2;
          mret (ix.1, PrimFloat.leb lo x && PrimFloat.leb x hi)) s.

(** [s > v]. *)
Definition gt (s : Series) (v : float) : result Mask :=
  mapM (λ ix : nat * cell, x ← number ix.2; mret (ix.1, PrimFloat.ltb v x)) s.

(** [s < v]. *)
Definition lt (s : Series) (v : float) : result Mask :=
  mapM (λ ix : nat * cell, x ← number ix.2; mret (ix.1, PrimFloat.ltb x v)) s.

Definition mask_at (m : Mask) (i : nat) : option bool :=
  snd <$> find (λ p : nat * bool, bool_decide (p.1 = i)) m.

(** [a & b] on two masks over one index. *)
Definition and_ (a b : Mask) : Mask :=
  (λ ib : nat * bool, (ib.1, ib.2 && default false (mask_at b ib.1))) <$> a.

(** pandas' [nargsort]: missing keys are set aside and placed last; the
    others are ordered by the kernel. *)
Definition nargsort (K : Kernels) (keys : list float) : list nat :=
  let idx := seq 0 (length keys) in
  let is_missing (i : nat) := is_nan (default nan (keys !! i)) in
  let non_nan_idx := filter (λ i, is_missing i = false) idx in
  let nan_idx := filter (λ i, is_missing i = true) idx in
  let non_nans := omap (λ i, keys !! i) non_nan_idx in
  omap (λ j, non_nan_idx !! j) (argsort K non_nans) ++ nan_idx.

(** [df.sort_values(by)] on a numeric column.  A text key raises here; the
    program never gets that far with one, since line 67 compares the same
    column with a number first. *)
Definition sort_values (K : Kernels) (df : DataFrame) (by_ : string) : result DataFrame :=
  s ← (if bool_decide (by_ ∈ columns df) then Ok (column df by_) else Raise (KeyError by_));
  keys ← mapM (λ ix : nat * cell, number ix.2) s;
  mret (mkDF (columns df) (omap (λ i, rows df !! i) (nargsort K keys))).

(** [df.loc[keep, cols]]: the mask is aligned on the table's index; a label
    the mask lacks is an error, and so are columns the table lacks: the
    [KeyError] names all of them. *)
Definition loc (df : DataFrame) (keep : Mask) (cols : list string) : result DataFrame :=
  flagged ← mapM (λ ir : nat * row,
                    match mask_at keep ir.1 with
                    | Some b => Ok (b, ir)
                    | None => Raise IndexingError
                    end) (rows df);
  match filter (λ c, c ∉ columns df) cols with
  | [] =>
      Ok (mkDF cols ((λ bir : bool * (nat * row), (bir.2.1, reindex cols bir.2.2))
                       <$> filter (λ bir : bool * (nat * row), bir.1 = true) flagged))
  | missing => Raise (KeyError_not_in_index missing)
  end.

(** *** Persistence and rendering *)

(** A CSV file as its header and its lines of fields (the quoting layer of
    the csv writer and reader is lossless and left out). *)
Record CsvFile : Type := mkCsv {
  header : list string;
  lines : list (list string);
}.

(** The text of one cell: a missing value is written as the empty field.
    The text of a number is the kernel's: pandas writes the numbers of an
    integer column without a decimal point and those of a float column with
    one, and nothing below depends on which. *)
Definition field (K : Kernels) (x : cell) : string :=
  match x with
  | CNum f => if is_nan f then "" else float_repr K f
  | CStr s => s
  | CBool b => if b then "True" else "False"
  end.

(** The content [df.to_csv(path, index=False)] writes. *)
Definition csv_content (K : Kernels) (df : DataFrame) : CsvFile :=
  mkCsv (columns df)
        ((λ ir : nat * row, (λ c, field K (at_ ir.2 c)) <$> columns df) <$> rows df).

(** The fields [read_csv] reads as missing by default (pandas 2). *)
Definition na_values : list string :=
  [""; "#N/A"; "#N/A N/A"; "#NA"; "-1.#IND"; "-1.#QNAN"; "-NaN"; "-nan";
   "1.#IND"; "1.#QNAN"; "<NA>"; "N/A"; "NA"; "NULL"; "NaN"; "None"; "n/a";
   "nan"; "null"].

Definition is_na (s : string) : bool := bool_decide (s ∈ na_values).

Definition read_bool (s : string) : option bool :=
  if bool_decide (s ∈ ["True"; "TRUE"; "true"]) then Some true
  else if bool_decide (s ∈ ["False"; "FALSE"; "false"]) then Some false
  else None.

(** The type [read_csv] infers for a column from its fields that are not
    missing: numbers if all of them read as numbers, else booleans if all of
    them are boolean words, else text. *)
Inductive dtype : Type := DNumber | DBool | DObject.

Definition infer_dtype (K : Kernels) (fields : list string) : dtype :=
  let present := filter (λ s, is_na s = false) fields in
  if forallb (λ s, bool_decide (is_Some (read_number K s))) present then DNumber
  else if forallb (λ s, bool_decide (is_Some (read_bool s))) present then DBool
  else DObject.

Definition parse_field (K : Kernels) (t : dtype) (s : string) : cell :=
  if is_na s then NaN
  else match t with
       | DNumber => CNum (default nan (read_number K s))
       | DBool => CBool (default false (read_bool s))
       | DObject => CStr s
       end.

(** [pd.read_csv(path)] on the content of the file. *)
Definition read_csv (K : Kernels) (f : CsvFile) : result DataFrame :=
  match header f with
  | [] => Raise EmptyDataError
  | _ =>
      let col_fields (j : nat) := (λ l : list string, default "" (l !! j)) <$> lines f in
      let dtypes := imap (λ j _, infer_dtype K (col_fields j)) (header f) in
      let parse_line (l : list string) : row :=
        list_to_map (imap (λ j c, (c, parse_field K (default DObject (dtypes !! j))
                                                  (default "" (l !! j)))) (header f)) in
      Ok (mkDF (header f) (imap (λ i l, (i, parse_line l)) (lines f)))
  end.

(** JSON values of the response body. *)
Inductive jval : Type :=
  | JNull
  | JNum (f : float)
  | JStr (s : string)
  | JBool (b : bool).

Definition jcell (K : Kernels) (x : cell) : jval :=
  match x with
  | CNum f => if is_finite f then JNum (json_number K f) else JNull
  | CStr s => JStr s
  | CBool b => JBool b
  end.

(** [json.loads(df.to_json(orient="records"))]: one object per row, keys in
    column order; NaN and the infinities are rendered as [null]. *)
Definition to_json (K : Kernels) (df : DataFrame) : list (list (string * jval)) :=
  (λ ir : nat * row, (λ c, (c, jcell K (at_ ir.2 c))) <$> columns df) <$> rows df.

End pd.

(** ** Configuration *)

(** The dict literal, in insertion order (the order [.items()] iterates in). *)
Definition REGION_POLYGON_MAP : list (string * string) :=
  [ ("south_bay",
     "-122.0391782 37.3736352, -122.0221832 37.3651435, -122.0105527 37.3586118, "
     ++ "-121.9963486 37.3535791, -121.9694627 37.353144, -121.9703847 37.3606217, "
     ++ "-121.9654699 37.3693281, -121.9962624 37.3703931, -122.0196293 37.3753218, "
     ++ "-122.013429 37.3927996, -122.0309814 37.3969251, -122.0391782 37.3736352");
    ("bandao",
     "-122.2955382 37.5290471, -122.3054946 37.5208785, -122.2476447 37.4593133, "
     ++ "-122.2255004 37.4708947, -122.2955382 37.5290471") ].

Definition DATA_PATH : string := "data".

(** [class Filter(BaseModel)]: three floats and an int, each with a default
    and with no validator. *)
Record Filter : Type := mkFilter {
  min_price : float;
  max_price : float;
  min_lot_area : float;
  max_days_on_zillow : Z;
}.

(** The fields a request body may give. *)
Record FilterBody : Type := mkFilterBody {
  body_min_price : option float;
  body_max_price : option float;
  body_min_lot_area : option float;
  body_max_days_on_zillow : option Z;
}.

(** Validation of a request body: missing fields take their defaults; no
    field is checked against another. *)
Definition Filter_validate (b : FilterBody) : result Filter :=
  Ok (mkFilter (default 1700000%float (body_min_price b))
               (default 2000000%float (body_max_price b))
               (default 4000%float (body_min_lot_area b))
               (default 30%Z (body_max_days_on_zillow b))).

(** The float an int is compared as against a float column. *)
Definition float_of_int (n : Z) : float :=
  SF2Prim (binary_normalize prec emax n 0 false).

(** ** The world the program runs in *)

(** The query of one provider request. *)
Record query : Type := mkQuery {
  polygon : string;
  status_type : string;
  home_type : string;
}.

Inductive http_body : Type :=
  | NotJson
  | NoProps
  | Props (l : list pd.listing).

(** What [requests.get(..., timeout=30)] comes back with. *)
Inductive http_result : Type :=
  | ConnectionFailed
  | TimedOut
  | Response (status : Z) (body : http_body).

(** What becomes of a write to a path: the file is written in full; or the
    path cannot be opened and nothing changes; or the file is opened (created,
    or emptied if it was there) and the write fails on the way, leaving
    [remains] in it: some beginning of the text, possibly nothing. *)
Inductive write_result : Type :=
  | Written
  | Refused
  | Interrupted (remains : pd.CsvFile).

(** What the program does not control: the provider, the calendar, and
    what becomes of a write. *)
Record Env : Type := mkEnv {
  http_get : query → http_result;
  date_today : string;
  storage : string → write_result;
}.

(** What the program reads and writes: the global [latest_csv], the files
    under the data directory, and the provider requests issued so far. *)
Record World : Type := mkWorld {
  latest_csv : option string;
  disk : gmap string pd.CsvFile;
  requests : list query;
}.

Definition M (A : Type) : Type := World → result A * World.

#[global] Instance M_ret : MRet M := λ A a w, (Ok a, w).
#[global] Instance M_bind : MBind M :=
  λ A B f m w, match m w with
               | (Ok a, w') => f a w'
               | (Raise e, w') => (Raise e, w')
               end.

Definition lift {A : Type} (r : result A) : M A := λ w, (r, w).

(** ** Core scraping / filtering logic *)

Definition raise_for_status (status : Z) : result unit :=
  if (400 <=? status)%Z && (status <? 600)%Z then Raise (HTTPError status) else Ok tt.

Definition fetch_region_df (env : Env) (region polygon : string) : M pd.DataFrame :=
  λ w,
    let q := mkQuery polygon "ForSale" "Houses" in
    let w' := mkWorld (latest_csv w) (disk w) (requests w ++ [q]) in
    match http_get env q with
    | ConnectionFailed => (Raise ConnectionError, w')
    | TimedOut => (Raise Timeout, w')
    | Response status body =>
        (_ ← raise_for_status status;
         props ← match body with
                 | NotJson => Raise JSONDecodeError
                 | NoProps => Raise (KeyError "props")
                 | Props l => Ok l
                 end;
         mret (pd.setitem_scalar (pd.json_normalize props) "region" (pd.CStr region)),
         w')
    end.

Definition cols : list string :=
  ["address"; "region"; "price"; "livingArea"; "lotAreaValue";
   "bathrooms"; "bedrooms"; "daysOnZillow"; "price_per_sqft"].

(** Line 63, right-hand side: [df["price"] / df["livingArea"]]. *)
Definition price_per_sqft (df : pd.DataFrame) : result pd.Series :=
  price ← pd.getitem df "price";
  livingArea ← pd.getitem df "livingArea";
  pd.truediv price livingArea.

(** Lines 64-68: the mask [keep].  The two price bounds and the lot bound are
    Python floats.  [max_days_on_zillow] is a Python int: numpy compares an
    integer column with it as integers and a float column after converting it
    to a double.  Both are the comparison of doubles below as long as the
    bound is smaller than 2^53 in magnitude, where integers and doubles are the
    same numbers; the statements about the filter are made for such bounds. *)
Definition keep (filt : Filter) (df : pd.DataFrame) : result pd.Mask :=
  price ← pd.getattr df "price";
  in_range ← pd.between price (min_price filt) (max_price filt);
  lotAreaValue ← pd.getattr df "lotAreaValue";
  big_lot ← pd.gt lotAreaValue (min_lot_area filt);
  daysOnZillow ← pd.getattr df "daysOnZillow";
  recent ← pd.lt daysOnZillow (float_of_int (max_days_on_zillow filt));
  mret (pd.and_ (pd.and_ in_range big_lot) recent).

(** Step 1 of [run_analysis]: one fetch per region, in the order of the map. *)
Definition collect_all_regions (env : Env) : M (list pd.DataFrame) :=
  mapM (λ rp : string * string, fetch_region_df env rp.1 rp.2) REGION_POLYGON_MAP.

(** Step 2 of [run_analysis], on the concatenated table. *)
Definition derive_and_filter (K : Kernels) (filt : Filter) (df : pd.DataFrame)
  : result pd.DataFrame :=
  ppsf ← price_per_sqft df;
  let df := pd.setitem_series df "price_per_sqft" ppsf in
  keep ← keep filt df;
  sorted ← pd.sort_values K df "daysOnZillow";
  pd.loc sorted keep cols.

Definition run_analysis (K : Kernels) (env : Env) (filt : Filter) : M pd.DataFrame :=
  dfs ← collect_all_regions env;
  df ← lift (pd.concat dfs);
  lift (derive_and_filter K filt df).

(** ** API endpoints *)

Inductive detail : Type :=
  | Str (e : exn)
  | Text (s : string).

Inductive reply : Type :=
  | Rows (body : list (list (string * pd.jval)))
  | HTTPException (status : Z) (d : detail)
  | Unhandled (e : exn).

Definition set_latest_csv (path : string) : M unit :=
  λ w, (Ok tt, mkWorld (Some path) (disk w) (requests w)).

(** [df.to_csv(path, index=False)] opens the path for writing and then writes
    the text.  If the path cannot be opened the call raises and the files stay
    as they were; if writing fails after that the call raises too, and the
    file holds whatever was written until then. *)
Definition to_csv (K : Kernels) (env : Env) (df : pd.DataFrame) (path : string) : M unit :=
  λ w, match storage env path with
       | Written =>
           (Ok tt,
            mkWorld (latest_csv w) (<[path := pd.csv_content K df]> (disk w)) (requests w))
       | Refused => (Raise OSError, w)
       | Interrupted remains =>
           (Raise OSError, mkWorld (latest_csv w) (<[path := remains]> (disk w)) (requests w))
       end.

Definition csv_path (today : string) : string :=
  DATA_PATH ++ "/real_results_" ++ today ++ ".csv".

(** [POST /run-analysis]. *)
Definition run_analysis_endpoint (K : Kernels) (env : Env) (filt : Filter)
  : World → reply * World :=
  λ w,
    let attempt : M (list (list (string * pd.jval))) :=
      df ← run_analysis K env filt;
      let today := date_today env in
      _ ← set_latest_csv (csv_path today);
      _ ← to_csv K env df (csv_path today);
      mret (pd.to_json K df) in
    match attempt w with
    | (Ok body, w') => (Rows body, w')
    | (Raise e, w') => (HTTPException 500 (Str e), w')
    end.

(** [GET /data]. *)
Definition get_latest_data (K : Kernels) : World → reply * World :=
  λ w,
    match latest_csv w with
    | Some path =>
        match disk w !! path with
        | Some file =>
            match pd.read_csv K file with
            | Ok df => (Rows (pd.to_json K df), w)
            | Raise e => (Unhandled e, w)
            end
        | None => (HTTPException 404 (Text "Run the analysis first."), w)
        end
    | None => (HTTPException 404 (Text "Run the analysis first."), w)
    end.

Import pd.

(** * Reading the results

    The notions the statements below are written in. *)

(** ** Rows of the concatenated table *)

Definition num_of (x : pd.cell) : float :=
  match pd.number x with Ok f => f | Raise _ => nan end.

Definition is_number (x : pd.cell) : Prop := ∃ f, pd.number x = Ok f.

Definition numeric_row (r : row) : Prop :=
  is_number (at_ r "price") ∧ is_number (at_ r "livingArea")
  ∧ is_number (at_ r "lotAreaValue") ∧ is_number (at_ r "daysOnZillow").

Definition derived (r : pd.row) : pd.row :=
  <["price_per_sqft" :=
      pd.CNum (PrimFloat.div (num_of (pd.at_ r "price")) (num_of (pd.at_ r "livingArea")))]> r.

Definition keeps (filt : Filter) (r : pd.row) : bool :=
  PrimFloat.leb (min_price filt) (num_of (pd.at_ r "price"))
  && PrimFloat.leb (num_of (pd.at_ r "price")) (max_price filt)
  && PrimFloat.ltb (min_lot_area filt) (num_of (pd.at_ r "lotAreaValue"))
  && PrimFloat.ltb (num_of (pd.at_ r "daysOnZillow")) (float_of_int (max_days_on_zillow filt)).

Definition days (ir : nat * row) : float := num_of (at_ ir.2 "daysOnZillow").

Definition days_le (a b : nat * row) : Prop := PrimFloat.leb (days a) (days b) = true.

Definition days_keys (rs : list (nat * row)) : list float :=
  (λ ir : nat * row, num_of (at_ ir.2 "daysOnZillow")) <$> rs.

Definition project (ir : nat * row) : nat * row := (ir.1, reindex cols ir.2).

(** The rows of the table after line 63. *)
Definition derived_rows (df : DataFrame) : list (nat * row) :=
  (λ ir : nat * row, (ir.1, derived ir.2)) <$> rows df.

(** The rows [run_analysis] returns, read off the concatenated table. *)
Definition kept_rows (K : Kernels) (filt : Filter) (df : DataFrame) : list (nat * row) :=
  project <$> filter (λ ir : nat * row, keeps filt ir.2 = true)
                     (omap (λ i, derived_rows df !! i) (nargsort K (days_keys (derived_rows df)))).

Definition with_ppsf (df : DataFrame) : DataFrame :=
  setitem_series df "price_per_sqft"
    ((λ ir : nat * row,
        (ir.1, CNum (PrimFloat.div (num_of (at_ ir.2 "price"))
                                   (num_of (at_ ir.2 "livingArea"))))) <$> rows df).

Arguments with_ppsf : simpl never.

(** The columns the run reads from the concatenated table. *)
Definition required_columns : list string :=
  ["address"; "region"; "price"; "livingArea"; "lotAreaValue";
   "bathrooms"; "bedrooms"; "daysOnZillow"].

Definition has_columns (df : DataFrame) : Prop :=
  Forall (λ c, c ∈ columns df) required_columns.

(** ** Records, field by field

    The filter and the returned row, read off the fields of a record. *)

(** The number a cell holds; text holds none. *)
Definition value (x : cell) : float :=
  match x with
  | CNum f => f
  | _ => nan
  end.

(** The four fields the run computes with are numbers (possibly missing). *)
Definition numbers (r : row) : Prop :=
  ∀ c, c ∈ ["price"; "livingArea"; "lotAreaValue"; "daysOnZillow"] → ∃ f, at_ r c = CNum f.

(** The filter, on the fields of a record. *)
Definition passes (filt : Filter) (r : row) : bool :=
  PrimFloat.leb (min_price filt) (value (at_ r "price"))
  && PrimFloat.leb (value (at_ r "price")) (max_price filt)
  && PrimFloat.ltb (min_lot_area filt) (value (at_ r "lotAreaValue"))
  && PrimFloat.ltb (value (at_ r "daysOnZillow")) (float_of_int (max_days_on_zillow filt)).

(** The row returned for a record: its output fields and its price per
    square foot. *)
Definition returned (r : row) : row :=
  reindex cols
    (<["price_per_sqft" :=
         CNum (PrimFloat.div (value (at_ r "price")) (value (at_ r "livingArea")))]> r).

Definition days_of (ir : nat * row) : float := value (at_ ir.2 "daysOnZillow").

(** The object the response holds for a record of the concatenated table. *)
Definition response_object (K : Kernels) (r : row) : list (string * jval) :=
  (λ c, (c, jcell K (at_ (returned r) c))) <$> cols.

(** ** The contract of the sort kernel *)

Definition key_le (keys : list float) (i j : nat) : Prop :=
  PrimFloat.leb (default nan (keys !! i)) (default nan (keys !! j)) = true.

(** numpy's contract for [argsort] on keys without NaN: the positions,
    rearranged ... *)
Definition argsort_permutes (K : Kernels) : Prop :=
  ∀ keys, Forall (λ k, is_nan k = false) keys → argsort K keys ≡ₚ seq 0 (length keys).

(** ... so that the keys ascend. *)
Definition argsort_ascending (K : Kernels) : Prop :=
  ∀ keys, Forall (λ k, is_nan k = false) keys →
          StronglySorted (key_le keys) (argsort K keys).

(** ** Requests *)

Definition the_query (polygon : string) : query := mkQuery polygon "ForSale" "Houses".

(** The request did not yield a list of listings: transport failure,
    timeout, an error status, or a body without a [props] array. *)
Definition request_fails (r : http_result) : bool :=
  match r with
  | ConnectionFailed | TimedOut => true
  | Response status body =>
      ((400 <=? status)%Z && (status <? 600)%Z)
      || match body with Props _ => false | _ => true end
  end.

(** What one fetch returns; the world only records the request. *)
Definition fetched (env : Env) (region polygon : string) : result DataFrame :=
  (fetch_region_df env region polygon (mkWorld None ∅ [])).1.

Definition log_request (polygon : string) (w : World) : World :=
  mkWorld (latest_csv w) (disk w) (requests w ++ [mkQuery polygon "ForSale" "Houses"]).

(** The regions a run issues a request for: each region in turn, up to and
    including the first whose request fails (the list comprehension of line
    59 stops at the first exception). *)
Fixpoint attempted (env : Env) (regions : list (string * string)) : list (string * string) :=
  match regions with
  | [] => []
  | rp :: rest =>
      rp :: (if request_fails (http_get env (the_query rp.2)) then [] else attempted env rest)
  end.

(** The exception a response makes [fetch_region_df] raise, if any. *)
Definition fetch_error (r : http_result) : option exn :=
  match r with
  | ConnectionFailed => Some ConnectionError
  | TimedOut => Some Timeout
  | Response status body =>
      if (400 <=? status)%Z && (status <? 600)%Z then Some (HTTPError status)
      else match body with
           | NotJson => Some JSONDecodeError
           | NoProps => Some (KeyError "props")
           | Props _ => None
           end
  end.

(** ** The provider's listings *)

(** The listings a response carries. *)
Definition listings_of (r : http_result) : list listing :=
  match r with
  | Response _ (Props l) => l
  | _ => []
  end.

(** The provider's listings, each with the region it was requested under:
    the regions in the order of the map, the listings of a region in the order
    of the response. *)
Definition stamped (env : Env) : list (string * listing) :=
  REGION_POLYGON_MAP ≫= λ rp : string * string,
    (λ l : listing, (rp.1, l)) <$> listings_of (http_get env (the_query rp.2)).

(** A listing as a record of a region: its own fields, and the region. *)
Definition record (rl : string * listing) : row := <["region" := CStr rl.1]> (dict rl.2).

(** ** What survives the CSV file *)

(** A number survives if it is missing (written as the empty field) or its
    text is not a missing-value marker and reads back as the same float. *)
Definition number_survives (K : Kernels) (x : cell) : bool :=
  match x with
  | CNum f =>
      is_nan f
      || (negb (is_na (float_repr K f))
          && match read_number K (float_repr K f) with
             | Some g => PrimFloat.Leibniz.eqb g f
             | None => false
             end)
  | _ => false
  end.

(** A text survives if it is missing or is neither a missing-value marker
    nor read as a number or a boolean. *)
Definition text_survives (K : Kernels) (x : cell) : bool :=
  match x with
  | CNum f => is_nan f
  | CStr s =>
      negb (is_na s)
      && negb (bool_decide (is_Some (read_number K s)))
      && negb (bool_decide (is_Some (read_bool s)))
  | CBool _ => false
  end.

(** A column survives if it is all numbers or all text. *)
Definition column_survives (K : Kernels) (cells : list cell) : bool :=
  forallb (number_survives K) cells || forallb (text_survives K) cells.

Definition survives_csv (K : Kernels) (df : DataFrame) : bool :=
  forallb (λ c, column_survives K ((λ ir : nat * row, at_ ir.2 c) <$> rows df)) (columns df).

(** ** A series of runs *)

(** The state after a series of [POST /run-analysis] requests, each with its
    own environment and filter. *)
Definition after_runs (K : Kernels) (runs : list (Env * Filter)) (w : World) : World :=
  foldl (λ w (r : Env * Filter), (run_analysis_endpoint K r.1 r.2 w).2) w runs.

(** * Reference kernels

    An insertion sort on positions, which leaves equal keys in their input
    order (numpy sorts up to 17 places this way); a printer and a reader of
    whole numbers. *)

Fixpoint insert_index (before : nat → nat → bool) (i : nat) (sorted : list nat) : list nat :=
  match sorted with
  | [] => [i]
  | j :: rest => if before i j then i :: sorted else j :: insert_index before i rest
  end.

Definition insertion_argsort (before : float → float → bool) (keys : list float) : list nat :=
  foldl (λ sorted i,
           insert_index (λ a b, before (default nan (keys !! a)) (default nan (keys !! b)))
                        i sorted)
        [] (seq 0 (length keys)).

(** Equal keys keep their order. *)
Definition argsort_stable : list float → list nat := insertion_argsort PrimFloat.ltb.

(** The integer a float is, if it is one. *)
Definition whole (f : float) : option Z :=
  match Prim2SF f with
  | S754_zero _ => Some 0%Z
  | S754_finite s m e =>
      let sign (z : Z) := if s then (- z)%Z else z in
      if (0 <=? e)%Z then Some (sign (Z.pos m * 2 ^ e)%Z)
      else if (Z.pos m mod 2 ^ (- e) =? 0)%Z then Some (sign (Z.pos m / 2 ^ (- e))%Z)
      else None
  | _ => None
  end.

(** Whole numbers are written as Python writes them ("1800000.0"); other
    floats are outside this printer's domain. *)
Definition repr_whole (f : float) : string :=
  match whole f with
  | Some z => NilZero.string_of_int (Z.to_int z) ++ ".0"
  | None => "?"
  end.

Fixpoint strip_point_zero (s : string) : option string :=
  match s with
  | "" => None
  | ".0" => Some ""
  | String a rest => String a <$> strip_point_zero rest
  end.

(** Reads "<digits>.0" and "<digits>", with an optional sign. *)
Definition read_whole (s : string) : option float :=
  z ← NilZero.int_of_string (default s (strip_point_zero s));
  Some (float_of_int (Z.of_int z)).

(** Reference kernels: an insertion sort, printing and reading of whole
    numbers, numbers rendered unrounded. *)
Definition K_stable : Kernels :=
  Build_Kernels argsort_stable repr_whole read_whole (λ f, f).

(** ** numpy's quicksort

    [argsort(kind="quicksort")] on doubles as [npysort/quicksort.cpp] has it
    in its portable form: the positions are sorted in place, by the keys they
    point to. *)

(** numpy's order on doubles: NaN sorts last. *)
Definition less (a b : float) : bool :=
  PrimFloat.ltb a b || (is_nan b && negb (is_nan a)).

(** The position held at place [p] of the array being sorted. *)
Definition at_pos (a : list nat) (p : nat) : nat := default 0 (a !! p).

Definition key_at (v : list float) (a : list nat) (p : nat) : float :=
  default nan (v !! at_pos a p).

Definition swap (a : list nat) (p q : nat) : list nat :=
  <[q := at_pos a p]> (<[p := at_pos a q]> a).

(** The three conditional swaps that put the median of the first, middle
    and last key in the middle. *)
Definition median3 (v : list float) (a : list nat) (pl pm pr : nat) : list nat :=
  let a := if less (key_at v a pm) (key_at v a pl) then swap a pm pl else a in
  let a := if less (key_at v a pr) (key_at v a pm) then swap a pr pm else a in
  if less (key_at v a pm) (key_at v a pl) then swap a pm pl else a.

(** [do ++pi; while (less(v[*pi], vp))]. *)
Fixpoint scan_right (fuel : nat) (v : list float) (a : list nat) (vp : float) (pi : nat)
  : nat :=
  match fuel with
  | 0 => S pi
  | S fuel =>
      if less (key_at v a (S pi)) vp then scan_right fuel v a vp (S pi) else S pi
  end.

(** [do --pj; while (less(vp, v[*pj]))]. *)
Fixpoint scan_left (fuel : nat) (v : list float) (a : list nat) (vp : float) (pj : nat)
  : nat :=
  match fuel with
  | 0 => pj - 1
  | S fuel =>
      if less vp (key_at v a (pj - 1)) then scan_left fuel v a vp (pj - 1) else pj - 1
  end.

(** The exchange loop of the partition, until the two scans meet. *)
Fixpoint exchange (fuel : nat) (v : list float) (a : list nat) (vp : float) (pi pj : nat)
  : list nat * nat :=
  match fuel with
  | 0 => (a, pi)
  | S fuel =>
      let pi := scan_right (length a) v a vp pi in
      let pj := scan_left (length a) v a vp pj in
      if (pj <=? pi)%nat then (a, pi) else exchange fuel v (swap a pi pj) vp pi pj
  end.

(** One partition of the places [pl..pr]: the array after it and the place
    of the pivot. *)
Definition partition (v : list float) (a : list nat) (pl pr : nat) : list nat * nat :=
  let pm := pl + (pr - pl) / 2 in
  let a := median3 v a pl pm pr in
  let vp := key_at v a pm in
  let a := swap a pm (pr - 1) in
  let '(a, pi) := exchange (length a) v a vp pl (pr - 1) in
  (swap a pi (pr - 1), pi).

(** The inner loop of the insertion sort: the place for [vi] among the
    places before [pj]. *)
Fixpoint sift (fuel : nat) (v : list float) (a : list nat) (vi pl pj : nat) : list nat :=
  match fuel with
  | 0 => <[pj := vi]> a
  | S fuel =>
      if (pl <? pj)%nat && less (default nan (v !! vi)) (key_at v a (pj - 1))
      then sift fuel v (<[pj := at_pos a (pj - 1)]> a) vi pl (pj - 1)
      else <[pj := vi]> a
  end.

(** Insertion sort of the places [pl..pr]. *)
Definition insertion (v : list float) (a : list nat) (pl pr : nat) : list nat :=
  foldl (λ a pi, sift (length a) v a (at_pos a pi) pl pi) a (seq (S pl) (pr - pl)).

(** The heap sort numpy falls back to: the places [pl..pl+n-1] are the heap
    entries 1..n. *)
Definition heap_at (a : list nat) (pl k : nat) : nat := at_pos a (pl + k - 1).

Fixpoint sift_down (fuel : nat) (v : list float) (a : list nat) (pl n tmp i j : nat)
  : list nat :=
  match fuel with
  | 0 => <[pl + i - 1 := tmp]> a
  | S fuel =>
      if (j <=? n)%nat then
        let j := if (j <? n)%nat && less (default nan (v !! heap_at a pl j))
                                     (default nan (v !! heap_at a pl (j + 1)))
                 then j + 1 else j in
        if less (default nan (v !! tmp)) (default nan (v !! heap_at a pl j))
        then sift_down fuel v (<[pl + i - 1 := heap_at a pl j]> a) pl n tmp j (j + j)
        else <[pl + i - 1 := tmp]> a
      else <[pl + i - 1 := tmp]> a
  end.

Definition heapsort (v : list float) (a : list nat) (pl n : nat) : list nat :=
  let a := foldl (λ a l, sift_down n v a pl n (heap_at a pl l) l (l + l))
                 a (reverse (seq 1 (n / 2))) in
  foldl (λ a m, sift_down n v (<[pl + m - 1 := heap_at a pl 1]> a) pl (m - 1)
                          (heap_at a pl m) 1 2)
        a (reverse (seq 2 (n - 1))).

(** The sort of the places [pl..pr].  More than 17 places are partitioned,
    the smaller part is gone on with and the larger part is put on the stack;
    a part taken from the stack ([popped]) is heap-sorted once the depth
    budget is used up; 17 places or fewer are insertion-sorted. *)
Fixpoint quick (fuel : nat) (v : list float) (a : list nat) (pl pr : nat) (cdepth : Z)
    (popped : bool) : list nat :=
  match fuel with
  | 0 => a
  | S fuel =>
      if popped && (cdepth <? 0)%Z then heapsort v a pl (pr - pl + 1)
      else if (16 <? pr - pl)%nat then
        let '(a, pi) := partition v a pl pr in
        let cdepth := (cdepth - 1)%Z in
        if (pi - pl <? pr - pi)%nat
        then quick fuel v (quick fuel v a pl (pi - 1) cdepth false) (pi + 1) pr cdepth true
        else quick fuel v (quick fuel v a (pi + 1) pr cdepth false) pl (pi - 1) cdepth true
      else insertion v a pl pr
  end.

(** numpy's [argsort(kind="quicksort")] in its portable form
    ([npysort/quicksort.cpp], [aquicksort_]). *)
Definition aquicksort (v : list float) : list nat :=
  match length v with
  | 0 => []
  | S n => quick (S n) v (seq 0 (S n)) 0 n (2 * Z.log2 (Z.of_nat (S n))) true
  end.

Definition K_quicksort : Kernels :=
  Build_Kernels aquicksort repr_whole read_whole (λ f, f).

(** * Scenarios *)

Definition Filter_default : Filter := mkFilter 1700000 2000000 4000 30.

Definition listing_A : listing :=
  [("address", SStr "1 First St"); ("price", SNum 1800000); ("livingArea", SNum 2000);
   ("lotAreaValue", SNum 5000); ("bathrooms", SNum 2); ("bedrooms", SNum 3);
   ("daysOnZillow", SNum 10)].

Definition listing_B : listing :=
  [("address", SStr "2 Second St"); ("price", SNum 1900000); ("livingArea", SNum 1900);
   ("lotAreaValue", SNum 3000); ("bathrooms", SNum 2); ("bedrooms", SNum 3);
   ("daysOnZillow", SNum 5)].

(** Two listings of one region with the same [daysOnZillow]. *)
Definition listing_A2 : listing :=
  [("address", SStr "4 Fourth St"); ("price", SNum 1850000); ("livingArea", SNum 2100);
   ("lotAreaValue", SNum 6000); ("bathrooms", SNum 3); ("bedrooms", SNum 4);
   ("daysOnZillow", SNum 10)].

(** A listing that already has a [region] key. *)
Definition listing_R : listing :=
  [("address", SStr "3 Third St"); ("region", SStr "provider-side"); ("price", SNum 1750000);
   ("livingArea", SNum 1500); ("lotAreaValue", SNum 4500); ("bathrooms", SNum 2);
   ("bedrooms", SNum 3); ("daysOnZillow", SNum 7)].

(** A listing with no living area. *)
Definition listing_Z : listing :=
  [("address", SStr "5 Fifth St"); ("price", SNum 1800000); ("livingArea", SNum 0);
   ("lotAreaValue", SNum 5000); ("bathrooms", SNum 2); ("bedrooms", SNum 3);
   ("daysOnZillow", SNum 3)].

(** A listing whose address is the empty string. *)
Definition listing_blank : listing :=
  [("address", SStr ""); ("price", SNum 1800000); ("livingArea", SNum 2000);
   ("lotAreaValue", SNum 5000); ("bathrooms", SNum 2); ("bedrooms", SNum 3);
   ("daysOnZillow", SNum 10)].

(** A provider that answers the first region with the first list and every
    other region with the second. *)
Definition provider (first second : list listing) (q : query) : http_result :=
  if bool_decide (Some (polygon q) = snd <$> head REGION_POLYGON_MAP)
  then Response 200 (Props first)
  else Response 200 (Props second).

Definition env_AB : Env :=
  mkEnv (provider [listing_A] [listing_B]) "2025-06-01" (λ _, Written).

Definition env_R : Env :=
  mkEnv (provider [listing_R; listing_A] []) "2025-06-01" (λ _, Written).

Definition env_Z : Env :=
  mkEnv (provider [listing_A; listing_Z] [listing_B]) "2025-06-01" (λ _, Written).

Definition env_blank : Env := mkEnv (provider [listing_blank] []) "2025-06-01" (λ _, Written).

Definition env_empty : Env := mkEnv (provider [] []) "2025-06-01" (λ _, Written).

(** The second region times out. *)
Definition env_timeout : Env :=
  mkEnv (λ q, if bool_decide (Some (polygon q) = snd <$> head REGION_POLYGON_MAP)
              then Response 200 (Props [listing_A]) else TimedOut)
        "2025-06-01" (λ _, Written).

(** The storage refuses every write. *)
Definition env_readonly : Env :=
  mkEnv (provider [listing_A] [listing_B]) "2025-06-01" (λ _, Refused).

Definition south_bay : string * string := default ("", "") (head REGION_POLYGON_MAP).

Definition bandao : string * string := default ("", "") (REGION_POLYGON_MAP !! 1).

Definition fresh : World := mkWorld None ∅ [].

Definition yesterday : World :=
  mkWorld (Some "data/real_results_2025-05-31.csv")
          {["data/real_results_2025-05-31.csv" := mkCsv cols []]} [].

(** A process that has just started, over a data directory that already
    holds today's file from an earlier process. *)
Definition restarted : World :=
  mkWorld None
          {["data/real_results_2025-06-01.csv" :=
              mkCsv ["address"; "region"] [["9 Ninth St"; "bandao"]]]} [].

Definition frame_of (x : result DataFrame * World) : DataFrame :=
  match x.1 with Ok df => df | Raise _ => mkDF [] [] end.

Definition frames_of (x : result (list DataFrame) * World) : list DataFrame :=
  match x.1 with Ok dfs => dfs | Raise _ => [] end.

Definition concatenated (env : Env) (w : World) : DataFrame :=
  match concat (frames_of (collect_all_regions env w)) with
  | Ok df => df
  | Raise _ => mkDF [] []
  end.

Definition after_refused_write : World :=
  (run_analysis_endpoint K_stable env_readonly Filter_default yesterday).2.

Definition after_only_run_failed : World :=
  (run_analysis_endpoint K_stable env_readonly Filter_default restarted).2.

Definition after_blank_run : World :=
  (run_analysis_endpoint K_stable env_blank Filter_default fresh).2.

(** A listing without a lot area. *)
Definition listing_no_lot : listing :=
  [("address", SStr "6 Sixth St"); ("price", SNum 1800000); ("livingArea", SNum 2000);
   ("bathrooms", SNum 2); ("bedrooms", SNum 3); ("daysOnZillow", SNum 4)].

Definition env_gap : Env :=
  mkEnv (provider [listing_A; listing_no_lot] [listing_B]) "2025-06-01" (λ _, Written).

(** A second provider and a later day, for runs that follow one another. *)
Definition env_next_day : Env :=
  mkEnv (provider [listing_A; listing_A2] []) "2025-06-02" (λ _, Written).

(** A filter wider than the default in every bound. *)
Definition Filter_wide : Filter := mkFilter 1000000 3000000 1000 60.

(** Listings on the bounds of the default filter: the price at its upper
    bound, the lot area at its bound, the days at their bound, the price at its
    lower bound. *)
Definition listing_max_price : listing :=
  [("address", SStr "11 Bound St"); ("price", SNum 2000000); ("livingArea", SNum 2000);
   ("lotAreaValue", SNum 5000); ("bathrooms", SNum 2); ("bedrooms", SNum 3);
   ("daysOnZillow", SNum 10)].

Definition listing_min_lot : listing :=
  [("address", SStr "12 Bound St"); ("price", SNum 1800000); ("livingArea", SNum 2000);
   ("lotAreaValue", SNum 4000); ("bathrooms", SNum 2); ("bedrooms", SNum 3);
   ("daysOnZillow", SNum 10)].

Definition listing_max_days : listing :=
  [("address", SStr "13 Bound St"); ("price", SNum 1800000); ("livingArea", SNum 2000);
   ("lotAreaValue", SNum 5000); ("bathrooms", SNum 2); ("bedrooms", SNum 3);
   ("daysOnZillow", SNum 30)].

Definition listing_min_price : listing :=
  [("address", SStr "14 Bound St"); ("price", SNum 1700000); ("livingArea", SNum 2000);
   ("lotAreaValue", SNum 5000); ("bathrooms", SNum 2); ("bedrooms", SNum 3);
   ("daysOnZillow", SNum 29)].

Definition env_bounds : Env :=
  mkEnv (provider [listing_max_price; listing_min_lot; listing_max_days] [listing_min_price])
        "2025-06-01" (λ _, Written).

(** A listing that differs from its neighbours in street and days only; it
    passes the default filter. *)
Definition listing_on (street : string) (days : float) : listing :=
  [("address", SStr street); ("price", SNum 1800000); ("livingArea", SNum 2000);
   ("lotAreaValue", SNum 5000); ("bathrooms", SNum 2); ("bedrooms", SNum 3);
   ("daysOnZillow", SNum days)].

(** Twenty listings, ten per region, on the market for ten and five days in
    turn. *)
Definition ties_south_bay : list listing :=
  [listing_on "0 Tie St" 10; listing_on "1 Tie St" 5; listing_on "2 Tie St" 10;
   listing_on "3 Tie St" 5; listing_on "4 Tie St" 10; listing_on "5 Tie St" 5;
   listing_on "6 Tie St" 10; listing_on "7 Tie St" 5; listing_on "8 Tie St" 10;
   listing_on "9 Tie St" 5].

Definition ties_bandao : list listing :=
  [listing_on "10 Tie St" 10; listing_on "11 Tie St" 5; listing_on "12 Tie St" 10;
   listing_on "13 Tie St" 5; listing_on "14 Tie St" 10; listing_on "15 Tie St" 5;
   listing_on "16 Tie St" 10; listing_on "17 Tie St" 5; listing_on "18 Tie St" 10;
   listing_on "19 Tie St" 5].

Definition env_ties : Env :=
  mkEnv (provider ties_south_bay ties_bandao) "2025-06-01" (λ _, Written).

(** The second and the ninth row of the run on [env_ties]. *)
Definition returned_second : nat * row :=
  default (0, ∅)
    (rows (frame_of (run_analysis K_quicksort env_ties Filter_default fresh)) !! 1).

Definition returned_ninth : nat * row :=
  default (0, ∅)
    (rows (frame_of (run_analysis K_quicksort env_ties Filter_default fresh)) !! 8).

(** * Lemmas *)

(** ** IEEE-754 facts about the comparisons and the division of Python floats *)

Module IEEE.

Ltac sf_order :=
  unfold SFleb, SFltb, SFeqb, SFcompare;
  repeat match goal with
         | x : spec_float |- _ => destruct x
         end;
  repeat match goal with
         | s : bool |- _ => destruct s
         end;
  simpl; try discriminate; try reflexivity;
  change (Pos.compare_cont Eq) with Pos.compare;
  repeat match goal with
         | |- context [Z.compare ?a ?b] => destruct (Z.compare_spec a b)
         | |- context [Pos.compare ?a ?b] => destruct (Pos.compare_spec a b)
         end;
  simpl; intros; try discriminate; try reflexivity; try lia.

Lemma SFleb_trans (a b c : spec_float) :
  SFleb a b = true → SFleb b c = true → SFleb a c = true.
Proof. sf_order. Qed.

Lemma SFleb_not_ltb (a b : spec_float) :
  SFleb a b = true → SFltb b a = false.
Proof. sf_order. Qed.

Lemma SFleb_total (a b : spec_float) :
  SFeqb a a = true → SFeqb b b = true → SFleb a b = false → SFleb b a = true.
Proof. sf_order. Qed.

Lemma SFltb_leb (a b : spec_float) : SFltb a b = true → SFleb a b = true.
Proof. sf_order. Qed.

Lemma SFltb_total (a b : spec_float) :
  SFeqb a a = true → SFeqb b b = true → SFltb a b = false → SFleb b a = true.
Proof. sf_order. Qed.

Lemma SFltb_nan (a b : spec_float) : SFeqb a a = false → SFltb a b = false.
Proof. sf_order. Qed.

Lemma SFeqb_leb (a b : spec_float) : SFeqb a b = true → SFleb a b = true.
Proof. sf_order. Qed.

Lemma SFeqb_not_ltb (a b : spec_float) : SFeqb a b = true → SFltb a b = false.
Proof. sf_order. Qed.

Lemma SFeqb_not_gtb (a b : spec_float) : SFeqb a b = true → SFltb b a = false.
Proof. sf_order. Qed.

Lemma SFeqb_zero (a : spec_float) :
  SFeqb a (S754_zero false) = true → ∃ s, a = S754_zero s.
Proof. destruct a as [s|s| |s m e]; try destruct s; simpl; try discriminate; eauto. Qed.

Lemma SFdiv_zero (a : spec_float) (s : bool) :
  SF64div a (S754_zero s) = S754_nan ∨ ∃ t, SF64div a (S754_zero s) = S754_infinity t.
Proof. destruct a; simpl; eauto. Qed.

Lemma leb_trans (a b c : float) :
  PrimFloat.leb a b = true → PrimFloat.leb b c = true → PrimFloat.leb a c = true.
Proof. rewrite !FloatAxioms.leb_spec. apply SFleb_trans. Qed.

Lemma leb_not_ltb (a b : float) :
  PrimFloat.leb a b = true → PrimFloat.ltb b a = false.
Proof. rewrite FloatAxioms.leb_spec, FloatAxioms.ltb_spec. apply SFleb_not_ltb. Qed.

Lemma leb_total (a b : float) :
  is_nan a = false → is_nan b = false →
  PrimFloat.leb a b = false → PrimFloat.leb b a = true.
Proof.
  unfold is_nan. intros Ha Hb.
  apply negb_false_iff in Ha, Hb. rewrite FloatAxioms.eqb_spec in Ha, Hb.
  rewrite !FloatAxioms.leb_spec. by apply SFleb_total.
Qed.

Lemma ltb_leb (a b : float) :
  PrimFloat.ltb a b = true → PrimFloat.leb a b = true.
Proof. rewrite FloatAxioms.ltb_spec, FloatAxioms.leb_spec. apply SFltb_leb. Qed.

Lemma ltb_total (a b : float) :
  is_nan a = false → is_nan b = false →
  PrimFloat.ltb a b = false → PrimFloat.leb b a = true.
Proof.
  unfold is_nan. intros Ha Hb.
  apply negb_false_iff in Ha, Hb. rewrite FloatAxioms.eqb_spec in Ha, Hb.
  rewrite FloatAxioms.ltb_spec, FloatAxioms.leb_spec. by apply SFltb_total.
Qed.

Lemma ltb_nan (a b : float) : is_nan a = true → PrimFloat.ltb a b = false.
Proof.
  unfold is_nan. intros Ha. apply negb_true_iff in Ha.
  rewrite FloatAxioms.eqb_spec in Ha. rewrite FloatAxioms.ltb_spec.
  by apply SFltb_nan.
Qed.

Lemma eqb_leb (a b : float) :
  PrimFloat.eqb a b = true → PrimFloat.leb a b = true.
Proof. rewrite FloatAxioms.eqb_spec, FloatAxioms.leb_spec. apply SFeqb_leb. Qed.

Lemma eqb_not_ltb (a b : float) :
  PrimFloat.eqb a b = true → PrimFloat.ltb a b = false.
Proof. rewrite FloatAxioms.eqb_spec, FloatAxioms.ltb_spec. apply SFeqb_not_ltb. Qed.

Lemma eqb_not_gtb (a b : float) :
  PrimFloat.eqb a b = true → PrimFloat.ltb b a = false.
Proof. rewrite FloatAxioms.eqb_spec, FloatAxioms.ltb_spec. apply SFeqb_not_gtb. Qed.

(** Dividing by a zero of either sign never yields a finite number. *)
Lemma div_zero_not_finite (a z : float) :
  is_zero z = true → is_finite (PrimFloat.div a z) = false.
Proof.
  unfold is_zero, is_finite, is_nan, is_infinity. intros Hz.
  rewrite FloatAxioms.eqb_spec in Hz. apply SFeqb_zero in Hz as [s Hs].
  rewrite !FloatAxioms.eqb_spec, abs_spec, div_spec, Hs.
  destruct (SFdiv_zero (Prim2SF a) s) as [-> | [[] ->]]; reflexivity.
Qed.

End IEEE.

(** ** Results and [mapM] *)

(** Membership in a list that is written out. *)
Ltac in_list := repeat first [apply list_elem_of_here | apply list_elem_of_further].

Section result_lemmas.
Context {A B : Type}.

Lemma bind_Ok (m : result A) (f : A → result B) (b : B) :
  m ≫= f = Ok b ↔ ∃ a, m = Ok a ∧ f a = Ok b.
Proof. destruct m; simpl; split; [eauto | intros (? & [= ->] & ?); done | done | intros (? & ? & ?); done]. Qed.

Lemma mapM_Ok_fmap (f : A → result B) (g : A → B) (l : list A) :
  Forall (λ a, f a = Ok (g a)) l → mapM f l = Ok (g <$> l).
Proof.
  induction 1 as [|a l Ha _ IH]; [done|].
  simpl. rewrite Ha. simpl. rewrite IH. done.
Qed.

Lemma mapM_Ok_inv (f : A → result B) (l : list A) (k : list B) :
  mapM f l = Ok k → Forall2 (λ a b, f a = Ok b) l k.
Proof.
  revert k. induction l as [|a l IH]; intros k; simpl.
  - intros [= <-]. constructor.
  - destruct (f a) as [b|e] eqn:Ha; [|done]. simpl.
    destruct (mapM f l) as [k'|e]; [|done]. simpl.
    intros [= <-]. constructor; auto.
Qed.
End result_lemmas.

Lemma number_num_of (x : pd.cell) (f : float) : pd.number x = Ok f → num_of x = f.
Proof. unfold num_of. by intros ->. Qed.

Lemma is_number_num_of (x : pd.cell) : is_number x → pd.number x = Ok (num_of x).
Proof. intros [f Hf]. by rewrite (number_num_of _ _ Hf). Qed.

(** Elementwise operations that read one number per entry. *)
Lemma mapM_number {A B : Type} (h : A → pd.cell) (g : A → float → B) (l : list A) (k : list B) :
  mapM (λ a, x ← pd.number (h a); mret (g a x)) l = Ok k →
  Forall (λ a, is_number (h a)) l ∧ k = (λ a, g a (num_of (h a))) <$> l.
Proof.
  intros H%mapM_Ok_inv. induction H as [|a b l k Hab _ [IH1 IH2]]; [done|].
  apply bind_Ok in Hab as (x & Hx & [= <-]).
  split; [constructor; [by exists x|done]|].
  simpl. by rewrite (number_num_of _ _ Hx), IH2.
Qed.

Lemma mapM_number_Ok {A B : Type} (h : A → pd.cell) (g : A → float → B) (l : list A) :
  Forall (λ a, is_number (h a)) l →
  mapM (λ a, x ← pd.number (h a); mret (g a x)) l = Ok ((λ a, g a (num_of (h a))) <$> l).
Proof.
  intros H. apply mapM_Ok_fmap. eapply Forall_impl; [done|].
  intros a Ha. simpl. by rewrite (is_number_num_of _ Ha).
Qed.

(** Lookup by label in a list whose labels are distinct. *)
Lemma find_label {A : Type} (l : list (nat * A)) (i : nat) (x : A) :
  NoDup l.*1 → (i, x) ∈ l →
  find (λ p : nat * A, bool_decide (p.1 = i)) l = Some (i, x).
Proof.
  induction l as [|[j y] l IH]; simpl; intros Hnd Hin.
  - by apply elem_of_nil in Hin.
  - apply NoDup_cons in Hnd as [Hj Hnd].
    apply elem_of_cons in Hin as [[= <- <-]|Hin].
    + by rewrite bool_decide_eq_true_2.
    + rewrite bool_decide_eq_false_2; [by apply IH|].
      intros ->. apply Hj. apply list_elem_of_fmap. by exists (i, x).
Qed.

(** ** Operations on the columns of one table *)

Lemma mapM_Ok_char {A B : Type} (f : A → result B) (g : A → B) (P : A → Prop)
    (l : list A) (k : list B) :
  (∀ a b, a ∈ l → f a = Ok b → P a ∧ b = g a) →
  mapM f l = Ok k → Forall P l ∧ k = g <$> l.
Proof.
  intros Hf H%mapM_Ok_inv. induction H as [|a b l k Hab _ IH]; [done|].
  destruct (Hf a b) as [HP ->]; [left|done|].
  destruct IH as [IH1 ->]; [intros; apply Hf; [by right|done]|].
  split; [by constructor|done].
Qed.

Lemma mapM_result_fmap {A B C : Type} (f : B → result C) (g : A → B) (l : list A) :
  mapM f (g <$> l) = mapM (f ∘ g) l.
Proof.
  induction l as [|a l IH]; [done|]. csimpl.
  destruct (f (g a)); [|done]. simpl. f_equal. exact IH.
Qed.

Lemma labels_fmap {A B : Type} (h : nat * A → B) (l : list (nat * A)) :
  ((λ ir, (ir.1, h ir)) <$> l).*1 = l.*1.
Proof. rewrite <- list_fmap_compose. done. Qed.

Section frame_lemmas.
Variable df : DataFrame.
Hypothesis labels : NoDup (rows df).*1.

Lemma series_at_column (c : string) (ir : nat * row) :
  ir ∈ rows df → series_at (column df c) ir.1 = at_ ir.2 c.
Proof.
  intros Hin. unfold series_at, column.
  rewrite (find_label _ ir.1 (at_ ir.2 c)); [done| |].
  - by rewrite (labels_fmap (λ ir, at_ ir.2 c)).
  - apply list_elem_of_fmap. by exists ir.
Qed.

Lemma mask_at_rows (h : row → bool) (ir : nat * row) :
  ir ∈ rows df →
  mask_at ((λ ir : nat * row, (ir.1, h ir.2)) <$> rows df) ir.1 = Some (h ir.2).
Proof.
  intros Hin. unfold mask_at.
  rewrite (find_label _ ir.1 (h ir.2)); [done| |].
  - by rewrite (labels_fmap (λ ir, h ir.2)).
  - apply list_elem_of_fmap. by exists ir.
Qed.

Lemma and_rows (h1 h2 : row → bool) :
  and_ ((λ ir : nat * row, (ir.1, h1 ir.2)) <$> rows df)
       ((λ ir : nat * row, (ir.1, h2 ir.2)) <$> rows df)
  = (λ ir : nat * row, (ir.1, h1 ir.2 && h2 ir.2)) <$> rows df.
Proof.
  unfold and_. rewrite <- list_fmap_compose.
  apply Forall_fmap_ext, Forall_forall. intros ir Hin. simpl.
  by rewrite (mask_at_rows h2 ir Hin).
Qed.

Lemma truediv_columns (c1 c2 : string) (s : Series) :
  truediv (column df c1) (column df c2) = Ok s →
  Forall (λ ir, is_number (at_ ir.2 c1) ∧ is_number (at_ ir.2 c2)) (rows df)
  ∧ s = (λ ir : nat * row,
           (ir.1, CNum (PrimFloat.div (num_of (at_ ir.2 c1)) (num_of (at_ ir.2 c2)))))
        <$> rows df.
Proof.
  unfold truediv. set (b := column df c2). unfold column.
  rewrite mapM_result_fmap. subst b.
  apply mapM_Ok_char. intros ir b Hin. simpl.
  rewrite (series_at_column c2 ir Hin).
  intros (x & Hx & (y & Hy & [= <-])%bind_Ok)%bind_Ok.
  rewrite (number_num_of _ _ Hx), (number_num_of _ _ Hy).
  split; [split; by eexists|done].
Qed.

Lemma truediv_columns_Ok (c1 c2 : string) :
  Forall (λ ir, is_number (at_ ir.2 c1) ∧ is_number (at_ ir.2 c2)) (rows df) →
  truediv (column df c1) (column df c2)
  = Ok ((λ ir : nat * row,
           (ir.1, CNum (PrimFloat.div (num_of (at_ ir.2 c1)) (num_of (at_ ir.2 c2)))))
        <$> rows df).
Proof.
  intros H. unfold truediv. set (b := column df c2). unfold column.
  rewrite mapM_result_fmap. subst b.
  apply mapM_Ok_fmap. rewrite Forall_forall in H |- *. intros ir Hin. simpl.
  destruct (H ir Hin) as [H1 H2].
  rewrite (series_at_column c2 ir Hin).
  by rewrite (is_number_num_of _ H1), (is_number_num_of _ H2).
Qed.

(** A comparison of a column against a bound. *)
Lemma compare_column (c : string) (test : float → bool) (m : Mask) :
  mapM (λ ix : nat * cell, x ← number ix.2; mret (ix.1, test x)) (column df c) = Ok m →
  Forall (λ ir, is_number (at_ ir.2 c)) (rows df)
  ∧ m = (λ ir : nat * row, (ir.1, test (num_of (at_ ir.2 c)))) <$> rows df.
Proof.
  unfold column. rewrite mapM_result_fmap.
  apply mapM_Ok_char. intros ir b Hin. simpl.
  intros (x & Hx & [= <-])%bind_Ok.
  rewrite (number_num_of _ _ Hx). split; [by eexists|done].
Qed.

Lemma compare_column_Ok (c : string) (test : float → bool) :
  Forall (λ ir, is_number (at_ ir.2 c)) (rows df) →
  mapM (λ ix : nat * cell, x ← number ix.2; mret (ix.1, test x)) (column df c)
  = Ok ((λ ir : nat * row, (ir.1, test (num_of (at_ ir.2 c)))) <$> rows df).
Proof.
  intros H. unfold column. rewrite mapM_result_fmap.
  apply mapM_Ok_fmap. eapply Forall_impl; [done|]. intros ir Hir. simpl.
  by rewrite (is_number_num_of _ Hir).
Qed.
End frame_lemmas.

(** ** What a run that returns has computed *)

Lemma getitem_Ok (df : DataFrame) (c : string) (s : Series) :
  getitem df c = Ok s ↔ c ∈ columns df ∧ s = column df c.
Proof.
  unfold getitem. case_bool_decide; split; try done.
  - by intros [= <-].
  - by intros [_ ->].
  - by intros [? _].
Qed.

Lemma getattr_Ok (df : DataFrame) (c : string) (s : Series) :
  getattr df c = Ok s ↔ c ∈ columns df ∧ s = column df c.
Proof.
  unfold getattr. case_bool_decide; split; try done.
  - by intros [= <-].
  - by intros [_ ->].
  - by intros [? _].
Qed.

Lemma at_derived (r : row) (c : string) :
  c ≠ "price_per_sqft" → at_ (derived r) c = at_ r c.
Proof. intros Hc. unfold at_, derived. by rewrite lookup_insert_ne. Qed.

Lemma at_derived_ppsf (r : row) :
  at_ (derived r) "price_per_sqft"
  = CNum (PrimFloat.div (num_of (at_ r "price")) (num_of (at_ r "livingArea"))).
Proof. unfold at_, derived. by rewrite lookup_insert_eq. Qed.

Lemma keeps_derived (filt : Filter) (r : row) : keeps filt (derived r) = keeps filt r.
Proof. unfold keeps. by rewrite !at_derived. Qed.

Lemma derived_rows_labels (df : DataFrame) : (derived_rows df).*1 = (rows df).*1.
Proof. unfold derived_rows. by rewrite (labels_fmap (λ ir, derived ir.2)). Qed.

Lemma setitem_series_rows (df : DataFrame) (c : string) (h : row → cell) :
  NoDup (rows df).*1 →
  rows (setitem_series df c ((λ ir : nat * row, (ir.1, h ir.2)) <$> rows df))
  = (λ ir : nat * row, (ir.1, <[c := h ir.2]> ir.2)) <$> rows df.
Proof.
  intros Hnd. simpl. apply Forall_fmap_ext, Forall_forall. intros ir Hin.
  unfold series_at. rewrite (find_label _ ir.1 (h ir.2)); [done| |].
  - by rewrite (labels_fmap (λ ir, h ir.2)).
  - apply list_elem_of_fmap. by exists ir.
Qed.

Lemma price_per_sqft_Ok (df : DataFrame) (s : Series) :
  NoDup (rows df).*1 →
  price_per_sqft df = Ok s →
  "price" ∈ columns df ∧ "livingArea" ∈ columns df
  ∧ Forall (λ ir, is_number (at_ ir.2 "price") ∧ is_number (at_ ir.2 "livingArea")) (rows df)
  ∧ rows (setitem_series df "price_per_sqft" s) = derived_rows df.
Proof.
  intros Hnd. unfold price_per_sqft.
  intros (p & [Hp ->]%getitem_Ok & (l & [Hl ->]%getitem_Ok & H)%bind_Ok)%bind_Ok.
  apply truediv_columns in H as [Hnum ->]; [|done].
  repeat split; [done..|].
  by rewrite (setitem_series_rows df "price_per_sqft"
                (λ r, CNum (PrimFloat.div (num_of (at_ r "price")) (num_of (at_ r "livingArea"))))).
Qed.

Lemma keep_Ok (filt : Filter) (df : DataFrame) (m : Mask) :
  NoDup (rows df).*1 →
  keep filt df = Ok m →
  "lotAreaValue" ∈ columns df ∧ "daysOnZillow" ∈ columns df
  ∧ Forall (λ ir, is_number (at_ ir.2 "lotAreaValue") ∧ is_number (at_ ir.2 "daysOnZillow"))
           (rows df)
  ∧ m = (λ ir : nat * row, (ir.1, keeps filt ir.2)) <$> rows df.
Proof.
  intros Hnd. unfold keep, between, gt, lt.
  intros (p & [Hp ->]%getattr_Ok & (m1 & H1 & (l & [Hl ->]%getattr_Ok
          & (m2 & H2 & (d & [Hd ->]%getattr_Ok & (m3 & H3 & [= <-])%bind_Ok)%bind_Ok)
            %bind_Ok)%bind_Ok)%bind_Ok)%bind_Ok.
  apply (compare_column df "price"
           (λ x, PrimFloat.leb (min_price filt) x && PrimFloat.leb x (max_price filt)))
    in H1 as [_ ->].
  apply (compare_column df "lotAreaValue" (λ x, PrimFloat.ltb (min_lot_area filt) x))
    in H2 as [Hn2 ->].
  apply (compare_column df "daysOnZillow"
           (λ x, PrimFloat.ltb x (float_of_int (max_days_on_zillow filt))))
    in H3 as [Hn3 ->].
  repeat split; [done..| |].
  - rewrite Forall_forall in Hn2, Hn3 |- *. intros ir Hin. split; [by apply Hn2|by apply Hn3].
  - rewrite (and_rows df Hnd
               (λ r, PrimFloat.leb (min_price filt) (num_of (at_ r "price"))
                     && PrimFloat.leb (num_of (at_ r "price")) (max_price filt))
               (λ r, PrimFloat.ltb (min_lot_area filt) (num_of (at_ r "lotAreaValue")))).
    by rewrite (and_rows df Hnd
               (λ r, PrimFloat.leb (min_price filt) (num_of (at_ r "price"))
                     && PrimFloat.leb (num_of (at_ r "price")) (max_price filt)
                     && PrimFloat.ltb (min_lot_area filt) (num_of (at_ r "lotAreaValue")))
               (λ r, PrimFloat.ltb (num_of (at_ r "daysOnZillow"))
                                   (float_of_int (max_days_on_zillow filt)))).
Qed.

Lemma sort_values_Ok (K : Kernels) (df sorted : DataFrame) (c : string) :
  sort_values K df c = Ok sorted →
  sorted = mkDF (columns df)
             (omap (λ i, rows df !! i)
                   (nargsort K ((λ ir : nat * row, num_of (at_ ir.2 c)) <$> rows df))).
Proof.
  unfold sort_values. intros (s & Hs & (keys & Hk & [= <-])%bind_Ok)%bind_Ok.
  case_bool_decide; [|done]. injection Hs as <-.
  unfold column in Hk. rewrite mapM_result_fmap in Hk.
  apply (mapM_Ok_char _ (λ ir : nat * row, num_of (at_ ir.2 c)) (λ _, True)) in Hk as [_ ->];
    [done|].
  intros ir b _. simpl. intros Hb. by rewrite (number_num_of _ _ Hb).
Qed.

Lemma filter_flagged {A B : Type} (h : A → bool) (g : A → B) (l : list A) :
  (λ ba : bool * A, g ba.2) <$> filter (λ ba : bool * A, ba.1 = true) ((λ a, (h a, a)) <$> l)
  = g <$> filter (λ a, h a = true) l.
Proof.
  induction l as [|a l IH]; [done|]. csimpl.
  rewrite !filter_cons. simpl. destruct (h a) eqn:Ha.
  - rewrite !decide_True by done. csimpl. by rewrite IH.
  - rewrite !decide_False by done. done.
Qed.

Lemma loc_Ok (df sorted out : DataFrame) (h : row → bool) (cs : list string) :
  NoDup (rows df).*1 →
  rows sorted ⊆ rows df →
  loc sorted ((λ ir : nat * row, (ir.1, h ir.2)) <$> rows df) cs = Ok out →
  out = mkDF cs ((λ ir : nat * row, (ir.1, reindex cs ir.2))
                   <$> filter (λ ir : nat * row, h ir.2 = true) (rows sorted))
  ∧ cs ⊆ columns sorted.
Proof.
  intros Hnd Hsub. unfold loc. intros (flagged & Hf & H)%bind_Ok.
  apply (mapM_Ok_char _ (λ ir : nat * row, (h ir.2, ir)) (λ _, True)) in Hf as [_ ->].
  - destruct (filter _ cs) as [|c0 missing] eqn:Hmissing; [|done]. injection H as <-. split.
    + f_equal. apply (filter_flagged (λ ir, h ir.2) (λ ir, (ir.1, reindex cs ir.2))).
    + intros c Hc. destruct (decide (c ∈ columns sorted)) as [|Hn]; [done|].
      assert (Hin : c ∈ filter (λ c, c ∉ columns sorted) cs) by by apply list_elem_of_filter.
      rewrite Hmissing in Hin. by apply elem_of_nil in Hin.
  - intros ir b Hin. rewrite (mask_at_rows df Hnd h ir (Hsub _ Hin)). by intros [= <-].
Qed.

Lemma omap_lookup_subseteq {A : Type} (l : list A) (idx : list nat) :
  omap (λ i, l !! i) idx ⊆ l.
Proof.
  intros x (i & _ & Hi)%list_elem_of_omap. by eapply list_elem_of_lookup_2.
Qed.

(** What a run that returns has computed. *)
Lemma derive_and_filter_Ok (K : Kernels) (filt : Filter) (df out : DataFrame) :
  NoDup (rows df).*1 →
  derive_and_filter K filt df = Ok out →
  Forall (λ ir, numeric_row ir.2) (rows df) ∧ out = mkDF cols (kept_rows K filt df).
Proof.
  intros Hnd. unfold derive_and_filter.
  intros (s & Hs & (m & Hm & (sorted & Hsort & Hloc)%bind_Ok)%bind_Ok)%bind_Ok.
  apply price_per_sqft_Ok in Hs as (_ & _ & Hn1 & Hrows); [|done].
  assert (Hnd1 : NoDup (rows (setitem_series df "price_per_sqft" s)).*1).
  { by rewrite Hrows, derived_rows_labels. }
  apply keep_Ok in Hm as (_ & _ & Hn2 & ->); [|done].
  apply sort_values_Ok in Hsort as ->.
  apply loc_Ok in Hloc as [-> _]; [|done|apply omap_lookup_subseteq].
  split.
  - rewrite Hrows in Hn2. unfold derived_rows in Hn2. rewrite Forall_fmap in Hn2.
    rewrite Forall_forall in Hn1, Hn2 |- *. intros ir Hin.
    destruct (Hn1 ir Hin) as [? ?], (Hn2 ir Hin) as [H3 H4]. simpl in H3, H4.
    rewrite at_derived in H3, H4 by done. done.
  - unfold kept_rows, days_keys. cbn [rows]. by rewrite Hrows.
Qed.

(** ** [nargsort] rearranges the positions *)

Lemma omap_lookup_seq_from {A : Type} (pre l : list A) :
  omap (λ i, (pre ++ l)%list !! i) (seq (length pre) (length l)) = l.
Proof.
  revert pre. induction l as [|x l IH]; intros pre; [done|].
  simpl. rewrite list_lookup_middle by done. f_equal.
  specialize (IH (pre ++ [x])%list).
  rewrite length_app, Nat.add_1_r, <- app_assoc in IH. done.
Qed.

Lemma omap_lookup_seq {A : Type} (l : list A) :
  omap (λ i, l !! i) (seq 0 (length l)) = l.
Proof. apply (omap_lookup_seq_from [] l). Qed.

Lemma omap_lookup_length {A : Type} (l : list A) (idx : list nat) :
  Forall (λ i, is_Some (l !! i)) idx → length (omap (λ i, l !! i) idx) = length idx.
Proof.
  induction 1 as [|i idx [x Hx] _ IH]; [done|]. csimpl. rewrite Hx. csimpl. by rewrite IH.
Qed.

Lemma omap_lookup_all {A : Type} (l : list A) (idx : list nat) :
  Forall (λ i, is_Some (l !! i)) idx →
  ∀ j i, idx !! j = Some i → omap (λ i, l !! i) idx !! j = l !! i.
Proof.
  induction 1 as [|i' idx [x Hx] _ IH]; intros j i; [done|].
  csimpl. rewrite Hx. destruct j as [|j]; csimpl.
  - by intros [= ->].
  - apply IH.
Qed.

Section nargsort.
Variable K : Kernels.
Variable keys : list float.

Let is_missing (i : nat) : bool := is_nan (default nan (keys !! i)).
Let non_nan_idx : list nat := filter (λ i, is_missing i = false) (seq 0 (length keys)).
Let nan_idx : list nat := filter (λ i, is_missing i = true) (seq 0 (length keys)).
Let non_nans : list float := omap (λ i, keys !! i) non_nan_idx.

Lemma nargsort_unfold :
  nargsort K keys = (omap (λ j, non_nan_idx !! j) (argsort K non_nans) ++ nan_idx)%list.
Proof. done. Qed.

Lemma non_nans_not_nan : Forall (λ k, is_nan k = false) non_nans.
Proof.
  apply Forall_forall. intros k (i & [Hi _]%list_elem_of_filter & Hk)%list_elem_of_omap.
  unfold is_missing in Hi. by rewrite Hk in Hi.
Qed.

Lemma non_nan_idx_valid : Forall (λ i, is_Some (keys !! i)) non_nan_idx.
Proof.
  apply Forall_forall. intros i [_ [_ ?]%elem_of_seq]%list_elem_of_filter.
  apply lookup_lt_is_Some. lia.
Qed.

Lemma non_nans_lookup (j i : nat) :
  non_nan_idx !! j = Some i → non_nans !! j = keys !! i.
Proof. apply omap_lookup_all, non_nan_idx_valid. Qed.

Lemma non_nans_length : length non_nans = length non_nan_idx.
Proof. apply omap_lookup_length, non_nan_idx_valid. Qed.

Lemma nargsort_permutation :
  argsort_permutes K → nargsort K keys ≡ₚ seq 0 (length keys).
Proof.
  intros HK. rewrite nargsort_unfold.
  rewrite (HK non_nans non_nans_not_nan), non_nans_length, omap_lookup_seq.
  etrans; [|apply (filter_app_complement (λ i, is_missing i = false))].
  apply Permutation_app; [done|]. unfold nan_idx.
  erewrite list_filter_iff; [done|]. intros i. simpl. by destruct (is_missing i).
Qed.
End nargsort.

Lemma sorted_rows_permutation {A : Type} (K : Kernels) (rs : list A) (keys : list float) :
  argsort_permutes K → length keys = length rs →
  omap (λ i, rs !! i) (nargsort K keys) ≡ₚ rs.
Proof.
  intros HK Hlen. rewrite (nargsort_permutation K keys HK), Hlen.
  by rewrite omap_lookup_seq.
Qed.

(** ** The collection step *)

Lemma fetch_region_df_split (env : Env) (region polygon : string) (w : World) :
  fetch_region_df env region polygon w = (fetched env region polygon, log_request polygon w).
Proof.
  unfold fetched, fetch_region_df, log_request.
  by destruct (http_get env _).
Qed.

Lemma mapM_M_cons {A B : Type} (f : A → M B) (x : A) (l : list A) (w : World) :
  mapM f (x :: l) w
  = match f x w with
    | (Ok y, w1) => match mapM f l w1 with
                    | (Ok k, w2) => (Ok (y :: k), w2)
                    | (Raise e, w2) => (Raise e, w2)
                    end
    | (Raise e, w1) => (Raise e, w1)
    end.
Proof. cbn [mapM]. unfold mbind, M_bind. destruct (f x w) as [[y|e] w1]; [|done]. done. Qed.

Lemma mapM_result_cons {A B : Type} (f : A → result B) (x : A) (l : list A) :
  mapM f (x :: l)
  = match f x with
    | Ok y => match mapM f l with
              | Ok k => Ok (y :: k)
              | Raise e => Raise e
              end
    | Raise e => Raise e
    end.
Proof. cbn [mapM]. unfold mbind, result_bind. by destruct (f x). Qed.

Lemma collect_regions (env : Env) (regions : list (string * string)) (w : World) :
  ∃ w', mapM (λ rp : string * string, fetch_region_df env rp.1 rp.2) regions w
        = (mapM (λ rp : string * string, fetched env rp.1 rp.2) regions, w')
        ∧ latest_csv w' = latest_csv w ∧ disk w' = disk w.
Proof.
  revert w. induction regions as [|rp regions IH]; intros w.
  - by exists w.
  - rewrite mapM_M_cons, mapM_result_cons, fetch_region_df_split.
    destruct (fetched env rp.1 rp.2) as [df|e] eqn:Hf.
    + destruct (IH (log_request rp.2 w)) as (w' & -> & Hp & Hd).
      exists w'. split; [|done]. by destruct (mapM _ regions).
    + by exists (log_request rp.2 w).
Qed.

Lemma M_bind_unfold {A B : Type} (m : M A) (f : A → M B) (w : World) :
  (m ≫= f) w = match m w with
               | (Ok a, w') => f a w'
               | (Raise e, w') => (Raise e, w')
               end.
Proof. done. Qed.

Lemma run_analysis_split (K : Kernels) (env : Env) (filt : Filter) (w : World) :
  ∃ w', collect_all_regions env w
        = (mapM (λ rp : string * string, fetched env rp.1 rp.2) REGION_POLYGON_MAP, w')
        ∧ run_analysis K env filt w
          = (dfs ← mapM (λ rp : string * string, fetched env rp.1 rp.2) REGION_POLYGON_MAP;
             df ← concat dfs;
             derive_and_filter K filt df, w')
        ∧ latest_csv w' = latest_csv w ∧ disk w' = disk w.
Proof.
  destruct (collect_regions env REGION_POLYGON_MAP w) as (w' & Hw' & Hp & Hd).
  exists w'. split; [done|]. split; [|done].
  unfold run_analysis. rewrite M_bind_unfold. unfold collect_all_regions. rewrite Hw'.
  destruct (mapM (λ rp : string * string, fetched env rp.1 rp.2) REGION_POLYGON_MAP)
    as [dfs|e]; [|done].
  rewrite M_bind_unfold. unfold lift. simpl. by destruct (concat dfs).
Qed.

(** ** The concatenated table *)

Lemma imap_labels {A B : Type} (g : A → B) (l : list A) :
  (imap (λ i x, (i, g x)) l).*1 = seq 0 (length l).
Proof.
  rewrite fmap_imap. rewrite <- (list_fmap_id (seq 0 (length l))).
  rewrite <- (imap_seq_0 l id). by apply imap_ext.
Qed.

Lemma concat_Ok (dfs : list DataFrame) (df : DataFrame) :
  concat dfs = Ok df →
  rows df = imap (λ i ir, (i, reindex (columns df) ir.2)) (dfs ≫= rows).
Proof. destruct dfs; [done|]. by intros [= <-]. Qed.

Lemma concat_labels (dfs : list DataFrame) (df : DataFrame) :
  concat dfs = Ok df → (rows df).*1 = seq 0 (length (rows df)).
Proof.
  intros H%concat_Ok. rewrite H at 1.
  rewrite (imap_labels (λ ir : nat * row, reindex (columns df) ir.2)).
  by rewrite H, length_imap.
Qed.

Lemma concat_NoDup (dfs : list DataFrame) (df : DataFrame) :
  concat dfs = Ok df → NoDup (rows df).*1.
Proof. intros H%concat_labels. rewrite H. apply NoDup_seq. Qed.

Lemma run_analysis_Ok (K : Kernels) (env : Env) (filt : Filter) (w w' : World)
    (out : DataFrame) :
  run_analysis K env filt w = (Ok out, w') →
  ∃ dfs df,
    collect_all_regions env w = (Ok dfs, w')
    ∧ mapM (λ rp : string * string, fetched env rp.1 rp.2) REGION_POLYGON_MAP = Ok dfs
    ∧ concat dfs = Ok df
    ∧ Forall (λ ir, numeric_row ir.2) (rows df)
    ∧ out = mkDF cols (kept_rows K filt df)
    ∧ latest_csv w' = latest_csv w ∧ disk w' = disk w.
Proof.
  destruct (run_analysis_split K env filt w) as (w1 & Hc & -> & Hp & Hd).
  intros [H <-]%pair_equal_spec.
  apply bind_Ok in H as (dfs & Hdfs & (df & Hdf & H)%bind_Ok).
  apply derive_and_filter_Ok in H as [Hnum ->]; [|by eapply concat_NoDup].
  exists dfs, df. by rewrite Hc, Hdfs.
Qed.

Lemma label_unique {A : Type} (l : list (nat * A)) (i : nat) (x y : A) :
  NoDup l.*1 → (i, x) ∈ l → (i, y) ∈ l → x = y.
Proof.
  intros Hnd Hx Hy. apply (find_label l i x Hnd) in Hx. apply (find_label l i y Hnd) in Hy.
  congruence.
Qed.

Lemma kept_rows_elem (K : Kernels) (filt : Filter) (df : DataFrame) (i : nat) (x : row) :
  argsort_permutes K →
  (i, x) ∈ kept_rows K filt df
  ↔ ∃ r, (i, r) ∈ rows df ∧ keeps filt r = true ∧ x = reindex cols (derived r).
Proof.
  intros HK. unfold kept_rows. rewrite list_elem_of_fmap.
  setoid_rewrite list_elem_of_filter.
  setoid_rewrite (sorted_rows_permutation K (derived_rows df) _ HK);
    [|unfold days_keys; by rewrite length_fmap].
  unfold derived_rows. setoid_rewrite list_elem_of_fmap. split.
  - intros ([j y] & [= -> ->] & Hk & ([j' r] & [= -> ->] & Hin)). simpl in *.
    exists r. by rewrite <- (keeps_derived filt r).
  - intros (r & Hin & Hk & ->). exists (i, derived r). split; [done|]. split.
    + simpl. by rewrite keeps_derived.
    + by exists (i, r).
Qed.

Lemma kept_rows_label (K : Kernels) (filt : Filter) (df : DataFrame) (i : nat) (r : row) :
  argsort_permutes K → NoDup (rows df).*1 → (i, r) ∈ rows df →
  i ∈ (kept_rows K filt df).*1 ↔ keeps filt r = true.
Proof.
  intros HK Hnd Hin. rewrite list_elem_of_fmap. split.
  - intros ([j x] & -> & (r' & Hin' & Hk & _)%kept_rows_elem); [|done]. simpl in *.
    by rewrite (label_unique _ j r r' Hnd Hin Hin').
  - intros Hk. exists (i, reindex cols (derived r)). split; [done|].
    apply kept_rows_elem; [done|]. by exists r.
Qed.

(** ** The reference kernel meets the contract *)

Lemma insert_index_perm (before : nat → nat → bool) (i : nat) (l : list nat) :
  insert_index before i l ≡ₚ i :: l.
Proof.
  induction l as [|j l IH]; [done|]. simpl. destruct (before i j); [done|].
  rewrite IH. apply Permutation_swap.
Qed.

Lemma foldl_insert_index_perm (before : nat → nat → bool) (acc l : list nat) :
  foldl (λ sorted i, insert_index before i sorted) acc l ≡ₚ (acc ++ l)%list.
Proof.
  revert acc. induction l as [|i l IH]; intros acc; simpl.
  - by rewrite app_nil_r.
  - rewrite IH, insert_index_perm. apply Permutation_middle.
Qed.

Lemma insertion_argsort_perm (before : float → float → bool) (keys : list float) :
  insertion_argsort before keys ≡ₚ seq 0 (length keys).
Proof. unfold insertion_argsort. by rewrite foldl_insert_index_perm. Qed.

Section insertion_sorted.
Variable before : float → float → bool.
Variable keys : list float.
Hypothesis before_le : ∀ a b, before a b = true → PrimFloat.leb a b = true.
Hypothesis before_total : ∀ a b, is_nan a = false → is_nan b = false →
                                 before a b = false → PrimFloat.leb b a = true.
Hypothesis no_nan : Forall (λ k, is_nan k = false) keys.

Let key (i : nat) : float := default nan (keys !! i).
Let test (a b : nat) : bool := before (key a) (key b).

Lemma key_not_nan (i : nat) : i < length keys → is_nan (key i) = false.
Proof.
  intros [k Hk]%lookup_lt_is_Some. unfold key. rewrite Hk. simpl.
  by eapply Forall_lookup_1 in no_nan.
Qed.

Lemma insert_index_sorted (i : nat) (l : list nat) :
  i < length keys → Forall (λ j, j < length keys) l →
  StronglySorted (key_le keys) l → StronglySorted (key_le keys) (insert_index test i l).
Proof.
  intros Hi Hl Hs. induction Hs as [|j l Hs IH Hj]; simpl.
  - repeat constructor.
  - apply Forall_cons in Hl as [Hjl Hl]. unfold test at 1.
    destruct (before (key i) (key j)) eqn:Hb.
    + constructor; [by constructor|]. apply before_le in Hb.
      constructor; [done|]. eapply Forall_impl; [exact Hj|].
      intros x Hx. unfold key_le in *. by eapply IEEE.leb_trans.
    + constructor; [by apply IH|].
      apply before_total in Hb; [|by apply key_not_nan..].
      rewrite (insert_index_perm test i l). by constructor.
Qed.

Lemma insertion_argsort_sorted : StronglySorted (key_le keys) (insertion_argsort before keys).
Proof.
  unfold insertion_argsort.
  assert (Hall : Forall (λ j, j < length keys) (seq 0 (length keys))).
  { apply Forall_forall. intros j [_ ?]%elem_of_seq. lia. }
  revert Hall. generalize (seq 0 (length keys)). intros l.
  assert (Hacc : Forall (λ j, j < length keys) [] ∧ StronglySorted (key_le keys) [])
    by (split; constructor).
  revert Hacc. generalize (@nil nat).
  induction l as [|i l IH]; intros acc [Hacc Hs] Hl; simpl; [done|].
  apply Forall_cons in Hl as [Hi Hl]. apply IH; [|done]. split.
  - rewrite (insert_index_perm _ i acc). by constructor.
  - by apply insert_index_sorted.
Qed.
End insertion_sorted.

Lemma K_stable_permutes : argsort_permutes K_stable.
Proof. intros keys _. apply insertion_argsort_perm. Qed.

Lemma K_stable_ascending : argsort_ascending K_stable.
Proof.
  intros keys Hk. apply insertion_argsort_sorted; [apply IEEE.ltb_leb| |done].
  apply IEEE.ltb_total.
Qed.

(** ** The output is in ascending order *)

Lemma at_reindex (cs : list string) (r : row) (c : string) :
  c ∈ cs → at_ (reindex cs r) c = at_ r c.
Proof.
  intros Hc. unfold at_ at 1, reindex.
  erewrite elem_of_list_to_map_1'; [done| |].
  - by intros y (c' & [= <- ->] & _)%list_elem_of_fmap.
  - apply list_elem_of_fmap. by exists c.
Qed.

Lemma StronglySorted_omap {A B : Type} (R1 : relation A) (R2 : relation B)
    (f : A → option B) (l : list A) :
  (∀ x y x' y', f x = Some x' → f y = Some y' → R1 x y → R2 x' y') →
  StronglySorted R1 l → StronglySorted R2 (omap f l).
Proof.
  intros Hf. induction 1 as [|x l _ IH Hx]; csimpl; [constructor|].
  destruct (f x) as [x'|] eqn:Hfx; [|done].
  constructor; [done|]. apply Forall_forall.
  intros y' (y & Hy & Hfy)%list_elem_of_omap.
  rewrite Forall_forall in Hx. eauto.
Qed.

Lemma StronglySorted_filter {A : Type} (R : relation A) (P : A → Prop)
    `{!∀ x, Decision (P x)} (l : list A) :
  StronglySorted R l → StronglySorted R (filter P l).
Proof.
  induction 1 as [|x l _ IH Hx]; [constructor|].
  rewrite filter_cons. destruct (decide (P x)); [|done].
  constructor; [done|]. apply Forall_forall. intros y [_ Hy]%list_elem_of_filter.
  rewrite Forall_forall in Hx. eauto.
Qed.

Lemma filter_none {A : Type} (P : A → Prop) `{!∀ x, Decision (P x)} (l : list A) :
  Forall (λ x, ¬ P x) l → filter P l = [].
Proof.
  induction 1 as [|x l Hx _ IH]; [done|]. rewrite filter_cons.
  by destruct (decide (P x)).
Qed.

Lemma keeps_nan_days (filt : Filter) (r : row) :
  is_nan (num_of (at_ r "daysOnZillow")) = true → keeps filt r = false.
Proof.
  intros H. unfold keeps. rewrite (IEEE.ltb_nan _ _ H). apply andb_false_r.
Qed.

Section sorted_output.
Variable K : Kernels.
Variable filt : Filter.
Variable df : DataFrame.
Hypothesis ascending : argsort_ascending K.

Let drs : list (nat * row) := derived_rows df.
Let keys : list float := days_keys drs.

Lemma keys_lookup (i : nat) (a : nat * row) :
  drs !! i = Some a → keys !! i = Some (days a).
Proof. intros H. unfold keys, days_keys. by rewrite list_lookup_fmap, H. Qed.

Lemma kept_rows_sorted : StronglySorted days_le (kept_rows K filt df).
Proof.
  unfold kept_rows. fold drs. fold keys.
  rewrite nargsort_unfold, omap_app, filter_app.
  rewrite (filter_none _ (omap _ (filter _ _))), app_nil_r.
  - apply (StronglySorted_fmap _ days_le).
    { intros a b. unfold days_le, days, project. simpl.
      by rewrite !at_reindex by (unfold cols; in_list). }
    apply StronglySorted_filter.
    apply (StronglySorted_omap (key_le keys) days_le).
    { intros i j a b Ha%keys_lookup Hb%keys_lookup. unfold key_le, days_le.
      by rewrite Ha, Hb. }
    eapply (StronglySorted_omap (key_le _) (key_le keys)); [|apply ascending].
    + intros x y i j Hx%non_nans_lookup Hy%non_nans_lookup. unfold key_le.
      by rewrite Hx, Hy.
    + apply non_nans_not_nan.
  - apply Forall_forall.
    intros a (i & [Hi _]%list_elem_of_filter & Ha)%list_elem_of_omap.
    rewrite (keys_lookup i a Ha) in Hi. simpl in Hi.
    rewrite (keeps_nan_days filt a.2 Hi). done.
Qed.
End sorted_output.

(** ** Runs that cannot raise *)

Lemma with_ppsf_rows (df : DataFrame) :
  NoDup (rows df).*1 → rows (with_ppsf df) = derived_rows df.
Proof.
  intros Hnd. unfold with_ppsf.
  by rewrite (setitem_series_rows df "price_per_sqft"
                (λ r, CNum (PrimFloat.div (num_of (at_ r "price")) (num_of (at_ r "livingArea"))))).
Qed.

Lemma with_ppsf_columns (df : DataFrame) (c : string) :
  c ∈ columns (with_ppsf df) ↔ c ∈ columns df ∨ c = "price_per_sqft".
Proof.
  unfold with_ppsf. simpl. case_bool_decide as Hc.
  - split; [by left|]. by intros [?| ->].
  - rewrite elem_of_app, list_elem_of_singleton. done.
Qed.

Lemma price_per_sqft_total (df : DataFrame) :
  NoDup (rows df).*1 →
  "price" ∈ columns df → "livingArea" ∈ columns df →
  Forall (λ ir, is_number (at_ ir.2 "price") ∧ is_number (at_ ir.2 "livingArea")) (rows df) →
  price_per_sqft df
  = Ok ((λ ir : nat * row,
           (ir.1, CNum (PrimFloat.div (num_of (at_ ir.2 "price"))
                                      (num_of (at_ ir.2 "livingArea"))))) <$> rows df).
Proof.
  intros Hnd Hp Hl Hnum. unfold price_per_sqft, getitem.
  rewrite !bool_decide_eq_true_2 by done. simpl.
  by apply truediv_columns_Ok.
Qed.

Lemma keep_total (filt : Filter) (df : DataFrame) :
  NoDup (rows df).*1 →
  "price" ∈ columns df → "lotAreaValue" ∈ columns df → "daysOnZillow" ∈ columns df →
  Forall (λ ir, numeric_row ir.2) (rows df) →
  keep filt df = Ok ((λ ir : nat * row, (ir.1, keeps filt ir.2)) <$> rows df).
Proof.
  intros Hnd Hp Hl Hd Hnum. unfold keep, getattr, between, gt, lt.
  rewrite !bool_decide_eq_true_2 by done. simpl.
  rewrite (compare_column_Ok df "price"
             (λ x, PrimFloat.leb (min_price filt) x && PrimFloat.leb x (max_price filt)));
    [|eapply Forall_impl; [done|]; by intros ? (? & ? & ? & ?)]. simpl.
  rewrite (compare_column_Ok df "lotAreaValue" (λ x, PrimFloat.ltb (min_lot_area filt) x));
    [|eapply Forall_impl; [done|]; by intros ? (? & ? & ? & ?)]. simpl.
  rewrite (compare_column_Ok df "daysOnZillow"
             (λ x, PrimFloat.ltb x (float_of_int (max_days_on_zillow filt))));
    [|eapply Forall_impl; [done|]; by intros ? (? & ? & ? & ?)]. simpl.
  f_equal.
  rewrite (and_rows df Hnd
             (λ r, PrimFloat.leb (min_price filt) (num_of (at_ r "price"))
                   && PrimFloat.leb (num_of (at_ r "price")) (max_price filt))
             (λ r, PrimFloat.ltb (min_lot_area filt) (num_of (at_ r "lotAreaValue")))).
  by rewrite (and_rows df Hnd
             (λ r, PrimFloat.leb (min_price filt) (num_of (at_ r "price"))
                   && PrimFloat.leb (num_of (at_ r "price")) (max_price filt)
                   && PrimFloat.ltb (min_lot_area filt) (num_of (at_ r "lotAreaValue")))
             (λ r, PrimFloat.ltb (num_of (at_ r "daysOnZillow"))
                                 (float_of_int (max_days_on_zillow filt)))).
Qed.

Lemma sort_values_total (K : Kernels) (df : DataFrame) (c : string) :
  c ∈ columns df → Forall (λ ir, is_number (at_ ir.2 c)) (rows df) →
  sort_values K df c
  = Ok (mkDF (columns df)
          (omap (λ i, rows df !! i)
                (nargsort K ((λ ir : nat * row, num_of (at_ ir.2 c)) <$> rows df)))).
Proof.
  intros Hc Hnum. unfold sort_values. rewrite bool_decide_eq_true_2 by done. simpl.
  unfold column. rewrite mapM_result_fmap.
  rewrite (mapM_Ok_fmap _ (λ ir : nat * row, num_of (at_ ir.2 c))); [done|].
  eapply Forall_impl; [done|]. intros ir Hir. simpl. by apply is_number_num_of.
Qed.

Lemma loc_total (df sorted : DataFrame) (h : row → bool) (cs : list string) :
  NoDup (rows df).*1 →
  rows sorted ⊆ rows df →
  cs ⊆ columns sorted →
  loc sorted ((λ ir : nat * row, (ir.1, h ir.2)) <$> rows df) cs
  = Ok (mkDF cs ((λ ir : nat * row, (ir.1, reindex cs ir.2))
                   <$> filter (λ ir : nat * row, h ir.2 = true) (rows sorted))).
Proof.
  intros Hnd Hsub Hcs. unfold loc.
  rewrite (mapM_Ok_fmap _ (λ ir : nat * row, (h ir.2, ir))).
  - simpl. rewrite (filter_none (λ c, c ∉ columns sorted) cs).
    + f_equal. f_equal.
      apply (filter_flagged (λ ir, h ir.2) (λ ir, (ir.1, reindex cs ir.2))).
    + apply Forall_forall. intros c Hc Hn. by apply Hn, Hcs.
  - apply Forall_forall. intros ir Hin.
    by rewrite (mask_at_rows df Hnd h ir (Hsub _ Hin)).
Qed.

Lemma has_columns_spec (df : DataFrame) :
  has_columns df → ∀ c, c ∈ cols → c ≠ "price_per_sqft" → c ∈ columns df.
Proof.
  unfold has_columns. rewrite Forall_forall. intros H c Hc Hne. apply H.
  unfold cols in Hc. unfold required_columns.
  rewrite !elem_of_cons, elem_of_nil in Hc. rewrite !elem_of_cons.
  destruct Hc as [->|[->|[->|[->|[->|[->|[->|[->|[->|[]]]]]]]]]]; try tauto.
Qed.

Lemma result_bind_Ok {A B : Type} (a : A) (f : A → result B) : Ok a ≫= f = f a.
Proof. done. Qed.

Lemma derive_and_filter_total (K : Kernels) (filt : Filter) (df : DataFrame) :
  NoDup (rows df).*1 → has_columns df → Forall (λ ir, numeric_row ir.2) (rows df) →
  derive_and_filter K filt df = Ok (mkDF cols (kept_rows K filt df)).
Proof.
  intros Hnd Hcols0 Hnum. pose proof (has_columns_spec df Hcols0) as Hcols.
  unfold derive_and_filter.
  rewrite price_per_sqft_total; [|done|apply Hcols; [unfold cols; in_list|done]..|].
  2:{ eapply Forall_impl; [done|]. by intros ? (? & ? & ? & ?). }
  rewrite result_bind_Ok. fold (with_ppsf df).
  assert (Hnd1 : NoDup (rows (with_ppsf df)).*1).
  { by rewrite with_ppsf_rows, derived_rows_labels. }
  assert (Hnum1 : Forall (λ ir, numeric_row ir.2) (rows (with_ppsf df))).
  { rewrite with_ppsf_rows by done. unfold derived_rows. rewrite Forall_fmap.
    eapply Forall_impl; [done|]. intros ir Hir. unfold numeric_row. simpl.
    by rewrite !at_derived. }
  rewrite keep_total;
    [|done|apply with_ppsf_columns; left; apply Hcols; [unfold cols; in_list|done]..|done].
  rewrite result_bind_Ok, sort_values_total;
    [|apply with_ppsf_columns; left; apply Hcols; [unfold cols; in_list|done]|].
  2:{ eapply Forall_impl; [done|]. by intros ? (? & ? & ? & ?). }
  rewrite result_bind_Ok, (loc_total (with_ppsf df) _ (keeps filt) cols);
    [|done|apply omap_lookup_subseteq|].
  - rewrite !(with_ppsf_rows df Hnd). done.
  - intros c Hc. apply with_ppsf_columns.
    destruct (decide (c = "price_per_sqft")); [by right|left; by apply Hcols].
Qed.

Lemma run_analysis_total (K : Kernels) (env : Env) (filt : Filter) (w w' : World)
    (dfs : list DataFrame) (df : DataFrame) :
  collect_all_regions env w = (Ok dfs, w') → concat dfs = Ok df →
  has_columns df → Forall (λ ir, numeric_row ir.2) (rows df) →
  run_analysis K env filt w = (Ok (mkDF cols (kept_rows K filt df)), w').
Proof.
  intros Hc Hdf Hcols Hnum.
  destruct (run_analysis_split K env filt w) as (w1 & Hc1 & -> & _).
  rewrite Hc in Hc1. apply pair_equal_spec in Hc1 as [<- <-].
  rewrite result_bind_Ok, Hdf, result_bind_Ok.
  rewrite derive_and_filter_total; [done| |done..]. by eapply concat_NoDup.
Qed.

Lemma kept_rows_nil (K : Kernels) (filt : Filter) (df : DataFrame) :
  (∀ r, keeps filt r = false) → kept_rows K filt df = [].
Proof.
  intros H. unfold kept_rows. rewrite filter_none; [done|].
  apply Forall_forall. intros ir _. by rewrite H.
Qed.

(** The two-region scenario: the second region's listing has too small a
    lot; the first is kept, at 900 per square foot. *)
Example two_region_scenario :
  (run_analysis_endpoint K_stable env_AB Filter_default fresh).1
  = Rows [[("address", JStr "1 First St"); ("region", JStr "south_bay");
           ("price", JNum 1800000); ("livingArea", JNum 2000);
           ("lotAreaValue", JNum 5000); ("bathrooms", JNum 2); ("bedrooms", JNum 3);
           ("daysOnZillow", JNum 10); ("price_per_sqft", JNum 900)]].
Proof. vm_compute. reflexivity. Qed.

(** ** The filter, row by row *)

Lemma keeps_true (filt : Filter) (r : row) :
  keeps filt r = true ↔
    (PrimFloat.leb (min_price filt) (num_of (at_ r "price")) = true
     ∧ PrimFloat.leb (num_of (at_ r "price")) (max_price filt) = true)
    ∧ PrimFloat.ltb (min_lot_area filt) (num_of (at_ r "lotAreaValue")) = true
    ∧ PrimFloat.ltb (num_of (at_ r "daysOnZillow"))
                    (float_of_int (max_days_on_zillow filt)) = true.
Proof. unfold keeps. rewrite !andb_true_iff. tauto. Qed.

(** ** The fetcher *)

Lemma fetched_Ok (env : Env) (region polygon : string) (df : DataFrame) :
  fetched env region polygon = Ok df ↔
  ∃ status props,
    http_get env (the_query polygon) = Response status (Props props)
    ∧ ((400 <=? status)%Z && (status <? 600)%Z) = false
    ∧ df = setitem_scalar (json_normalize props) "region" (CStr region).
Proof.
  unfold fetched, fetch_region_df, the_query, raise_for_status. simpl.
  destruct (http_get env _) as [| |status body]; simpl.
  - split; [done|]. by intros (? & ? & ? & _).
  - split; [done|]. by intros (? & ? & ? & _).
  - destruct ((400 <=? status)%Z && (status <? 600)%Z) eqn:Hs; simpl.
    + split; [done|]. intros (? & ? & [= <- _] & ? & _). congruence.
    + destruct body as [| |props]; simpl.
      * split; [done|]. by intros (? & ? & ? & _).
      * split; [done|]. by intros (? & ? & ? & _).
      * split.
        -- intros [= <-]. by exists status, props.
        -- by intros (? & ? & [= <- <-] & _ & ->).
Qed.

Lemma fetched_Raise (env : Env) (region polygon : string) :
  request_fails (http_get env (the_query polygon)) = true →
  ∃ e, fetched env region polygon = Raise e.
Proof.
  unfold fetched, fetch_region_df, the_query, raise_for_status, request_fails. simpl.
  destruct (http_get env _) as [| |status body]; simpl; [by eexists..|].
  destruct ((400 <=? status)%Z && (status <? 600)%Z); simpl; [by eexists|].
  destruct body; simpl; [by eexists..|done].
Qed.

Lemma setitem_scalar_rows (df : DataFrame) (c : string) (v : cell) (i : nat) (r : row) :
  (i, r) ∈ rows (setitem_scalar df c v) → r !! c = Some v.
Proof.
  simpl. intros ([j r0] & [= -> ->] & _)%list_elem_of_fmap. simpl.
  apply lookup_insert_eq.
Qed.

Lemma setitem_scalar_columns (df : DataFrame) (c : string) (v : cell) :
  c ∈ columns (setitem_scalar df c v).
Proof.
  simpl. case_bool_decide; [done|]. apply elem_of_app. right. apply list_elem_of_here.
Qed.

(** ** The endpoints, unfolded *)

Lemma run_analysis_endpoint_unfold (K : Kernels) (env : Env) (filt : Filter) (w : World) :
  run_analysis_endpoint K env filt w
  = match run_analysis K env filt w with
    | (Raise e, w1) => (HTTPException 500 (Str e), w1)
    | (Ok df, w1) =>
        let path := csv_path (date_today env) in
        match storage env path with
        | Written =>
            (Rows (to_json K df),
             mkWorld (Some path) (<[path := csv_content K df]> (disk w1)) (requests w1))
        | Refused =>
            (HTTPException 500 (Str OSError), mkWorld (Some path) (disk w1) (requests w1))
        | Interrupted remains =>
            (HTTPException 500 (Str OSError),
             mkWorld (Some path) (<[path := remains]> (disk w1)) (requests w1))
        end
    end.
Proof.
  unfold run_analysis_endpoint. rewrite M_bind_unfold.
  destruct (run_analysis K env filt w) as [[df|e] w1]; [|done].
  rewrite M_bind_unfold. unfold set_latest_csv. rewrite M_bind_unfold. unfold to_csv.
  simpl. by destruct (storage env _).
Qed.

Lemma mapM_result_Raise {A B : Type} (f : A → result B) (l : list A) (x : A) (e : exn) :
  x ∈ l → f x = Raise e → ∃ e', mapM f l = Raise e'.
Proof.
  induction l as [|y l IH]; intros Hin Hx; [by apply elem_of_nil in Hin|].
  rewrite mapM_result_cons. apply elem_of_cons in Hin as [<-|Hin].
  - rewrite Hx. by eexists.
  - destruct (f y); [|by eexists]. destruct (IH Hin Hx) as [e' ->]. by eexists.
Qed.

(** ** The order of the concatenation *)

Lemma concat_rows (dfs : list DataFrame) (df : DataFrame) :
  concat dfs = Ok df → (rows df).*2 = reindex (columns df) <$> (dfs ≫= rows).*2.
Proof.
  intros H%concat_Ok. rewrite H at 1. rewrite fmap_imap, <- list_fmap_compose.
  rewrite <- imap_const. by apply imap_ext.
Qed.

Lemma collected_regions (env : Env) (dfs : list DataFrame) :
  mapM (λ rp : string * string, fetched env rp.1 rp.2) REGION_POLYGON_MAP = Ok dfs →
  Forall2 (λ (rp : string * string) (d : DataFrame),
             ∀ i r, (i, r) ∈ rows d → r !! "region" = Some (CStr rp.1))
          REGION_POLYGON_MAP dfs.
Proof.
  intros H%mapM_Ok_inv. eapply Forall2_impl; [done|]. simpl.
  intros rp d (status & props & _ & _ & ->)%fetched_Ok i r.
  apply setitem_scalar_rows.
Qed.

Lemma StronglySorted_lookup {A : Type} (R : relation A) (l : list A) (i j : nat) (a b : A) :
  StronglySorted R l → i < j → l !! i = Some a → l !! j = Some b → R a b.
Proof.
  intros Hs. revert i j. induction Hs as [|x l _ IH Hx]; intros i j Hij Hi Hj; [done|].
  destruct j as [|j]; [lia|]. simpl in Hj. destruct i as [|i]; simpl in Hi.
  - injection Hi as ->. rewrite Forall_forall in Hx.
    apply Hx. by eapply list_elem_of_lookup_2.
  - apply (IH i j); [lia|done..].
Qed.

Lemma lookup_default {A : Type} (l : list A) (i : nat) (d : A) :
  i < length l → l !! i = Some (default d (l !! i)).
Proof. intros [x ->]%lookup_lt_is_Some. done. Qed.

Lemma keeps_inverted (filt : Filter) (r : row) :
  PrimFloat.ltb (max_price filt) (min_price filt) = true → keeps filt r = false.
Proof.
  intros Hinv. destruct (keeps filt r) eqn:Hk; [|done].
  apply keeps_true in Hk as ((Hlo & Hhi) & _).
  pose proof (IEEE.leb_not_ltb _ _ (IEEE.leb_trans _ _ _ Hlo Hhi)). congruence.
Qed.

(** ** The read path *)

Lemma get_latest_data_world (K : Kernels) (w : World) : (get_latest_data K w).2 = w.
Proof.
  unfold get_latest_data. destruct (latest_csv w) as [p|]; [|done].
  destruct (disk w !! p) as [f|]; [|done]. by destruct (read_csv K f).
Qed.

Lemma get_latest_data_404 (K : Kernels) (w : World) :
  (∃ d, (get_latest_data K w).1 = HTTPException 404 d)
  ↔ latest_csv w = None ∨ ∃ p, latest_csv w = Some p ∧ disk w !! p = None.
Proof.
  unfold get_latest_data. destruct (latest_csv w) as [p|]; simpl.
  - destruct (disk w !! p) as [f|] eqn:Hf; simpl.
    + split.
      * intros [d Hd]. by destruct (read_csv K f).
      * intros [?|(p' & [= <-] & ?)]; congruence.
    + split; [|by eexists]. intros _. right. by exists p.
  - split; [by left|by eexists].
Qed.

(** Whenever the analysis succeeds, [latest_csv] names today's file after
    the request, whether or not the file could be written. *)
Lemma latest_csv_after_analysis (K : Kernels) (env : Env) (filt : Filter) (w w1 : World)
    (df : DataFrame) :
  run_analysis K env filt w = (Ok df, w1) →
  latest_csv (run_analysis_endpoint K env filt w).2 = Some (csv_path (date_today env)).
Proof.
  intros H. rewrite run_analysis_endpoint_unfold, H. simpl.
  by destruct (storage env _).
Qed.

(** ** The CSV file, cell by cell *)

Section cell_round_trip.
Variable K : Kernels.

Lemma is_finite_nan (f : float) : is_nan f = true → is_finite f = false.
Proof. unfold is_finite. by intros ->. Qed.

Lemma field_present_number (f : float) :
  number_survives K (CNum f) = true → is_nan f = false →
  is_na (float_repr K f) = false ∧ read_number K (float_repr K f) = Some f.
Proof.
  simpl. intros H Hn. rewrite Hn in H. simpl in H.
  apply andb_true_iff in H as [Hna H]. apply negb_true_iff in Hna. split; [done|].
  destruct (read_number K (float_repr K f)) as [g|]; [|done].
  by apply FloatAxioms.Leibniz.eqb_spec in H as ->.
Qed.

Lemma infer_numbers (cells : list cell) :
  forallb (number_survives K) cells = true →
  infer_dtype K (field K <$> cells) = DNumber.
Proof.
  intros H. unfold infer_dtype.
  rewrite (proj2 (forallb_forall _ _)); [done|].
  intros t [Hna (x & -> & Hx)%list_elem_of_fmap]%list_elem_of_In%list_elem_of_filter.
  rewrite forallb_forall in H. specialize (H x (proj1 (list_elem_of_In _ _) Hx)).
  destruct x as [f| |]; try done. simpl in Hna.
  destruct (is_nan f) eqn:Hn; [done|].
  destruct (field_present_number f H Hn) as [_ Hr]. simpl. rewrite Hn, Hr.
  by apply bool_decide_eq_true_2.
Qed.

Lemma number_round_trip (cells : list cell) (x : cell) :
  forallb (number_survives K) cells = true → x ∈ cells →
  jcell K (parse_field K (infer_dtype K (field K <$> cells)) (field K x)) = jcell K x.
Proof.
  intros H Hx. rewrite (infer_numbers cells H).
  rewrite forallb_forall in H. specialize (H x (proj1 (list_elem_of_In _ _) Hx)).
  destruct x as [f| |]; try done. unfold parse_field, field.
  destruct (is_nan f) eqn:Hn.
  - simpl. by rewrite (is_finite_nan f Hn).
  - destruct (field_present_number f H Hn) as [-> ->]. done.
Qed.

Lemma text_round_trip (cells : list cell) (x : cell) :
  forallb (text_survives K) cells = true → x ∈ cells →
  jcell K (parse_field K (infer_dtype K (field K <$> cells)) (field K x)) = jcell K x.
Proof.
  intros H Hx. rewrite forallb_forall in H.
  pose proof (H x (proj1 (list_elem_of_In _ _) Hx)) as Hcell.
  destruct x as [f|s|]; try done.
  - simpl in Hcell. unfold parse_field, field. rewrite Hcell. simpl.
    by rewrite (is_finite_nan f Hcell).
  - simpl in Hcell. apply andb_true_iff in Hcell as [[Hna Hnum]%andb_true_iff Hbool].
    apply negb_true_iff in Hna, Hnum, Hbool.
    assert (Hin : s ∈ filter (λ s, is_na s = false) (field K <$> cells)).
    { apply list_elem_of_filter. split; [done|].
      apply list_elem_of_fmap. by exists (CStr s). }
    unfold infer_dtype.
    destruct (forallb (λ s, bool_decide (is_Some (read_number K s))) _) eqn:H1.
    { rewrite forallb_forall in H1.
      specialize (H1 s (proj1 (list_elem_of_In _ _) Hin)). congruence. }
    destruct (forallb (λ s, bool_decide (is_Some (read_bool s))) _) eqn:H2.
    { rewrite forallb_forall in H2.
      specialize (H2 s (proj1 (list_elem_of_In _ _) Hin)). congruence. }
    unfold parse_field, field. by rewrite Hna.
Qed.

Lemma column_round_trip (cells : list cell) (x : cell) :
  column_survives K cells = true → x ∈ cells →
  jcell K (parse_field K (infer_dtype K (field K <$> cells)) (field K x)) = jcell K x.
Proof.
  intros [H|H]%orb_true_iff Hx; [by apply number_round_trip|by apply text_round_trip].
Qed.
End cell_round_trip.

(** ** The CSV file, table by table *)

Lemma lookup_list_to_map_imap (cs : list string) (g : nat → string → cell) (j : nat)
    (c : string) :
  NoDup cs → cs !! j = Some c →
  (list_to_map (imap (λ j c, (c, g j c)) cs) : gmap string cell) !! c = Some (g j c).
Proof.
  intros Hnd Hj. apply elem_of_list_to_map_1.
  - rewrite fmap_imap. rewrite (imap_ext _ (const id)); [|done].
    by rewrite imap_const, list_fmap_id.
  - by apply (elem_of_lookup_imap_2 (λ j c, (c, g j c))).
Qed.

Lemma fmap_imap_labelled {A B C : Type} (f : A → B) (g : nat * B → C) (l : list A) :
  (∀ i x, g (i, x) = g (0, x)) →
  g <$> imap (λ i a, (i, f a)) l = (λ a, g (0, f a)) <$> l.
Proof.
  intros Hg. rewrite fmap_imap, <- imap_const. apply imap_ext.
  intros i a _. simpl. apply Hg.
Qed.

Lemma read_csv_csv_content (K : Kernels) (df : DataFrame) :
  NoDup (columns df) → columns df ≠ [] → survives_csv K df = true →
  ∃ df', read_csv K (csv_content K df) = Ok df' ∧ to_json K df' = to_json K df.
Proof.
  intros Hnd Hne Hs. unfold read_csv, csv_content. cbn [header lines].
  destruct (columns df) as [|c0 cs0] eqn:Hcs; [done|]. rewrite <- Hcs in *. clear Hne.
  eexists. split; [done|]. unfold to_json. cbn [columns rows].
  rewrite (fmap_imap_labelled _ (λ ir : nat * row,
             (λ c, (c, jcell K (at_ ir.2 c))) <$> columns df)); [|done].
  rewrite <- list_fmap_compose.
  apply Forall_fmap_ext, Forall_forall. intros ir Hir.
  apply Forall_fmap_ext, Forall_forall. intros c Hc. simpl. f_equal.
  apply list_elem_of_lookup_1 in Hc as Hj. destruct Hj as [j Hj].
  unfold at_ at 1.
  rewrite (lookup_list_to_map_imap (columns df) _ j c Hnd Hj). simpl.
  rewrite list_lookup_imap, Hj. simpl.
  rewrite list_lookup_fmap, Hj. simpl.
  rewrite <- list_fmap_compose.
  rewrite (list_fmap_ext _ (field K ∘ (λ ir : nat * row, at_ ir.2 c)) (rows df)).
  2:{ intros k [i r] _. simpl. by rewrite list_lookup_fmap, Hj. }
  rewrite list_fmap_compose.
  apply column_round_trip.
  - unfold survives_csv in Hs. rewrite forallb_forall in Hs.
    apply Hs, list_elem_of_In. by eapply list_elem_of_lookup_2.
  - apply list_elem_of_fmap. by exists ir.
Qed.

Lemma blank_address_run :
  run_analysis_endpoint K_stable env_blank Filter_default fresh
  = (Rows [[("address", JStr ""); ("region", JStr "south_bay");
            ("price", JNum 1800000); ("livingArea", JNum 2000);
            ("lotAreaValue", JNum 5000); ("bathrooms", JNum 2); ("bedrooms", JNum 3);
            ("daysOnZillow", JNum 10); ("price_per_sqft", JNum 900)]], after_blank_run).
Proof. vm_compute. reflexivity. Qed.

Lemma blank_address_read :
  get_latest_data K_stable after_blank_run
  = (Rows [[("address", JNull); ("region", JStr "south_bay");
            ("price", JNum 1800000); ("livingArea", JNum 2000);
            ("lotAreaValue", JNum 5000); ("bathrooms", JNum 2); ("bedrooms", JNum 3);
            ("daysOnZillow", JNum 10); ("price_per_sqft", JNum 900)]], after_blank_run).
Proof. vm_compute. reflexivity. Qed.

(** ** The requests of a run *)

Lemma fetched_fetch_error (env : Env) (region polygon : string) (e : exn) :
  fetch_error (http_get env (the_query polygon)) = Some e →
  fetched env region polygon = Raise e.
Proof.
  unfold fetched, fetch_region_df, the_query, fetch_error, raise_for_status. cbn [fst].
  destruct (http_get env _) as [| |status body]; [by intros [= <-]..|].
  destruct (_ && _); [by intros [= <-]|].
  by destruct body; intros [= <-].
Qed.

Lemma fetched_succeeds (env : Env) (region polygon : string) :
  request_fails (http_get env (the_query polygon)) = false →
  fetched env region polygon
  = Ok (setitem_scalar
          (json_normalize match http_get env (the_query polygon) with
                          | Response _ (Props l) => l
                          | _ => []
                          end) "region" (CStr region)).
Proof.
  intros H. apply fetched_Ok. unfold request_fails in H.
  destruct (http_get env _) as [| |status body]; [done..|].
  apply orb_false_iff in H as [Hs Hb]. destruct body; try done.
  by exists status, l.
Qed.

Lemma fetched_Raise_fails (env : Env) (region polygon : string) (e : exn) :
  fetched env region polygon = Raise e →
  request_fails (http_get env (the_query polygon)) = true.
Proof.
  intros H. destruct (request_fails _) eqn:Hf; [done|].
  apply (fetched_succeeds env region) in Hf. congruence.
Qed.

Lemma collect_requests (env : Env) (regions : list (string * string)) (w : World) :
  requests (mapM (λ rp : string * string, fetch_region_df env rp.1 rp.2) regions w).2
  = (requests w ++ ((λ rp : string * string, the_query rp.2) <$> attempted env regions))%list.
Proof.
  revert w. induction regions as [|rp regions IH]; intros w.
  - simpl. by rewrite app_nil_r.
  - rewrite mapM_M_cons, fetch_region_df_split. cbn [attempted].
    destruct (fetched env rp.1 rp.2) as [df|e] eqn:Hf.
    + assert (Hok : request_fails (http_get env (the_query rp.2)) = false).
      { destruct (request_fails _) eqn:Hr; [|done].
        apply (fetched_Raise env rp.1) in Hr as [e He]. congruence. }
      rewrite Hok. specialize (IH (log_request rp.2 w)).
      destruct (mapM (M:=M) _ regions (log_request rp.2 w)) as [[k|e] w2]; simpl in *;
        by rewrite IH, <- app_assoc.
    + by rewrite (fetched_Raise_fails _ _ _ _ Hf).
Qed.

Lemma run_analysis_world (K : Kernels) (env : Env) (filt : Filter) (w : World) :
  (run_analysis K env filt w).2 = (collect_all_regions env w).2.
Proof.
  unfold run_analysis. rewrite M_bind_unfold.
  destruct (collect_all_regions env w) as [[dfs|e] w1]; [|done].
  rewrite M_bind_unfold. unfold lift. by destruct (concat dfs).
Qed.

Lemma run_analysis_endpoint_requests (K : Kernels) (env : Env) (filt : Filter) (w : World) :
  requests (run_analysis_endpoint K env filt w).2 = requests (run_analysis K env filt w).2.
Proof.
  rewrite run_analysis_endpoint_unfold.
  destruct (run_analysis K env filt w) as [[out|e] w1]; [|done].
  simpl. by destruct (storage env _).
Qed.

Lemma attempted_prefix (env : Env) (regions : list (string * string)) :
  attempted env regions `prefix_of` regions.
Proof.
  induction regions as [|rp regions IH]; [done|]. simpl.
  destruct (request_fails _); [|by apply prefix_cons].
  by exists regions.
Qed.

Lemma attempted_all (env : Env) (regions : list (string * string)) :
  Forall (λ rp, request_fails (http_get env (the_query rp.2)) = false) regions →
  attempted env regions = regions.
Proof.
  induction 1 as [|rp regions Hrp _ IH]; [done|]. simpl. by rewrite Hrp, IH.
Qed.

Lemma mapM_result_first_Raise {A B : Type} (f : A → result B) (pre post : list A) (x : A)
    (e : exn) :
  Forall (λ a, ∃ b, f a = Ok b) pre → f x = Raise e →
  mapM f (pre ++ x :: post)%list = Raise e.
Proof.
  intros Hpre Hx. induction Hpre as [|a pre [b Hb] _ IH].
  - by rewrite app_nil_l, mapM_result_cons, Hx.
  - by rewrite <- app_comm_cons, mapM_result_cons, Hb, IH.
Qed.

(** ** When a run returns *)

Lemma setitem_series_columns (df : DataFrame) (c c' : string) (s : Series) :
  c' ∈ columns (setitem_series df c s) ↔ c' ∈ columns df ∨ c' = c.
Proof.
  unfold setitem_series. cbn [columns]. case_bool_decide as Hc.
  - split; [by left|]. by intros [?| ->].
  - rewrite elem_of_app, list_elem_of_singleton. done.
Qed.

Lemma derive_and_filter_has_columns (K : Kernels) (filt : Filter) (df out : DataFrame) :
  NoDup (rows df).*1 → derive_and_filter K filt df = Ok out → has_columns df.
Proof.
  intros Hnd. unfold derive_and_filter.
  intros (s & Hs & (m & Hm & (sorted & Hsort & Hloc)%bind_Ok)%bind_Ok)%bind_Ok.
  apply price_per_sqft_Ok in Hs as (_ & _ & _ & Hrows); [|done].
  assert (Hnd1 : NoDup (rows (setitem_series df "price_per_sqft" s)).*1).
  { by rewrite Hrows, derived_rows_labels. }
  apply keep_Ok in Hm as (_ & _ & _ & ->); [|done].
  apply sort_values_Ok in Hsort as ->.
  apply loc_Ok in Hloc as [_ Hsub]; [|done|apply omap_lookup_subseteq].
  cbn [columns] in Hsub. unfold has_columns, required_columns.
  repeat (apply Forall_cons; split;
          [match goal with
           | |- ?c ∈ _ =>
               assert (Hc : c ∈ cols) by (unfold cols; in_list);
               apply Hsub, setitem_series_columns in Hc as [Hc|Hc]; [exact Hc|discriminate Hc]
           end|]).
  constructor.
Qed.

Lemma run_analysis_returns (K : Kernels) (env : Env) (filt : Filter) (w : World)
    (out : DataFrame) :
  (run_analysis K env filt w).1 = Ok out →
  ∃ dfs df,
    (collect_all_regions env w).1 = Ok dfs ∧ concat dfs = Ok df
    ∧ has_columns df ∧ Forall (λ ir : nat * row, numeric_row ir.2) (rows df)
    ∧ out = mkDF cols (kept_rows K filt df).
Proof.
  intros Hout.
  destruct (run_analysis K env filt w) as [r w'] eqn:Hrun. simpl in Hout. subst r.
  pose proof Hrun as (dfs & df & Hc & Hf & Hdf & Hnum & Hout & _)%run_analysis_Ok.
  exists dfs, df. rewrite Hc. split; [done|]. split; [done|]. split; [|done].
  destruct (run_analysis_split K env filt w) as (w1 & _ & Hsplit & _ & _).
  rewrite Hsplit in Hrun. apply pair_equal_spec in Hrun as [Hrun _].
  rewrite Hf, result_bind_Ok, Hdf, result_bind_Ok in Hrun.
  eapply derive_and_filter_has_columns; [|exact Hrun]. by eapply concat_NoDup.
Qed.

(** ** What the endpoint leaves behind *)

Lemma length_append (s t : string) :
  String.length (s ++ t) = String.length s + String.length t.
Proof. induction s as [|a s IH]; simpl; [done|]. by rewrite IH. Qed.

Lemma append_inj_r (s1 s2 t : string) : s1 ++ t = s2 ++ t → s1 = s2.
Proof.
  revert s2. induction s1 as [|a s1 IH]; intros [|b s2] H.
  - done.
  - apply (f_equal String.length) in H. rewrite !length_append in H. simpl in H. lia.
  - apply (f_equal String.length) in H. rewrite !length_append in H. simpl in H. lia.
  - simplify_eq/=. f_equal. by apply IH.
Qed.

Lemma csv_path_inj (d1 d2 : string) : csv_path d1 = csv_path d2 → d1 = d2.
Proof.
  unfold csv_path. intros H. do 2 apply (inj (String.append _)) in H.
  by apply append_inj_r in H.
Qed.

Lemma run_analysis_endpoint_Rows (K : Kernels) (env : Env) (filt : Filter) (w : World)
    (body : list (list (string * jval))) :
  (run_analysis_endpoint K env filt w).1 = Rows body →
  ∃ out,
    (run_analysis K env filt w).1 = Ok out
    ∧ out = mkDF cols (rows out)
    ∧ body = to_json K out
    ∧ storage env (csv_path (date_today env)) = Written
    ∧ latest_csv (run_analysis_endpoint K env filt w).2 = Some (csv_path (date_today env))
    ∧ disk (run_analysis_endpoint K env filt w).2
      = <[csv_path (date_today env) := csv_content K out]> (disk w).
Proof.
  rewrite run_analysis_endpoint_unfold.
  destruct (run_analysis K env filt w) as [[out|e] w1] eqn:Hrun; [|done].
  apply run_analysis_Ok in Hrun as (dfs & df & _ & _ & _ & _ & Hout & _ & Hd).
  cbn zeta. destruct (storage env _); [|done..]. cbn [fst snd latest_csv disk].
  intros [= <-]. exists out. rewrite Hd. split; [done|]. split; [by rewrite Hout|done].
Qed.

(** ** Comparisons with a missing value, and chains of comparisons *)

Lemma SFleb_nan_l (a b : spec_float) : SFeqb a a = false → SFleb a b = false.
Proof. IEEE.sf_order. Qed.

Lemma SFleb_nan_r (a b : spec_float) : SFeqb b b = false → SFleb a b = false.
Proof. IEEE.sf_order. Qed.

Lemma SFltb_nan_r (a b : spec_float) : SFeqb b b = false → SFltb a b = false.
Proof. IEEE.sf_order. Qed.

Lemma SFleb_ltb_trans (a b c : spec_float) :
  SFleb a b = true → SFltb b c = true → SFltb a c = true.
Proof. IEEE.sf_order. Qed.

Lemma SFltb_leb_trans (a b c : spec_float) :
  SFltb a b = true → SFleb b c = true → SFltb a c = true.
Proof. IEEE.sf_order. Qed.

Lemma leb_nan_l (a b : float) : is_nan a = true → PrimFloat.leb a b = false.
Proof.
  unfold is_nan. intros Ha. apply negb_true_iff in Ha.
  rewrite FloatAxioms.eqb_spec in Ha. rewrite FloatAxioms.leb_spec.
  by apply SFleb_nan_l.
Qed.

Lemma leb_nan_r (a b : float) : is_nan b = true → PrimFloat.leb a b = false.
Proof.
  unfold is_nan. intros Hb. apply negb_true_iff in Hb.
  rewrite FloatAxioms.eqb_spec in Hb. rewrite FloatAxioms.leb_spec.
  by apply SFleb_nan_r.
Qed.

Lemma ltb_nan_r (a b : float) : is_nan b = true → PrimFloat.ltb a b = false.
Proof.
  unfold is_nan. intros Hb. apply negb_true_iff in Hb.
  rewrite FloatAxioms.eqb_spec in Hb. rewrite FloatAxioms.ltb_spec.
  by apply SFltb_nan_r.
Qed.

Lemma leb_ltb_trans (a b c : float) :
  PrimFloat.leb a b = true → PrimFloat.ltb b c = true → PrimFloat.ltb a c = true.
Proof. rewrite FloatAxioms.leb_spec, !FloatAxioms.ltb_spec. apply SFleb_ltb_trans. Qed.

Lemma ltb_leb_trans (a b c : float) :
  PrimFloat.ltb a b = true → PrimFloat.leb b c = true → PrimFloat.ltb a c = true.
Proof. rewrite FloatAxioms.leb_spec, !FloatAxioms.ltb_spec. apply SFltb_leb_trans. Qed.

(** ** The returned table and the response *)

Lemma reindex_lookup (cs : list string) (r : row) (c : string) :
  is_Some (reindex cs r !! c) ↔ c ∈ cs.
Proof.
  unfold reindex. split.
  - intros [x Hx]. apply elem_of_list_to_map_2 in Hx.
    by apply list_elem_of_fmap in Hx as (c' & [= <- _] & Hc).
  - intros Hc. exists (at_ r c). apply elem_of_list_to_map_1'.
    + by intros y (c' & [= <- ->] & _)%list_elem_of_fmap.
    + apply list_elem_of_fmap. by exists c.
Qed.

Lemma filter_keeps_derived (filt : Filter) (df : DataFrame) :
  filter (λ ir : nat * row, keeps filt ir.2 = true) (derived_rows df)
  = (λ ir : nat * row, (ir.1, derived ir.2))
    <$> filter (λ ir : nat * row, keeps filt ir.2 = true) (rows df).
Proof.
  unfold derived_rows. induction (rows df) as [|ir l IH]; [done|].
  rewrite fmap_cons, !filter_cons. cbn [snd]. rewrite keeps_derived.
  destruct (decide (keeps filt ir.2 = true)); [|done]. by rewrite fmap_cons, IH.
Qed.

Lemma kept_rows_permutation (K : Kernels) (filt : Filter) (df : DataFrame) :
  argsort_permutes K →
  kept_rows K filt df
  ≡ₚ (λ ir : nat * row, (ir.1, reindex cols (derived ir.2)))
     <$> filter (λ ir : nat * row, keeps filt ir.2 = true) (rows df).
Proof.
  intros HK. unfold kept_rows.
  rewrite (sorted_rows_permutation K (derived_rows df) _ HK);
    [|unfold days_keys; by rewrite length_fmap].
  by rewrite filter_keeps_derived, <- list_fmap_compose.
Qed.

Lemma keeps_nan (filt : Filter) (r : row) (c : string) :
  c ∈ ["price"; "lotAreaValue"; "daysOnZillow"] →
  is_nan (num_of (at_ r c)) = true → keeps filt r = false.
Proof.
  intros Hc Hnan. unfold keeps.
  apply elem_of_cons in Hc as [->|Hc]; [|apply elem_of_cons in Hc as [->|Hc]].
  - by rewrite (leb_nan_r _ _ Hnan).
  - rewrite (ltb_nan_r _ _ Hnan). by rewrite andb_false_r.
  - apply list_elem_of_singleton in Hc as ->. by apply keeps_nan_days.
Qed.

(** ** The concatenated table, listing by listing *)

Lemma collect_all_regions_result (env : Env) (w : World) :
  (collect_all_regions env w).1
  = mapM (λ rp : string * string, fetched env rp.1 rp.2) REGION_POLYGON_MAP.
Proof.
  unfold collect_all_regions.
  destruct (collect_regions env REGION_POLYGON_MAP w) as (w' & -> & _). done.
Qed.

Lemma reindex_ext (cs : list string) (x y : row) :
  (∀ c, c ∈ cs → at_ x c = at_ y c) → reindex cs x = reindex cs y.
Proof.
  intros H. unfold reindex. f_equal. apply list_fmap_ext. intros i c Hc.
  f_equal. apply H. by eapply list_elem_of_lookup_2.
Qed.

Lemma at_reindex_missing (cs : list string) (r : row) (c : string) :
  c ∉ cs → at_ (reindex cs r) c = NaN.
Proof.
  intros Hc. unfold at_. destruct (reindex cs r !! c) as [x|] eqn:Hx; [|done].
  destruct Hc. apply (reindex_lookup cs r c). by exists x.
Qed.

Lemma at_dict_missing (l : listing) (c : string) : c ∉ l.*1 → at_ (dict l) c = NaN.
Proof.
  intros Hc. unfold at_, dict. rewrite lookup_fmap, not_elem_of_list_to_map_1; [done|].
  by rewrite fmap_reverse, elem_of_reverse.
Qed.

Lemma foldl_first_seen (seen keys : list string) :
  let step := λ (seen : list string) (k : string),
                if bool_decide (k ∈ seen) then seen else (seen ++ [k])%list in
  (∀ k, k ∈ foldl step seen keys ↔ k ∈ seen ∨ k ∈ keys)
  ∧ (NoDup seen → NoDup (foldl step seen keys)).
Proof.
  intros step. revert seen. induction keys as [|k keys IH]; intros seen; cbn [foldl].
  - split; [|done]. intros k. rewrite elem_of_nil. tauto.
  - destruct (IH (step seen k)) as [IH1 IH2]. split.
    + intros k'. rewrite IH1, elem_of_cons. unfold step. case_bool_decide as Hk.
      * split; [tauto|]. intros [?|[->|?]]; tauto.
      * rewrite elem_of_app, list_elem_of_singleton. tauto.
    + intros Hnd. apply IH2. unfold step. case_bool_decide as Hk; [done|].
      apply NoDup_app. split; [done|]. split; [|apply NoDup_singleton].
      by intros k' Hk' ->%list_elem_of_singleton.
Qed.

Lemma elem_of_first_seen (keys : list string) (k : string) : k ∈ first_seen keys ↔ k ∈ keys.
Proof.
  unfold first_seen. destruct (foldl_first_seen [] keys) as [H _].
  rewrite H, elem_of_nil. tauto.
Qed.

Lemma NoDup_first_seen (keys : list string) : NoDup (first_seen keys).
Proof.
  unfold first_seen. destruct (foldl_first_seen [] keys) as [_ H]. apply H. constructor.
Qed.

Lemma json_normalize_columns (props : list listing) (c : string) :
  c ∈ columns (json_normalize props) ↔ ∃ l, l ∈ props ∧ c ∈ l.*1.
Proof.
  unfold json_normalize. cbn [columns]. rewrite elem_of_first_seen, list_elem_of_bind.
  split; intros (l & H1 & H2); exists l; done.
Qed.

Lemma json_normalize_rows (props : list listing) :
  Forall2 (λ (ir : nat * row) (l : listing), ∀ c, at_ ir.2 c = at_ (dict l) c)
          (rows (json_normalize props)) props.
Proof.
  apply Forall2_same_length_lookup_2.
  - unfold json_normalize. cbn [rows]. by rewrite length_imap.
  - intros i [j r] l Hr Hl c. unfold json_normalize in Hr. cbn [rows] in Hr.
    rewrite list_lookup_imap, Hl in Hr. injection Hr as <- <-. cbn [snd].
    set (cs := first_seen _).
    destruct (decide (c ∈ cs)) as [Hc|Hc]; [by apply at_reindex|].
    rewrite at_reindex_missing, at_dict_missing; [done| |done].
    intros Hin. apply Hc. apply (json_normalize_columns props c).
    exists l. split; [by eapply list_elem_of_lookup_2|done].
Qed.

Lemma at_insert (r : row) (c c' : string) (v : cell) :
  at_ (<[c := v]> r) c' = if decide (c = c') then v else at_ r c'.
Proof.
  unfold at_. destruct (decide (c = c')) as [->|Hne].
  - by rewrite lookup_insert_eq.
  - by rewrite lookup_insert_ne.
Qed.

Lemma fetched_rows (region : string) (props : list listing) :
  Forall2 (λ (ir : nat * row) (rl : string * listing), ∀ c, at_ ir.2 c = at_ (record rl) c)
          (rows (setitem_scalar (json_normalize props) "region" (CStr region)))
          ((λ l : listing, (region, l)) <$> props).
Proof.
  unfold setitem_scalar. cbn [rows]. apply Forall2_fmap.
  eapply Forall2_impl; [apply json_normalize_rows|].
  intros ir l H c. unfold record. cbn [fst snd]. rewrite !at_insert.
  by destruct (decide _).
Qed.

Lemma fetched_frames (env : Env) (regions : list (string * string)) (dfs : list DataFrame) :
  mapM (λ rp : string * string, fetched env rp.1 rp.2) regions = Ok dfs →
  dfs = (λ rp : string * string,
           setitem_scalar (json_normalize (listings_of (http_get env (the_query rp.2))))
                          "region" (CStr rp.1)) <$> regions.
Proof.
  intros H%mapM_Ok_inv. induction H as [|rp d regions dfs Hd _ IH]; [done|].
  rewrite fmap_cons, <- IH. f_equal.
  apply fetched_Ok in Hd as (status & props & -> & _ & ->). done.
Qed.

Lemma merge_columns_elem (a b : list string) (c : string) :
  c ∈ merge_columns a b ↔ c ∈ a ∨ c ∈ b.
Proof.
  unfold merge_columns. rewrite elem_of_app, list_elem_of_difference.
  destruct (decide (c ∈ a)); tauto.
Qed.

Lemma merge_columns_NoDup (a b : list string) :
  NoDup a → NoDup b → NoDup (merge_columns a b).
Proof.
  intros Ha Hb. unfold merge_columns. apply NoDup_app. split; [done|]. split.
  - intros c Hc [_ Hn]%list_elem_of_difference. done.
  - by apply NoDup_list_difference.
Qed.

Lemma foldl_merge_columns_elem (acc : list string) (ls : list (list string)) (c : string) :
  c ∈ foldl merge_columns acc ls ↔ c ∈ acc ∨ ∃ l, l ∈ ls ∧ c ∈ l.
Proof.
  revert acc. induction ls as [|l ls IH]; intros acc; cbn [foldl].
  - split; [by left|]. intros [?|(l & Hl & _)]; [done|]. by apply elem_of_nil in Hl.
  - rewrite IH, merge_columns_elem. split.
    + intros [[?|?]|(l' & ? & ?)]; [by left|right; exists l|right; exists l'].
      * split; [apply list_elem_of_here|done].
      * split; [by apply list_elem_of_further|done].
    + intros [?|(l' & [->|?]%elem_of_cons & ?)]; [by left; left|by left; right|].
      right. by exists l'.
Qed.

Lemma foldl_merge_columns_NoDup (acc : list string) (ls : list (list string)) :
  NoDup acc → Forall NoDup ls → NoDup (foldl merge_columns acc ls).
Proof.
  intros Hacc Hls. revert acc Hacc. induction Hls as [|l ls Hl _ IH]; intros acc Hacc.
  - done.
  - cbn [foldl]. apply IH. by apply merge_columns_NoDup.
Qed.

Lemma setitem_scalar_columns_elem (df : DataFrame) (c c' : string) (v : cell) :
  c' ∈ columns (setitem_scalar df c v) ↔ c' ∈ columns df ∨ c' = c.
Proof.
  unfold setitem_scalar. cbn [columns]. case_bool_decide as Hc.
  - split; [by left|]. by intros [?| ->].
  - by rewrite elem_of_app, list_elem_of_singleton.
Qed.

Lemma setitem_scalar_columns_NoDup (df : DataFrame) (c : string) (v : cell) :
  NoDup (columns df) → NoDup (columns (setitem_scalar df c v)).
Proof.
  intros Hnd. unfold setitem_scalar. cbn [columns]. case_bool_decide as Hc; [done|].
  apply NoDup_app. split; [done|]. split; [|apply NoDup_singleton].
  intros c' Hc' ->%list_elem_of_singleton. done.
Qed.

Lemma concat_columns (dfs : list DataFrame) (df : DataFrame) :
  concat dfs = Ok df → columns df = foldl merge_columns [] (columns <$> dfs).
Proof. destruct dfs; [done|]. by intros [= <-]. Qed.

Lemma imap_Forall2 {A B C : Type} (R : A → B → Prop) (f : A → C) (g : B → C)
    (l : list A) (k : list B) :
  (∀ a b, R a b → f a = g b) → Forall2 R l k →
  imap (λ i a, (i, f a)) l = imap (λ i b, (i, g b)) k.
Proof.
  intros Hfg H. apply list_eq. intros i. rewrite !list_lookup_imap.
  apply Forall2_lookup with (i := i) in H.
  destruct H as [a b Hab|]; [|done]. cbn. by rewrite (Hfg a b Hab).
Qed.

Lemma concatenated_rows (env : Env) (w : World) (dfs : list DataFrame) (df : DataFrame) :
  (collect_all_regions env w).1 = Ok dfs → concat dfs = Ok df →
  rows df
  = imap (λ i (rl : string * listing), (i, reindex (columns df) (record rl))) (stamped env).
Proof.
  rewrite collect_all_regions_result. intros ->%fetched_frames Hdf.
  rewrite (concat_Ok _ _ Hdf), list_fmap_bind. unfold stamped.
  apply (imap_Forall2 (λ (ir : nat * row) (rl : string * listing),
                         ∀ c, at_ ir.2 c = at_ (record rl) c)).
  - intros ir rl H. apply reindex_ext. intros c _. apply H.
  - apply Forall2_bind, Forall_Forall2_diag, Forall_forall. intros rp _.
    apply fetched_rows.
Qed.

(** ** Reading after runs *)

Lemma read_csv_shape (K : Kernels) (df : DataFrame) :
  columns df ≠ [] →
  ∃ df', read_csv K (csv_content K df) = Ok df'
         ∧ columns df' = columns df ∧ length (rows df') = length (rows df).
Proof.
  intros Hne. unfold read_csv, csv_content. cbn [header lines].
  destruct (columns df) as [|c cs] eqn:Hcols; [done|].
  eexists. split; [reflexivity|]. cbn [columns rows].
  by rewrite length_imap, length_fmap.
Qed.

Lemma run_analysis_result (K : Kernels) (env : Env) (filt : Filter) (w w' : World) :
  (run_analysis K env filt w).1 = (run_analysis K env filt w').1.
Proof.
  destruct (run_analysis_split K env filt w) as (w1 & _ & -> & _).
  by destruct (run_analysis_split K env filt w') as (w2 & _ & -> & _).
Qed.

Lemma after_runs_failed (K : Kernels) (runs : list (Env * Filter)) (w : World) :
  Forall (λ r : Env * Filter, ∃ e, (run_analysis K r.1 r.2 w).1 = Raise e) runs →
  latest_csv (after_runs K runs w) = latest_csv w ∧ disk (after_runs K runs w) = disk w.
Proof.
  unfold after_runs. intros H. revert w H.
  induction runs as [|[env filt] runs IH]; intros w H; [done|].
  cbn [foldl fst snd]. apply Forall_cons in H as [[e He] H]. cbn [fst snd] in He.
  assert (Hw : latest_csv (run_analysis_endpoint K env filt w).2 = latest_csv w
               ∧ disk (run_analysis_endpoint K env filt w).2 = disk w).
  { rewrite run_analysis_endpoint_unfold.
    destruct (run_analysis_split K env filt w) as (w1 & _ & Hs & Hp & Hd).
    rewrite Hs in He |- *. cbn [fst] in He. by rewrite He. }
  destruct Hw as [Hp Hd]. rewrite <- Hp, <- Hd. apply IH.
  eapply Forall_impl; [exact H|]. intros [env' filt'] [e' He']. exists e'.
  by rewrite (run_analysis_result K env' filt' _ w).
Qed.

(** ** Records, field by field *)

Lemma num_of_value (x : cell) : (∀ b, x ≠ CBool b) → num_of x = value x.
Proof. destruct x as [f|s|b]; [done..|]. intros H. by destruct (H b). Qed.

Lemma is_number_CNum (x : cell) :
  is_number x → (∀ b, x ≠ CBool b) → x = CNum (value x).
Proof.
  intros [f Hf] Hb. destruct x as [g|s|b]; [done|done|]. by destruct (Hb b).
Qed.

Lemma at_dict_plain (l : listing) (c : string) (b : bool) : at_ (dict l) c ≠ CBool b.
Proof.
  unfold at_, dict. rewrite lookup_fmap.
  destruct (list_to_map (reverse l) !! c) as [[f|s]|]; done.
Qed.

(** A table built from the provider's listings holds numbers and text only. *)
Lemma concatenated_plain (env : Env) (w : World) (dfs : list DataFrame) (df : DataFrame)
    (i : nat) (r : row) (c : string) (b : bool) :
  (collect_all_regions env w).1 = Ok dfs → concat dfs = Ok df →
  (i, r) ∈ rows df → at_ r c ≠ CBool b.
Proof.
  intros Hc Hdf Hin. rewrite (concatenated_rows env w dfs df Hc Hdf) in Hin.
  apply list_elem_of_lookup_1 in Hin as [k Hk].
  apply list_lookup_imap_Some in Hk as (rl & _ & [= _ ->]).
  destruct (decide (c ∈ columns df)) as [Hcol|Hcol].
  - rewrite at_reindex by done. unfold record. rewrite at_insert.
    destruct (decide _); [done|]. apply at_dict_plain.
  - by rewrite at_reindex_missing.
Qed.

Lemma keeps_passes (filt : Filter) (r : row) :
  (∀ c b, at_ r c ≠ CBool b) → keeps filt r = passes filt r.
Proof.
  intros H. unfold keeps, passes. by rewrite !num_of_value by apply H.
Qed.

Lemma derived_returned (r : row) :
  (∀ c b, at_ r c ≠ CBool b) → reindex cols (derived r) = returned r.
Proof.
  intros H. unfold derived, returned. by rewrite !num_of_value by apply H.
Qed.

Lemma passes_true (filt : Filter) (r : row) (price lot days : float) :
  at_ r "price" = CNum price → at_ r "lotAreaValue" = CNum lot →
  at_ r "daysOnZillow" = CNum days →
  passes filt r = true ↔
    (PrimFloat.leb (min_price filt) price = true
     ∧ PrimFloat.leb price (max_price filt) = true)
    ∧ PrimFloat.ltb (min_lot_area filt) lot = true
    ∧ PrimFloat.ltb days (float_of_int (max_days_on_zillow filt)) = true.
Proof.
  intros Hp Hl Hd. unfold passes. rewrite Hp, Hl, Hd. cbn [value].
  rewrite !andb_true_iff. tauto.
Qed.

(** What a run that returns has read and kept, in terms of the records. *)
Lemma run_analysis_records (K : Kernels) (env : Env) (filt : Filter) (w : World)
    (out : DataFrame) :
  argsort_permutes K →
  (run_analysis K env filt w).1 = Ok out →
  ∃ dfs df,
    (collect_all_regions env w).1 = Ok dfs ∧ concat dfs = Ok df ∧ has_columns df
    ∧ (∀ i r, (i, r) ∈ rows df →
              numbers r
              ∧ (i ∈ (rows out).*1 ↔ passes filt r = true)
              ∧ (∀ x, (i, x) ∈ rows out → x = returned r))
    ∧ (∀ i x, (i, x) ∈ rows out →
              ∃ r, (i, r) ∈ rows df ∧ passes filt r = true ∧ x = returned r).
Proof.
  intros HK (dfs & df & Hc & Hdf & Hcols & Hnum & ->)%run_analysis_returns.
  exists dfs, df. split; [done|]. split; [done|]. split; [done|].
  pose proof (concat_NoDup _ _ Hdf) as Hnd.
  assert (Hplain : ∀ i r, (i, r) ∈ rows df → ∀ c b, at_ r c ≠ CBool b).
  { intros i r Hin c b. by apply (concatenated_plain env w dfs df i r c b). }
  split.
  - intros i r Hin. rewrite Forall_forall in Hnum.
    destruct (Hnum _ Hin) as (Hp & Ha & Hl & Hd). cbn [snd] in Hp, Ha, Hl, Hd. split; [|split].
    + intros c Hcol. exists (value (at_ r c)). apply is_number_CNum; [|by apply (Hplain i)].
      repeat (apply elem_of_cons in Hcol as [->|Hcol]; [done|]).
      by apply elem_of_nil in Hcol.
    + cbn [rows]. rewrite (kept_rows_label K filt df i r HK Hnd Hin).
      by rewrite (keeps_passes filt r (Hplain i r Hin)).
    + cbn [rows]. intros x (r' & Hin' & _ & ->)%kept_rows_elem; [|done].
      rewrite (label_unique _ i r' r Hnd Hin' Hin). apply derived_returned, (Hplain i r Hin).
  - cbn [rows]. intros i x (r & Hin & Hk & ->)%kept_rows_elem; [|done].
    exists r. split; [done|]. rewrite <- (keeps_passes filt r (Hplain i r Hin)).
    split; [done|]. apply derived_returned, (Hplain i r Hin).
Qed.

Lemma at_returned (r : row) (c : string) :
  c ∈ cols → c ≠ "price_per_sqft" → at_ (returned r) c = at_ r c.
Proof.
  intros Hc Hne. unfold returned. rewrite at_reindex by done.
  rewrite at_insert. by destruct (decide _).
Qed.

Lemma at_returned_ppsf (r : row) :
  at_ (returned r) "price_per_sqft"
  = CNum (PrimFloat.div (value (at_ r "price")) (value (at_ r "livingArea"))).
Proof.
  unfold returned. rewrite at_reindex by (unfold cols; in_list).
  rewrite at_insert. by destruct (decide _).
Qed.

Lemma numbers_numeric_row (r : row) : numbers r → numeric_row r.
Proof.
  intros H. unfold numeric_row.
  destruct (H "price") as [p ->]; [in_list|].
  destruct (H "livingArea") as [a ->]; [in_list|].
  destruct (H "lotAreaValue") as [l ->]; [in_list|].
  destruct (H "daysOnZillow") as [d ->]; [in_list|].
  repeat split; by eexists.
Qed.

(** ** The quicksort on ties *)

Example aquicksort_small :
  aquicksort [10; 5; 10; 3; 5]%float = [3; 1; 4; 0; 2].
Proof. vm_compute. reflexivity. Qed.

Example aquicksort_ties :
  aquicksort [10; 5; 10; 5; 10; 5; 10; 5; 10; 5; 10; 5; 10; 5; 10; 5; 10; 5; 10; 5]%float
  = [9; 17; 15; 13; 11; 7; 19; 5; 3; 1; 8; 18; 10; 4; 12; 14; 2; 16; 6; 0].
Proof. vm_compute. reflexivity. Qed.

Example ties_scenario :
  (rows (concatenated env_ties fresh)).*1 = seq 0 20
  ∧ (rows (frame_of (run_analysis K_quicksort env_ties Filter_default fresh))).*1
    = [9; 17; 15; 13; 11; 7; 19; 5; 3; 1; 8; 18; 10; 4; 12; 14; 2; 16; 6; 0]
  ∧ (returned_second.1, at_ returned_second.2 "region", days_of returned_second)
    = (17, CStr "bandao", 5%float)
  ∧ (returned_ninth.1, at_ returned_ninth.2 "region", days_of returned_ninth)
    = (3, CStr "south_bay", 5%float).
Proof. vm_compute. done. Qed.

Lemma StronglySorted_among {A : Type} (R R' : relation A) (l : list A) :
  (∀ a b, a ∈ l → b ∈ l → R a b → R' a b) → StronglySorted R l → StronglySorted R' l.
Proof.
  intros H Hs. induction Hs as [|x l Hs IH Hx]; [constructor|].
  constructor.
  - apply IH. intros a b Ha Hb. apply H; by apply list_elem_of_further.
  - rewrite Forall_forall in Hx |- *. intros y Hy.
    apply H; [apply list_elem_of_here|by apply list_elem_of_further|by apply Hx].
Qed.

(** A returned row comes from a record of the concatenated table. *)
Lemma kept_rows_origin (K : Kernels) (filt : Filter) (df : DataFrame) (x : nat * row) :
  x ∈ kept_rows K filt df → ∃ r, (x.1, r) ∈ rows df ∧ x.2 = reindex cols (derived r).
Proof.
  unfold kept_rows. intros (ir & -> & [_ Hin]%list_elem_of_filter)%list_elem_of_fmap.
  apply omap_lookup_subseteq in Hin. unfold derived_rows in Hin.
  apply list_elem_of_fmap in Hin as ([i r] & -> & Hin). by exists r.
Qed.

(** ** Lists that agree on their members *)

Lemma filter_among {A : Type} (P Q : A → Prop) `{!∀ x, Decision (P x)}
    `{!∀ x, Decision (Q x)} (l : list A) :
  (∀ x, x ∈ l → P x ↔ Q x) → filter P l = filter Q l.
Proof.
  induction l as [|x l IH]; intros Hl; [done|]. rewrite !filter_cons.
  rewrite IH by (intros y Hy; apply Hl; by apply list_elem_of_further).
  destruct (decide (P x)) as [HP|HP], (decide (Q x)) as [HQ|HQ]; try done.
  - destruct HQ. by apply (Hl x); [apply list_elem_of_here|].
  - destruct HP. by apply (Hl x); [apply list_elem_of_here|].
Qed.

Lemma fmap_among {A B : Type} (f g : A → B) (l : list A) :
  (∀ x, x ∈ l → f x = g x) → f <$> l = g <$> l.
Proof.
  intros H. apply list_fmap_ext. intros i x Hx. apply H. by eapply list_elem_of_lookup_2.
Qed.

Lemma passes_wider (f1 f2 : Filter) (r : row) :
  PrimFloat.leb (min_price f2) (min_price f1) = true →
  PrimFloat.leb (max_price f1) (max_price f2) = true →
  PrimFloat.leb (min_lot_area f2) (min_lot_area f1) = true →
  PrimFloat.leb (float_of_int (max_days_on_zillow f1))
                (float_of_int (max_days_on_zillow f2)) = true →
  passes f1 r = true → passes f2 r = true.
Proof.
  intros H1 H2 H3 H4. unfold passes. rewrite !andb_true_iff.
  intros [[[Ha Hb] Hc] Hd]. repeat split.
  - by eapply IEEE.leb_trans.
  - by eapply IEEE.leb_trans.
  - by eapply leb_ltb_trans.
  - by eapply ltb_leb_trans.
Qed.

(** * The claims *)

(** ** C1: the filter *)

(** C1: when [run_analysis] returns, every record of the concatenated table
    holds numbers as [price], [lotAreaValue] and [daysOnZillow], and it is in
    the output (under its label, with its own fields) exactly if
    [min_price <= price <= max_price], [lotAreaValue > min_lot_area] and
    [daysOnZillow < max_days_on_zillow]; so a record with [price == max_price]
    that meets the other conditions is kept, one with
    [lotAreaValue == min_lot_area] is dropped, and one with
    [daysOnZillow == max_days_on_zillow] is dropped.  The bound on the days
    is an integer below 2^53 in magnitude. *)
Theorem C1_filter_is_exact (K : Kernels) (env : Env) (filt : Filter) (w w' : World)
    (out : DataFrame) :
  argsort_permutes K →
  (Z.abs (max_days_on_zillow filt) < 2 ^ 53)%Z →
  run_analysis K env filt w = (Ok out, w') →
  ∃ dfs df,
    collect_all_regions env w = (Ok dfs, w') ∧ concat dfs = Ok df ∧
    ∀ i r, (i, r) ∈ rows df →
      ∃ price lot days,
        at_ r "price" = CNum price
        ∧ at_ r "lotAreaValue" = CNum lot
        ∧ at_ r "daysOnZillow" = CNum days
        ∧ (i ∈ (rows out).*1 ↔
             (PrimFloat.leb (min_price filt) price = true
              ∧ PrimFloat.leb price (max_price filt) = true)
             ∧ PrimFloat.ltb (min_lot_area filt) lot = true
             ∧ PrimFloat.ltb days (float_of_int (max_days_on_zillow filt)) = true)
        ∧ (PrimFloat.eqb price (max_price filt) = true →
           PrimFloat.leb (min_price filt) price = true →
           PrimFloat.ltb (min_lot_area filt) lot = true →
           PrimFloat.ltb days (float_of_int (max_days_on_zillow filt)) = true →
           i ∈ (rows out).*1)
        ∧ (PrimFloat.eqb lot (min_lot_area filt) = true → i ∉ (rows out).*1)
        ∧ (PrimFloat.eqb days (float_of_int (max_days_on_zillow filt)) = true →
           i ∉ (rows out).*1)
        ∧ (∀ x, (i, x) ∈ rows out →
                ∀ c, c ∈ cols → c ≠ "price_per_sqft" → at_ x c = at_ r c).
Proof.
  intros HK _ Hrun.
  pose proof Hrun as (dfs & df & Hc & _ & Hdf & _)%run_analysis_Ok.
  apply (f_equal fst) in Hrun. cbn [fst] in Hrun.
  apply run_analysis_records in Hrun as (dfs' & df' & Hc' & Hdf' & _ & Hrec & _); [|done].
  rewrite Hc in Hc'. cbn [fst] in Hc'. injection Hc' as <-.
  rewrite Hdf in Hdf'. injection Hdf' as <-.
  exists dfs, df. split; [done|]. split; [done|]. intros i r Hin.
  destruct (Hrec i r Hin) as (Hnum & Hiff & Hrow).
  destruct (Hnum "price") as [price Hp]; [in_list|].
  destruct (Hnum "lotAreaValue") as [lot Hl]; [in_list|].
  destruct (Hnum "daysOnZillow") as [days Hd]; [in_list|].
  exists price, lot, days. split; [done|]. split; [done|]. split; [done|].
  rewrite Hiff, (passes_true filt r price lot days Hp Hl Hd).
  split; [done|]. split; [|split; [|split]].
  - intros He%IEEE.eqb_leb. tauto.
  - intros He%IEEE.eqb_not_gtb (_ & Hlt & _). congruence.
  - intros He%IEEE.eqb_not_ltb (_ & _ & Hlt). congruence.
  - intros x ->%Hrow c Hcol Hne. by apply at_returned.
Qed.

Lemma C1_filter_is_exact_witness :
  (∃ dfs df,
     collect_all_regions env_bounds fresh
     = (Ok dfs, (run_analysis K_stable env_bounds Filter_default fresh).2)
     ∧ concat dfs = Ok df ∧
     ∀ i r, (i, r) ∈ rows df →
       ∃ price lot days,
         at_ r "price" = CNum price
         ∧ at_ r "lotAreaValue" = CNum lot
         ∧ at_ r "daysOnZillow" = CNum days
         ∧ (i ∈ (rows (frame_of (run_analysis K_stable env_bounds Filter_default fresh))).*1 ↔
              (PrimFloat.leb 1700000 price = true ∧ PrimFloat.leb price 2000000 = true)
              ∧ PrimFloat.ltb 4000 lot = true
              ∧ PrimFloat.ltb days (float_of_int 30) = true)
         ∧ (PrimFloat.eqb price 2000000 = true →
            PrimFloat.leb 1700000 price = true →
            PrimFloat.ltb 4000 lot = true →
            PrimFloat.ltb days (float_of_int 30) = true →
            i ∈ (rows (frame_of (run_analysis K_stable env_bounds Filter_default fresh))).*1)
         ∧ (PrimFloat.eqb lot 4000 = true →
            i ∉ (rows (frame_of (run_analysis K_stable env_bounds Filter_default fresh))).*1)
         ∧ (PrimFloat.eqb days (float_of_int 30) = true →
            i ∉ (rows (frame_of (run_analysis K_stable env_bounds Filter_default fresh))).*1)
         ∧ (∀ x, (i, x) ∈ rows (frame_of (run_analysis K_stable env_bounds Filter_default
                                            fresh)) →
                 ∀ c, c ∈ cols → c ≠ "price_per_sqft" → at_ x c = at_ r c))
  ∧ (rows (concatenated env_bounds fresh)).*1 = [0; 1; 2; 3]
  ∧ (rows (frame_of (run_analysis K_stable env_bounds Filter_default fresh))).*1 = [0; 3].
Proof.
  split; [|split].
  - apply (C1_filter_is_exact K_stable env_bounds Filter_default fresh).
    + exact K_stable_permutes.
    + reflexivity.
    + vm_compute. reflexivity.
  - vm_compute. reflexivity.
  - vm_compute. reflexivity.
Defined.

(** ** C2: the pointer and the write *)

(** C2, at the failing input: yesterday's artifact is the latest; today's
    run computes its table but the write is refused.  The request fails, no
    file is written, and yet [latest_csv] now names today's file, which does
    not exist: the read path answers 404 while yesterday's artifact is still
    on disk. *)
Theorem C2_pointer_moves_before_the_write :
  (run_analysis_endpoint K_stable env_readonly Filter_default yesterday).1
  = HTTPException 500 (Str OSError)
  ∧ disk after_refused_write = disk yesterday
  ∧ latest_csv yesterday = Some "data/real_results_2025-05-31.csv"
  ∧ latest_csv after_refused_write = Some "data/real_results_2025-06-01.csv"
  ∧ (get_latest_data K_stable yesterday).1 = Rows []
  ∧ (get_latest_data K_stable after_refused_write).1
    = HTTPException 404 (Text "Run the analysis first.").
Proof. repeat split; vm_compute; reflexivity. Qed.

(** ** C3: the order of the output *)

(** C3 as stated fails: numpy's quicksort does not keep records with equal
    [daysOnZillow] in the order of the concatenation.  Twenty listings, ten per
    region, all pass the filter; those listed for five days are returned in the
    order 9, 17, 15, 13, 11, 7, 19, 5, 3, 1 of their labels, so the record of
    the second region with label 17 comes before the record of the first
    region with label 3. *)
Lemma C3_quicksort_reorders_ties :
  ¬ (∀ (env : Env) (filt : Filter) (w w' : World) (out : DataFrame),
       run_analysis K_quicksort env filt w = (Ok out, w') →
       StronglySorted
         (λ a b : nat * row,
            PrimFloat.leb (days_of a) (days_of b) = true
            ∧ (PrimFloat.eqb (days_of a) (days_of b) = true → a.1 < b.1))
         (rows out)).
Proof.
  intros H.
  specialize (H env_ties Filter_default fresh
                (run_analysis K_quicksort env_ties Filter_default fresh).2
                (frame_of (run_analysis K_quicksort env_ties Filter_default fresh))).
  assert (Hrun : run_analysis K_quicksort env_ties Filter_default fresh
                 = (Ok (frame_of (run_analysis K_quicksort env_ties Filter_default fresh)),
                    (run_analysis K_quicksort env_ties Filter_default fresh).2))
    by (vm_compute; reflexivity).
  specialize (H Hrun).
  assert (Hlen : length (rows (frame_of (run_analysis K_quicksort env_ties Filter_default
                                          fresh))) = 20) by (vm_compute; reflexivity).
  assert (H1 : rows (frame_of (run_analysis K_quicksort env_ties Filter_default fresh)) !! 1
               = Some returned_second) by (apply lookup_default; lia).
  assert (H8 : rows (frame_of (run_analysis K_quicksort env_ties Filter_default fresh)) !! 8
               = Some returned_ninth) by (apply lookup_default; lia).
  assert (Heq : PrimFloat.eqb (days_of returned_second) (days_of returned_ninth) = true)
    by (vm_compute; reflexivity).
  assert (Hl1 : returned_second.1 = 17) by (vm_compute; reflexivity).
  assert (Hl2 : returned_ninth.1 = 3) by (vm_compute; reflexivity).
  assert (Hlt : 1 < 8) by lia.
  destruct (StronglySorted_lookup _ _ 1 8 returned_second returned_ninth H Hlt H1 H8)
    as [_ Hord].
  apply Hord in Heq. rewrite Hl1, Hl2 in Heq. lia.
Qed.

(** C3 (as the code has it): when [run_analysis] returns, the output is in
    ascending order of [daysOnZillow]; the concatenated table it was taken
    from holds the regions' records in the configured order of the regions,
    labelled by position.  (The order among equal [daysOnZillow] is left to
    the sort.) *)
Theorem C3_sorted_by_days (K : Kernels) (env : Env) (filt : Filter) (w w' : World)
    (out : DataFrame) :
  argsort_ascending K →
  run_analysis K env filt w = (Ok out, w') →
  StronglySorted (λ a b : nat * row, PrimFloat.leb (days_of a) (days_of b) = true)
                 (rows out)
  ∧ ∃ dfs df,
      collect_all_regions env w = (Ok dfs, w') ∧ concat dfs = Ok df
      ∧ Forall2 (λ (rp : string * string) (d : DataFrame),
                   ∀ i r, (i, r) ∈ rows d → r !! "region" = Some (CStr rp.1))
                REGION_POLYGON_MAP dfs
      ∧ (rows df).*2 = reindex (columns df) <$> (dfs ≫= rows).*2
      ∧ (rows df).*1 = seq 0 (length (rows df)).
Proof.
  intros HK (dfs & df & Hc & Hf & Hdf & _ & -> & _)%run_analysis_Ok. split.
  - cbn [rows]. eapply StronglySorted_among; [|by apply kept_rows_sorted].
    assert (Hdays : ∀ x, x ∈ kept_rows K filt df → days x = days_of x).
    { intros x (r & Hin & Hx)%kept_rows_origin. unfold days, days_of. rewrite Hx.
      rewrite at_reindex by (unfold cols; in_list). rewrite at_derived by done.
      apply num_of_value. intros b.
      apply (concatenated_plain env w dfs df x.1 r "daysOnZillow" b); [|done..].
      by rewrite Hc. }
    intros a b Ha Hb. unfold days_le. by rewrite (Hdays a Ha), (Hdays b Hb).
  - exists dfs, df. split; [done|]. split; [done|]. split; [by apply (collected_regions env)|].
    split; [by apply concat_rows|by eapply concat_labels].
Qed.

Lemma C3_sorted_by_days_witness :
  (StronglySorted (λ a b : nat * row, PrimFloat.leb (days_of a) (days_of b) = true)
                  (rows (frame_of (run_analysis K_stable env_gap Filter_wide fresh)))
   ∧ ∃ dfs df,
       collect_all_regions env_gap fresh
       = (Ok dfs, (run_analysis K_stable env_gap Filter_wide fresh).2)
       ∧ concat dfs = Ok df
       ∧ Forall2 (λ (rp : string * string) (d : DataFrame),
                    ∀ i r, (i, r) ∈ rows d → r !! "region" = Some (CStr rp.1))
                 REGION_POLYGON_MAP dfs
       ∧ (rows df).*2 = reindex (columns df) <$> (dfs ≫= rows).*2
       ∧ (rows df).*1 = seq 0 (length (rows df)))
  ∧ (λ ir : nat * row, (ir.1, at_ ir.2 "region", at_ ir.2 "daysOnZillow"))
    <$> rows (frame_of (run_analysis K_stable env_gap Filter_wide fresh))
    = [(2, CStr "bandao", CNum 5); (0, CStr "south_bay", CNum 10)].
Proof.
  split.
  - apply (C3_sorted_by_days K_stable env_gap Filter_wide fresh).
    + exact K_stable_ascending.
    + vm_compute. reflexivity.
  - vm_compute. reflexivity.
Defined.

(** ** C4: a failed fetch *)

(** C4: if the request for any one configured region fails, the run ends in
    an error, writes no artifact and leaves [latest_csv] as it was. *)
Theorem C4_fetch_failure_aborts (K : Kernels) (env : Env) (filt : Filter) (w : World)
    (rp : string * string) :
  rp ∈ REGION_POLYGON_MAP →
  request_fails (http_get env (the_query rp.2)) = true →
  ∃ e w',
    run_analysis_endpoint K env filt w = (HTTPException 500 (Str e), w')
    ∧ latest_csv w' = latest_csv w
    ∧ disk w' = disk w.
Proof.
  intros Hin [e He]%(fetched_Raise env rp.1).
  destruct (mapM_result_Raise (λ rp : string * string, fetched env rp.1 rp.2) _ rp e Hin He)
    as [e' He'].
  rewrite run_analysis_endpoint_unfold.
  destruct (run_analysis_split K env filt w) as (w' & _ & -> & Hp & Hd).
  rewrite He'. by exists e', w'.
Qed.

Lemma C4_fetch_failure_aborts_witness :
  ∃ e w',
    run_analysis_endpoint K_stable env_timeout Filter_default yesterday
    = (HTTPException 500 (Str e), w')
    ∧ latest_csv w' = latest_csv yesterday
    ∧ disk w' = disk yesterday.
Proof.
  apply (C4_fetch_failure_aborts K_stable env_timeout Filter_default yesterday bandao).
  - unfold bandao, REGION_POLYGON_MAP. simpl. in_list.
  - vm_compute. reflexivity.
Defined.

(** ** C5: the derived field *)

(** C5: on a concatenated table that has the columns the run reads, with
    numbers as [price], [livingArea], [lotAreaValue] and [daysOnZillow], the
    run returns, also when some [livingArea] is zero.  The derived column
    holds [price / livingArea] of each record's own fields, in the table and
    in every output row; for a zero [livingArea] this value is not finite, and
    the record is kept or dropped by the filter on its price, lot area and
    days like any other.  The bound on the days is an integer below 2^53 in
    magnitude. *)
Theorem C5_price_per_sqft (K : Kernels) (env : Env) (filt : Filter) (w w' : World)
    (dfs : list DataFrame) (df : DataFrame) :
  argsort_permutes K →
  (Z.abs (max_days_on_zillow filt) < 2 ^ 53)%Z →
  collect_all_regions env w = (Ok dfs, w') → concat dfs = Ok df →
  has_columns df → Forall (λ ir : nat * row, numbers ir.2) (rows df) →
  ∃ out ppsf,
    run_analysis K env filt w = (Ok out, w')
    ∧ price_per_sqft df = Ok ppsf
    ∧ ∀ i r, (i, r) ∈ rows df →
        ∃ price area lot days,
          at_ r "price" = CNum price
          ∧ at_ r "livingArea" = CNum area
          ∧ at_ r "lotAreaValue" = CNum lot
          ∧ at_ r "daysOnZillow" = CNum days
          ∧ series_at ppsf i = CNum (PrimFloat.div price area)
          ∧ (∀ x, (i, x) ∈ rows out →
                  at_ x "price_per_sqft" = CNum (PrimFloat.div price area))
          ∧ (is_zero area = true → is_finite (PrimFloat.div price area) = false)
          ∧ (i ∈ (rows out).*1 ↔
               (PrimFloat.leb (min_price filt) price = true
                ∧ PrimFloat.leb price (max_price filt) = true)
               ∧ PrimFloat.ltb (min_lot_area filt) lot = true
               ∧ PrimFloat.ltb days (float_of_int (max_days_on_zillow filt)) = true).
Proof.
  intros HK _ Hc Hdf Hcols Hnum.
  pose proof (concat_NoDup _ _ Hdf) as Hnd.
  assert (Hnumeric : Forall (λ ir : nat * row, numeric_row ir.2) (rows df)).
  { eapply Forall_impl; [exact Hnum|]. intros ir. apply numbers_numeric_row. }
  pose proof (run_analysis_total K env filt w w' dfs df Hc Hdf Hcols Hnumeric) as Hrun.
  eexists _, _. split; [exact Hrun|]. split.
  { apply price_per_sqft_total; [done|apply (has_columns_spec df Hcols)..|].
    - unfold cols. rewrite !elem_of_cons. tauto.
    - done.
    - unfold cols. rewrite !elem_of_cons. tauto.
    - done.
    - eapply Forall_impl; [exact Hnumeric|]. by intros ? (? & ? & ? & ?). }
  apply (f_equal fst) in Hrun. cbn [fst] in Hrun.
  apply run_analysis_records in Hrun as (dfs' & df' & Hc' & Hdf' & _ & Hrec & _); [|done].
  rewrite Hc in Hc'. cbn [fst] in Hc'. injection Hc' as <-.
  rewrite Hdf in Hdf'. injection Hdf' as <-.
  intros i r Hin. destruct (Hrec i r Hin) as (Hn & Hiff & Hrow).
  destruct (Hn "price") as [price Hp]; [in_list|].
  destruct (Hn "livingArea") as [area Ha]; [in_list|].
  destruct (Hn "lotAreaValue") as [lot Hl]; [in_list|].
  destruct (Hn "daysOnZillow") as [days Hd]; [in_list|].
  exists price, area, lot, days.
  split; [done|]. split; [done|]. split; [done|]. split; [done|].
  split; [|split; [|split]].
  - unfold series_at.
    rewrite (find_label _ i (CNum (PrimFloat.div price area))); [done| |].
    + by rewrite (labels_fmap (λ ir : nat * row, CNum (PrimFloat.div
                    (num_of (at_ ir.2 "price")) (num_of (at_ ir.2 "livingArea"))))).
    + apply list_elem_of_fmap. exists (i, r). split; [|done]. cbn [fst snd].
      by rewrite Hp, Ha.
  - intros x ->%Hrow. rewrite at_returned_ppsf. by rewrite Hp, Ha.
  - apply IEEE.div_zero_not_finite.
  - by rewrite Hiff, (passes_true filt r price lot days Hp Hl Hd).
Qed.

Lemma C5_price_per_sqft_witness :
  (∃ out ppsf,
     run_analysis K_stable env_Z Filter_default fresh
     = (Ok out, (collect_all_regions env_Z fresh).2)
     ∧ price_per_sqft (concatenated env_Z fresh) = Ok ppsf
     ∧ ∀ i r, (i, r) ∈ rows (concatenated env_Z fresh) →
         ∃ price area lot days,
           at_ r "price" = CNum price
           ∧ at_ r "livingArea" = CNum area
           ∧ at_ r "lotAreaValue" = CNum lot
           ∧ at_ r "daysOnZillow" = CNum days
           ∧ series_at ppsf i = CNum (PrimFloat.div price area)
           ∧ (∀ x, (i, x) ∈ rows out →
                   at_ x "price_per_sqft" = CNum (PrimFloat.div price area))
           ∧ (is_zero area = true → is_finite (PrimFloat.div price area) = false)
           ∧ (i ∈ (rows out).*1 ↔
                (PrimFloat.leb 1700000 price = true ∧ PrimFloat.leb price 2000000 = true)
                ∧ PrimFloat.ltb 4000 lot = true
                ∧ PrimFloat.ltb days (float_of_int 30) = true))
  ∧ (λ ir : nat * row, (ir.1, at_ ir.2 "livingArea", at_ ir.2 "price_per_sqft"))
    <$> rows (frame_of (run_analysis K_stable env_Z Filter_default fresh))
    = [(1, CNum 0, CNum infinity); (0, CNum 2000, CNum 900)].
Proof.
  split.
  - apply (C5_price_per_sqft K_stable env_Z Filter_default fresh _
             (frames_of (collect_all_regions env_Z fresh))).
    + exact K_stable_permutes.
    + reflexivity.
    + vm_compute. reflexivity.
    + vm_compute. reflexivity.
    + unfold has_columns. apply (bool_decide_unpack _). vm_compute. exact I.
    + unfold concatenated.
      repeat (constructor;
              [intros c Hc; repeat (apply elem_of_cons in Hc as [->|Hc];
                                    [eexists; vm_compute; reflexivity|]);
               by apply elem_of_nil in Hc|]).
      constructor.
  - vm_compute. reflexivity.
Defined.

(** ** C6: reading back *)

(** C6 as stated fails: an address that is the empty string is returned by
    the run as "" and by the read path, from the file, as null. *)
Lemma C6_blank_address_is_lost :
  ¬ (∀ (K : Kernels) (env : Env) (filt : Filter) (w w1 : World)
       (body : list (list (string * jval))),
       run_analysis_endpoint K env filt w = (Rows body, w1) →
       get_latest_data K w1 = (Rows body, w1)).
Proof.
  intros H. specialize (H _ _ _ _ _ _ blank_address_run).
  rewrite blank_address_read in H. discriminate H.
Qed.

(** C6 (as the code has it): after a successful run, the read path returns
    the rows the run returned, provided the returned table survives the CSV
    file: each column is all numbers, each missing or written in a text that
    reads back as the same number, or all text, each missing or a string that
    is neither a missing-value marker of the reader (the empty string, "NA",
    ...) nor read as a number or a boolean. *)
Theorem C6_read_back (K : Kernels) (env : Env) (filt : Filter) (w w1 : World)
    (body : list (list (string * jval))) :
  run_analysis_endpoint K env filt w = (Rows body, w1) →
  (∀ out w0, run_analysis K env filt w = (Ok out, w0) → survives_csv K out = true) →
  get_latest_data K w1 = (Rows body, w1).
Proof.
  rewrite run_analysis_endpoint_unfold.
  destruct (run_analysis K env filt w) as [[out|e] w0] eqn:Hrun; [|done].
  simpl. destruct (storage env _); [|done..].
  intros [= <- <-] Hs. specialize (Hs out w0 eq_refl).
  apply run_analysis_Ok in Hrun as (_ & df & _ & _ & _ & _ & Hout & _).
  destruct (read_csv_csv_content K out) as (df' & Hread & Hjson); [| |done|].
  - rewrite Hout. simpl. apply (bool_decide_unpack _). by vm_compute.
  - by rewrite Hout.
  - unfold get_latest_data. cbn [latest_csv disk]. rewrite lookup_insert_eq.
    by rewrite Hread, Hjson.
Qed.

Lemma C6_read_back_witness :
  get_latest_data K_stable (run_analysis_endpoint K_stable env_AB Filter_default fresh).2
  = (Rows [[("address", JStr "1 First St"); ("region", JStr "south_bay");
            ("price", JNum 1800000); ("livingArea", JNum 2000);
            ("lotAreaValue", JNum 5000); ("bathrooms", JNum 2); ("bedrooms", JNum 3);
            ("daysOnZillow", JNum 10); ("price_per_sqft", JNum 900)]],
     (run_analysis_endpoint K_stable env_AB Filter_default fresh).2).
Proof.
  apply (C6_read_back K_stable env_AB Filter_default fresh).
  - vm_compute. reflexivity.
  - intros out w0 H. vm_compute in H. injection H as <- _. vm_compute. reflexivity.
Defined.

(** ** C7: the read path *)

(** C7, at the failing input: in a fresh process whose only run failed at
    the write, the read path does not answer 404: [latest_csv] was set by
    the failed run and the file of that name exists. *)
Theorem C7_read_path_after_failed_run :
  latest_csv restarted = None
  ∧ (run_analysis_endpoint K_stable env_readonly Filter_default restarted).1
    = HTTPException 500 (Str OSError)
  ∧ disk after_only_run_failed = disk restarted
  ∧ (get_latest_data K_stable after_only_run_failed).1
    = Rows [[("address", JStr "9 Ninth St"); ("region", JStr "bandao")]]
  ∧ requests (get_latest_data K_stable after_only_run_failed).2
    = requests after_only_run_failed.
Proof. repeat split; vm_compute; reflexivity. Qed.

(** ** C8: the region stamp *)

(** C8: every record the fetcher returns carries the region identifier the
    request was issued under in its [region] field, whatever the provider
    sent under that key; there is one record per listing. *)
Theorem C8_region_is_stamped (env : Env) (region polygon : string) (w w' : World)
    (df : DataFrame) :
  fetch_region_df env region polygon w = (Ok df, w') →
  "region" ∈ columns df
  ∧ (∀ i r, (i, r) ∈ rows df → r !! "region" = Some (CStr region))
  ∧ ∃ status props,
      http_get env (the_query polygon) = Response status (Props props)
      ∧ length (rows df) = length props.
Proof.
  rewrite fetch_region_df_split. intros [H _]%pair_equal_spec.
  apply fetched_Ok in H as (status & props & Hget & _ & ->).
  split; [apply setitem_scalar_columns|]. split.
  - intros i r. apply setitem_scalar_rows.
  - exists status, props. split; [done|]. simpl. by rewrite length_fmap, length_imap.
Qed.

Lemma C8_region_is_stamped_witness :
  "region" ∈ columns (frame_of (fetch_region_df env_R south_bay.1 south_bay.2 fresh))
  ∧ (∀ i r, (i, r) ∈ rows (frame_of (fetch_region_df env_R south_bay.1 south_bay.2 fresh)) →
            r !! "region" = Some (CStr south_bay.1))
  ∧ ∃ status props,
      http_get env_R (the_query south_bay.2) = Response status (Props props)
      ∧ length (rows (frame_of (fetch_region_df env_R south_bay.1 south_bay.2 fresh)))
        = length props.
Proof.
  apply (C8_region_is_stamped env_R south_bay.1 south_bay.2 fresh
           (fetch_region_df env_R south_bay.1 south_bay.2 fresh).2).
  vm_compute. reflexivity.
Defined.

(** ** C9: inverted price bounds *)

(** C9 as stated fails: under inverted price bounds a provider without
    listings does not give an empty result; the run raises (there is no
    [price] column) and the request ends in status 500. *)
Lemma C9_no_listings_no_result :
  ¬ (∀ (K : Kernels) (env : Env) (w : World) (lo hi lot : float) (max_days : Z),
       PrimFloat.ltb hi lo = true →
       ∃ out, (run_analysis K env (mkFilter lo hi lot max_days) w).1 = Ok out
              ∧ rows out = []).
Proof.
  intros H.
  destruct (H K_stable env_empty fresh 2000000%float 1700000%float 4000%float 30%Z eq_refl)
    as (out & Hrun & _).
  assert (Hraise : (run_analysis K_stable env_empty (mkFilter 2000000 1700000 4000 30) fresh).1
                   = Raise (KeyError "price")) by (vm_compute; reflexivity).
  rewrite Hraise in Hrun. discriminate Hrun.
Qed.

(** C9: a request body whose [min_price] exceeds its [max_price] is
    validated like any other, and under the resulting filter every run that
    returns, returns no rows; on a concatenated table that has the columns
    and numeric cells the run reads, it does return. *)
Theorem C9_inverted_price_bounds (K : Kernels) (env : Env) (w : World)
    (lo hi : float) (lot : option float) (max_days : option Z) :
  PrimFloat.ltb hi lo = true →
  ∃ filt,
    Filter_validate (mkFilterBody (Some lo) (Some hi) lot max_days) = Ok filt
    ∧ min_price filt = lo ∧ max_price filt = hi
    ∧ (∀ w' out, run_analysis K env filt w = (Ok out, w') → rows out = [])
    ∧ (∀ w' body, run_analysis_endpoint K env filt w = (Rows body, w') → body = [])
    ∧ (∀ w' dfs df,
         collect_all_regions env w = (Ok dfs, w') → concat dfs = Ok df →
         has_columns df → Forall (λ ir, numeric_row ir.2) (rows df) →
         run_analysis K env filt w = (Ok (mkDF cols []), w')).
Proof.
  intros Hinv. eexists. split; [reflexivity|]. simpl.
  split; [done|]. split; [done|].
  set (filt := mkFilter lo hi _ _).
  assert (Hnil : ∀ df, kept_rows K filt df = []).
  { intros df. apply kept_rows_nil. intros r. by apply keeps_inverted. }
  split; [|split].
  - intros w' out (dfs & df & _ & _ & _ & _ & -> & _)%run_analysis_Ok. apply Hnil.
  - intros w' body. rewrite run_analysis_endpoint_unfold.
    destruct (run_analysis K env filt w) as [[out|e] w1] eqn:Hrun; [|done].
    apply run_analysis_Ok in Hrun as (dfs & df & _ & _ & _ & _ & -> & _).
    rewrite Hnil. simpl.
    destruct (storage env (csv_path (date_today env))); [|done..].
    intros H. by injection H as <-.
  - intros w' dfs df Hc Hdf Hcols Hnum.
    by rewrite (run_analysis_total K env filt w w' dfs df), Hnil.
Qed.

Lemma C9_inverted_price_bounds_witness :
  ∃ filt,
    Filter_validate (mkFilterBody (Some 2000000%float) (Some 1700000%float) None None)
    = Ok filt
    ∧ min_price filt = 2000000%float ∧ max_price filt = 1700000%float
    ∧ (∀ w' out, run_analysis K_stable env_AB filt fresh = (Ok out, w') → rows out = [])
    ∧ (∀ w' body, run_analysis_endpoint K_stable env_AB filt fresh = (Rows body, w') →
                  body = [])
    ∧ (∀ w' dfs df,
         collect_all_regions env_AB fresh = (Ok dfs, w') → concat dfs = Ok df →
         has_columns df → Forall (λ ir, numeric_row ir.2) (rows df) →
         run_analysis K_stable env_AB filt fresh = (Ok (mkDF cols []), w')).
Proof.
  apply (C9_inverted_price_bounds K_stable env_AB fresh 2000000 1700000 None None).
  reflexivity.
Defined.

(** ** C10: no listings at all *)

(** C10: if every region answers with an empty listings array, the run ends
    in an error (there is no [price] column to derive from) instead of
    returning an empty table; nothing is written. *)
Theorem C10_no_listings_is_an_error (K : Kernels) (env : Env) (filt : Filter) (w : World) :
  (∀ rp, rp ∈ REGION_POLYGON_MAP →
         ∃ status, http_get env (the_query rp.2) = Response status (Props [])
                   ∧ ((400 <=? status)%Z && (status <? 600)%Z) = false) →
  ∃ w',
    run_analysis K env filt w = (Raise (KeyError "price"), w')
    ∧ run_analysis_endpoint K env filt w = (HTTPException 500 (Str (KeyError "price")), w')
    ∧ latest_csv w' = latest_csv w
    ∧ disk w' = disk w.
Proof.
  intros Hall.
  assert (Hf : ∀ rp, rp ∈ REGION_POLYGON_MAP →
                     fetched env rp.1 rp.2
                     = Ok (setitem_scalar (json_normalize []) "region" (CStr rp.1))).
  { intros rp (status & Hget & Hs)%Hall. apply fetched_Ok. by exists status, []. }
  rewrite run_analysis_endpoint_unfold.
  destruct (run_analysis_split K env filt w) as (w' & _ & -> & Hp & Hd).
  exists w'. unfold REGION_POLYGON_MAP in *.
  rewrite !mapM_result_cons.
  rewrite (Hf (_, _)) by in_list. rewrite (Hf (_, _)) by in_list.
  done.
Qed.

Lemma C10_no_listings_is_an_error_witness :
  ∃ w',
    run_analysis K_stable env_empty Filter_default fresh = (Raise (KeyError "price"), w')
    ∧ run_analysis_endpoint K_stable env_empty Filter_default fresh
      = (HTTPException 500 (Str (KeyError "price")), w')
    ∧ latest_csv w' = latest_csv fresh
    ∧ disk w' = disk fresh.
Proof.
  apply (C10_no_listings_is_an_error K_stable env_empty Filter_default fresh).
  intros rp Hrp. exists 200%Z. split; [|done].
  unfold env_empty, provider. simpl. by case_bool_decide.
Defined.

(** * Further properties *)

(** ** X1: the requests of a run *)

(** X1: a run issues its provider requests one region after another in the
    order of the map, each with the region's polygon and the two fixed
    parameters, and stops after the first request that fails: no region is
    asked twice, none after a failure, and all of them when none fails. *)
Theorem X1_requests_follow_the_regions (K : Kernels) (env : Env) (filt : Filter) (w : World) :
  requests (run_analysis_endpoint K env filt w).2
  = (requests w ++ ((λ rp : string * string, mkQuery rp.2 "ForSale" "Houses")
                      <$> attempted env REGION_POLYGON_MAP))%list
  ∧ attempted env REGION_POLYGON_MAP `prefix_of` REGION_POLYGON_MAP
  ∧ (Forall (λ rp, request_fails (http_get env (the_query rp.2)) = false) REGION_POLYGON_MAP →
     attempted env REGION_POLYGON_MAP = REGION_POLYGON_MAP).
Proof.
  split; [|split].
  - rewrite run_analysis_endpoint_requests, run_analysis_world.
    apply (collect_requests env REGION_POLYGON_MAP w).
  - apply attempted_prefix.
  - apply attempted_all.
Qed.

(** ** X2: which error is reported *)

(** X2: the error a failed run reports is that of the first region, in the
    order of the map, whose request fails: a connection error, a timeout, an
    error status (which wins over whatever the body holds), a body that is
    not JSON, or a body without [props]. *)
Theorem X2_first_failure_is_reported (K : Kernels) (env : Env) (filt : Filter) (w : World)
    (pre post : list (string * string)) (rp : string * string) (e : exn) :
  REGION_POLYGON_MAP = (pre ++ rp :: post)%list →
  Forall (λ q, request_fails (http_get env (the_query q.2)) = false) pre →
  fetch_error (http_get env (the_query rp.2)) = Some e →
  (run_analysis_endpoint K env filt w).1 = HTTPException 500 (Str e).
Proof.
  intros Hmap Hpre He. rewrite run_analysis_endpoint_unfold.
  destruct (run_analysis_split K env filt w) as (w' & _ & -> & _ & _).
  rewrite Hmap.
  rewrite (mapM_result_first_Raise (λ rp : string * string, fetched env rp.1 rp.2)
             pre post rp e); [done| |by apply fetched_fetch_error].
  eapply Forall_impl; [exact Hpre|]. intros q Hq. eexists.
  by apply fetched_succeeds.
Qed.

Lemma X2_first_failure_is_reported_witness :
  (run_analysis_endpoint K_stable env_timeout Filter_default yesterday).1
  = HTTPException 500 (Str Timeout).
Proof.
  apply (X2_first_failure_is_reported K_stable env_timeout Filter_default yesterday
           [south_bay] [] bandao Timeout).
  - reflexivity.
  - constructor; [vm_compute; reflexivity|constructor].
  - vm_compute. reflexivity.
Defined.

(** ** X3: when a run returns *)

(** X3: a run returns a table exactly when every region's fetch succeeds and
    the concatenated table has the eight columns the run reads, with numbers
    (or missing values) throughout [price], [livingArea], [lotAreaValue]
    and [daysOnZillow]; in every other case it raises. *)
Theorem X3_run_returns_iff (K : Kernels) (env : Env) (filt : Filter) (w : World) :
  (∃ out, (run_analysis K env filt w).1 = Ok out)
  ↔ ∃ dfs df,
      (collect_all_regions env w).1 = Ok dfs ∧ concat dfs = Ok df
      ∧ has_columns df ∧ Forall (λ ir : nat * row, numeric_row ir.2) (rows df).
Proof.
  split.
  - intros [out (dfs & df & H)%run_analysis_returns]. exists dfs, df. tauto.
  - intros (dfs & df & Hc & Hdf & Hcols & Hnum).
    destruct (collect_all_regions env w) as [r w'] eqn:Hcol. simpl in Hc. subst r.
    eexists. by rewrite (run_analysis_total K env filt w w' dfs df).
Qed.

(** ** X4: what a successful run leaves behind *)

(** X4: a run that answers with rows has written exactly one file,
    [data/real_results_<today>.csv], holding the table it returned (the nine
    output columns as header, one line per returned row), and has left every
    other file as it was; [latest_csv] names that file. *)
Theorem X4_successful_run_effects (K : Kernels) (env : Env) (filt : Filter) (w : World)
    (body : list (list (string * jval))) :
  (run_analysis_endpoint K env filt w).1 = Rows body →
  ∃ out,
    (run_analysis K env filt w).1 = Ok out
    ∧ body = to_json K out
    ∧ latest_csv (run_analysis_endpoint K env filt w).2
      = Some ("data/real_results_" ++ date_today env ++ ".csv")
    ∧ disk (run_analysis_endpoint K env filt w).2
        !! ("data/real_results_" ++ date_today env ++ ".csv")
      = Some (csv_content K out)
    ∧ (∀ p, p ≠ "data/real_results_" ++ date_today env ++ ".csv" →
            disk (run_analysis_endpoint K env filt w).2 !! p = disk w !! p)
    ∧ header (csv_content K out) = cols
    ∧ length (lines (csv_content K out)) = length body.
Proof.
  intros (out & Hrun & Hout & -> & _ & Hp & Hd)%run_analysis_endpoint_Rows.
  exists out. split; [done|]. split; [done|]. split; [exact Hp|].
  rewrite Hd. split; [apply lookup_insert_eq|]. split.
  - intros p Hne. by apply lookup_insert_ne.
  - split; [by rewrite Hout|]. unfold csv_content, to_json. cbn [lines].
    by rewrite !length_fmap.
Qed.

Lemma X4_successful_run_effects_witness :
  ∃ out,
    (run_analysis K_stable env_AB Filter_default yesterday).1 = Ok out
    ∧ [[("address", JStr "1 First St"); ("region", JStr "south_bay");
        ("price", JNum 1800000); ("livingArea", JNum 2000);
        ("lotAreaValue", JNum 5000); ("bathrooms", JNum 2); ("bedrooms", JNum 3);
        ("daysOnZillow", JNum 10); ("price_per_sqft", JNum 900)]] = to_json K_stable out
    ∧ latest_csv (run_analysis_endpoint K_stable env_AB Filter_default yesterday).2
      = Some "data/real_results_2025-06-01.csv"
    ∧ disk (run_analysis_endpoint K_stable env_AB Filter_default yesterday).2
        !! "data/real_results_2025-06-01.csv"
      = Some (csv_content K_stable out)
    ∧ (∀ p, p ≠ "data/real_results_2025-06-01.csv" →
            disk (run_analysis_endpoint K_stable env_AB Filter_default yesterday).2 !! p
            = disk yesterday !! p)
    ∧ header (csv_content K_stable out) = cols
    ∧ length (lines (csv_content K_stable out)) = 1.
Proof.
  apply (X4_successful_run_effects K_stable env_AB Filter_default yesterday).
  vm_compute. reflexivity.
Defined.

(** ** X5: a run and the files *)

(** X5: a run either answers with rows, and then the write went through, or
    answers with status 500 carrying the exception raised; no exception
    escapes the handler.  Whatever the outcome, no file other than today's is
    created, changed or removed; and when the run fails before the write (in
    fetching or analysing), or the path cannot be opened, today's file is left
    as it was too. *)
Theorem X5_a_run_and_the_files (K : Kernels) (env : Env) (filt : Filter) (w : World) :
  (∀ p, p ≠ csv_path (date_today env) →
        disk (run_analysis_endpoint K env filt w).2 !! p = disk w !! p)
  ∧ match (run_analysis_endpoint K env filt w).1 with
    | Rows _ => storage env (csv_path (date_today env)) = Written
    | HTTPException status d =>
        status = 500%Z ∧ (∃ e, d = Str e)
        ∧ ((∃ e, (run_analysis K env filt w).1 = Raise e)
           ∨ storage env (csv_path (date_today env)) = Refused →
           disk (run_analysis_endpoint K env filt w).2 = disk w)
    | Unhandled _ => False
    end.
Proof.
  rewrite run_analysis_endpoint_unfold.
  destruct (run_analysis_split K env filt w) as (w1 & _ & Hrun & _ & Hd).
  rewrite Hrun. destruct (_ ≫= _) as [out|e]; cbn zeta.
  - destruct (storage env _) eqn:Hs; cbn [fst snd disk]; rewrite Hd.
    + split; [|done]. intros p Hp. by apply lookup_insert_ne.
    + split; [done|]. split; [done|]. split; [by eexists|done].
    + split; [intros p Hp; by apply lookup_insert_ne|].
      split; [done|]. split; [by eexists|]. by intros [[e He]|?].
  - cbn [fst snd]. rewrite Hd. split; [done|]. split; [done|]. split; [by eexists|done].
Qed.

(** ** X6: one file per day *)

(** X6: of two runs that both answer with rows, the second leaves
    [latest_csv] on its own day's file, holding its own table.  On the same
    day that file replaces the first run's and the directory is otherwise as
    before both runs; on a different day the first run's file is still there
    with the first run's table. *)
Theorem X6_one_file_per_day (K : Kernels) (env1 env2 : Env) (filt1 filt2 : Filter)
    (w : World) (body1 body2 : list (list (string * jval))) :
  (run_analysis_endpoint K env1 filt1 w).1 = Rows body1 →
  (run_analysis_endpoint K env2 filt2 (run_analysis_endpoint K env1 filt1 w).2).1
  = Rows body2 →
  ∃ out1 out2 w2,
    w2 = (run_analysis_endpoint K env2 filt2 (run_analysis_endpoint K env1 filt1 w).2).2
    ∧ body1 = to_json K out1 ∧ body2 = to_json K out2
    ∧ latest_csv w2 = Some (csv_path (date_today env2))
    ∧ disk w2 !! csv_path (date_today env2) = Some (csv_content K out2)
    ∧ (date_today env1 = date_today env2 →
       disk w2 = <[csv_path (date_today env2) := csv_content K out2]> (disk w))
    ∧ (date_today env1 ≠ date_today env2 →
       disk w2 !! csv_path (date_today env1) = Some (csv_content K out1)).
Proof.
  intros (out1 & _ & _ & -> & _ & _ & Hd1)%run_analysis_endpoint_Rows.
  intros (out2 & _ & _ & -> & _ & Hp2 & Hd2)%run_analysis_endpoint_Rows.
  exists out1, out2. eexists. split; [reflexivity|]. split; [done|]. split; [done|].
  split; [exact Hp2|]. rewrite Hd2, Hd1. split; [apply lookup_insert_eq|]. split.
  - intros ->. apply insert_insert_eq.
  - intros Hne. rewrite lookup_insert_ne; [apply lookup_insert_eq|].
    intros H%csv_path_inj. congruence.
Qed.

Lemma X6_one_file_per_day_witness :
  ∃ out1 out2 w2,
    w2 = (run_analysis_endpoint K_stable env_next_day Filter_default
            (run_analysis_endpoint K_stable env_AB Filter_default fresh).2).2
    ∧ (to_json K_stable (frame_of (run_analysis K_stable env_AB Filter_default fresh)))
      = to_json K_stable out1
    ∧ (to_json K_stable (frame_of (run_analysis K_stable env_next_day Filter_default fresh)))
      = to_json K_stable out2
    ∧ latest_csv w2 = Some (csv_path "2025-06-02")
    ∧ disk w2 !! csv_path "2025-06-02" = Some (csv_content K_stable out2)
    ∧ ("2025-06-01" = "2025-06-02" →
       disk w2 = <[csv_path "2025-06-02" := csv_content K_stable out2]> (disk fresh))
    ∧ ("2025-06-01" ≠ "2025-06-02" →
       disk w2 !! csv_path "2025-06-01" = Some (csv_content K_stable out1)).
Proof.
  apply (X6_one_file_per_day K_stable env_AB env_next_day Filter_default Filter_default fresh).
  - vm_compute. reflexivity.
  - vm_compute. reflexivity.
Defined.

(** ** X7: the output columns *)

(** X7: the table a run returns has exactly the nine output columns, in the
    order of line 69: every returned row has a value under each of them and
    under no other key, every object of the response lists these keys in this
    order, and the file has them as header with nine fields per line. *)
Theorem X7_output_columns (K : Kernels) (env : Env) (filt : Filter) (w : World)
    (out : DataFrame) :
  (run_analysis K env filt w).1 = Ok out →
  columns out = ["address"; "region"; "price"; "livingArea"; "lotAreaValue";
                 "bathrooms"; "bedrooms"; "daysOnZillow"; "price_per_sqft"]
  ∧ (∀ i x c, (i, x) ∈ rows out → is_Some (x !! c) ↔ c ∈ columns out)
  ∧ Forall (λ o : list (string * jval), o.*1 = columns out) (to_json K out)
  ∧ header (csv_content K out) = columns out
  ∧ Forall (λ l : list string, length l = 9) (lines (csv_content K out)).
Proof.
  intros (dfs & df & _ & _ & _ & _ & ->)%run_analysis_returns. cbn [columns rows].
  split; [done|]. split; [|split; [|split; [done|]]].
  - intros i x c. unfold kept_rows. intros ([j r] & [= -> ->] & _)%list_elem_of_fmap.
    apply reindex_lookup.
  - unfold to_json. cbn [columns rows]. apply Forall_fmap, Forall_forall.
    intros ir _. reflexivity.
  - unfold csv_content. cbn [lines columns rows]. apply Forall_fmap, Forall_forall.
    intros ir _. reflexivity.
Qed.

Lemma X7_output_columns_witness :
  columns (frame_of (run_analysis K_stable env_AB Filter_default fresh))
  = ["address"; "region"; "price"; "livingArea"; "lotAreaValue";
     "bathrooms"; "bedrooms"; "daysOnZillow"; "price_per_sqft"]
  ∧ (∀ i x c, (i, x) ∈ rows (frame_of (run_analysis K_stable env_AB Filter_default fresh)) →
              is_Some (x !! c)
              ↔ c ∈ columns (frame_of (run_analysis K_stable env_AB Filter_default fresh)))
  ∧ Forall (λ o : list (string * jval),
              o.*1 = columns (frame_of (run_analysis K_stable env_AB Filter_default fresh)))
           (to_json K_stable (frame_of (run_analysis K_stable env_AB Filter_default fresh)))
  ∧ header (csv_content K_stable
              (frame_of (run_analysis K_stable env_AB Filter_default fresh)))
    = columns (frame_of (run_analysis K_stable env_AB Filter_default fresh))
  ∧ Forall (λ l : list string, length l = 9)
           (lines (csv_content K_stable
                     (frame_of (run_analysis K_stable env_AB Filter_default fresh)))).
Proof.
  apply (X7_output_columns K_stable env_AB Filter_default fresh).
  vm_compute. reflexivity.
Defined.

(** ** X8: nothing lost, nothing repeated *)

(** X8: sorting and filtering neither lose nor repeat a record: the rows a
    run returns are, up to their order, the records of the concatenated table
    that pass the filter, each once, under its label, with its own output
    fields and its price per square foot.  The bound on the days is an
    integer below 2^53 in magnitude. *)
Theorem X8_output_is_the_filtered_table (K : Kernels) (env : Env) (filt : Filter)
    (w : World) (out : DataFrame) :
  argsort_permutes K →
  (Z.abs (max_days_on_zillow filt) < 2 ^ 53)%Z →
  (run_analysis K env filt w).1 = Ok out →
  ∃ dfs df,
    (collect_all_regions env w).1 = Ok dfs ∧ concat dfs = Ok df
    ∧ rows out ≡ₚ (λ ir : nat * row, (ir.1, returned ir.2))
                  <$> filter (λ ir : nat * row, passes filt ir.2 = true) (rows df)
    ∧ length (rows out)
      = length (filter (λ ir : nat * row, passes filt ir.2 = true) (rows df))
    ∧ NoDup (rows out).*1.
Proof.
  intros HK _ (dfs & df & Hc & Hdf & _ & _ & ->)%run_analysis_returns.
  exists dfs, df. split; [done|]. split; [done|]. cbn [rows].
  assert (Hplain : ∀ ir, ir ∈ rows df → ∀ c b, at_ ir.2 c ≠ CBool b).
  { intros [i r] Hin c b. by apply (concatenated_plain env w dfs df i r c b). }
  assert (Hp : kept_rows K filt df
               ≡ₚ (λ ir : nat * row, (ir.1, returned ir.2))
                  <$> filter (λ ir : nat * row, passes filt ir.2 = true) (rows df)).
  { rewrite (kept_rows_permutation K filt df HK).
    rewrite (filter_among (λ ir : nat * row, keeps filt ir.2 = true)
                          (λ ir : nat * row, passes filt ir.2 = true)).
    - rewrite (fmap_among (λ ir : nat * row, (ir.1, reindex cols (derived ir.2)))
                          (λ ir : nat * row, (ir.1, returned ir.2))); [done|].
      intros ir [_ Hin]%list_elem_of_filter. f_equal. by apply derived_returned, Hplain.
    - intros ir Hin. by rewrite (keeps_passes filt ir.2 (Hplain ir Hin)). }
  split; [exact Hp|]. split.
  - by rewrite Hp, length_fmap.
  - rewrite Hp, <- list_fmap_compose.
    change (NoDup (filter (λ ir : nat * row, passes filt ir.2 = true) (rows df)).*1).
    eapply sublist_NoDup; [by eapply concat_NoDup|].
    apply fmap_sublist, sublist_filter.
Qed.

Lemma X8_output_is_the_filtered_table_witness :
  (∃ dfs df,
     (collect_all_regions env_bounds fresh).1 = Ok dfs ∧ concat dfs = Ok df
     ∧ rows (frame_of (run_analysis K_stable env_bounds Filter_default fresh))
       ≡ₚ (λ ir : nat * row, (ir.1, returned ir.2))
          <$> filter (λ ir : nat * row, passes Filter_default ir.2 = true) (rows df)
     ∧ length (rows (frame_of (run_analysis K_stable env_bounds Filter_default fresh)))
       = length (filter (λ ir : nat * row, passes Filter_default ir.2 = true) (rows df))
     ∧ NoDup (rows (frame_of (run_analysis K_stable env_bounds Filter_default fresh))).*1)
  ∧ length (rows (concatenated env_bounds fresh)) = 4
  ∧ length (rows (frame_of (run_analysis K_stable env_bounds Filter_default fresh))) = 2.
Proof.
  split; [|split].
  - apply (X8_output_is_the_filtered_table K_stable env_bounds Filter_default fresh).
    + exact K_stable_permutes.
    + reflexivity.
    + vm_compute. reflexivity.
  - vm_compute. reflexivity.
  - vm_compute. reflexivity.
Defined.

(** ** X9: missing values *)

(** X9: a record whose [price], [lotAreaValue] or [daysOnZillow] is missing
    (the listing lacks the key while another listing has it, so the cell is
    NaN) is never returned, whatever the filter's bounds: every comparison
    with a missing value is false. *)
Theorem X9_missing_values_are_dropped (K : Kernels) (env : Env) (filt : Filter) (w : World)
    (out : DataFrame) :
  argsort_permutes K →
  (run_analysis K env filt w).1 = Ok out →
  ∃ dfs df,
    (collect_all_regions env w).1 = Ok dfs ∧ concat dfs = Ok df
    ∧ ∀ i r c, (i, r) ∈ rows df →
               c ∈ ["price"; "lotAreaValue"; "daysOnZillow"] →
               at_ r c = NaN →
               i ∉ (rows out).*1.
Proof.
  intros HK (dfs & df & Hc & Hdf & _ & _ & ->)%run_analysis_returns.
  exists dfs, df. split; [done|]. split; [done|]. intros i r c Hin Hcol Hnan. cbn [rows].
  rewrite (kept_rows_label K filt df i r HK (concat_NoDup _ _ Hdf) Hin).
  rewrite (keeps_nan filt r c Hcol); [done|]. by rewrite Hnan.
Qed.

Lemma X9_missing_values_are_dropped_witness :
  ∃ dfs df,
    (collect_all_regions env_gap fresh).1 = Ok dfs ∧ concat dfs = Ok df
    ∧ ∀ i r c, (i, r) ∈ rows df →
               c ∈ ["price"; "lotAreaValue"; "daysOnZillow"] →
               at_ r c = NaN →
               i ∉ (rows (frame_of (run_analysis K_stable env_gap Filter_wide fresh))).*1.
Proof.
  apply (X9_missing_values_are_dropped K_stable env_gap Filter_wide fresh).
  - exact K_stable_permutes.
  - vm_compute. reflexivity.
Defined.

(** ** X10: a wider filter *)

(** X10: widening the filter never loses a row.  If a run returns under one
    filter, it returns under every filter whose price range contains the
    first one's, whose minimal lot area is no larger and whose maximal days
    are no fewer, and every row of the first result is a row of the second.
    Both bounds on the days are integers below 2^53 in magnitude. *)
Theorem X10_wider_filter_keeps_more (K : Kernels) (env : Env) (f1 f2 : Filter) (w : World)
    (out1 : DataFrame) :
  argsort_permutes K →
  (Z.abs (max_days_on_zillow f1) < 2 ^ 53)%Z →
  (Z.abs (max_days_on_zillow f2) < 2 ^ 53)%Z →
  PrimFloat.leb (min_price f2) (min_price f1) = true →
  PrimFloat.leb (max_price f1) (max_price f2) = true →
  PrimFloat.leb (min_lot_area f2) (min_lot_area f1) = true →
  PrimFloat.leb (float_of_int (max_days_on_zillow f1))
                (float_of_int (max_days_on_zillow f2)) = true →
  (run_analysis K env f1 w).1 = Ok out1 →
  ∃ out2, (run_analysis K env f2 w).1 = Ok out2 ∧ rows out1 ⊆ rows out2.
Proof.
  intros HK _ _ H1 H2 H3 H4 Hrun1.
  pose proof Hrun1 as (dfs & df & Hc & Hdf & Hcols & Hnum & _)%run_analysis_returns.
  destruct (collect_all_regions env w) as [c w'] eqn:Hcol. cbn [fst] in Hc. subst c.
  pose proof (run_analysis_total K env f2 w w' dfs df Hcol Hdf Hcols Hnum) as Hrun2.
  apply (f_equal fst) in Hrun2. cbn [fst] in Hrun2.
  eexists. split; [exact Hrun2|].
  apply run_analysis_records in Hrun1 as (dfs1 & df1 & Hc1 & Hdf1 & _ & _ & Hout1); [|done].
  apply run_analysis_records in Hrun2 as (dfs2 & df2 & Hc2 & Hdf2 & _ & Hrec2 & _); [|done].
  rewrite Hcol in Hc1, Hc2. cbn [fst] in Hc1, Hc2.
  injection Hc1 as <-. injection Hc2 as <-.
  rewrite Hdf in Hdf1, Hdf2. injection Hdf1 as <-. injection Hdf2 as <-.
  intros [i x] (r & Hin & Hpass & ->)%Hout1.
  destruct (Hrec2 i r Hin) as (_ & Hiff & Hrow).
  assert (Hi : i ∈ (mkDF cols (kept_rows K f2 df)).(rows).*1).
  { apply Hiff. by apply (passes_wider f1 f2). }
  apply list_elem_of_fmap in Hi as ([j y] & Hj & Hy). cbn [fst] in Hj. subst j.
  by rewrite <- (Hrow y Hy).
Qed.

Lemma X10_wider_filter_keeps_more_witness :
  (∃ out2, (run_analysis K_stable env_bounds Filter_wide fresh).1 = Ok out2
           ∧ rows (frame_of (run_analysis K_stable env_bounds Filter_default fresh))
             ⊆ rows out2)
  ∧ (rows (frame_of (run_analysis K_stable env_bounds Filter_default fresh))).*1 = [0; 3]
  ∧ (rows (frame_of (run_analysis K_stable env_bounds Filter_wide fresh))).*1 = [0; 1; 3; 2].
Proof.
  split; [|split].
  - apply (X10_wider_filter_keeps_more K_stable env_bounds Filter_default Filter_wide fresh).
    + exact K_stable_permutes.
    + reflexivity.
    + reflexivity.
    + vm_compute. reflexivity.
    + vm_compute. reflexivity.
    + vm_compute. reflexivity.
    + vm_compute. reflexivity.
    + vm_compute. reflexivity.
  - vm_compute. reflexivity.
  - vm_compute. reflexivity.
Defined.

(** ** X11: the objects of the response *)

(** X11: the response of a run holds, for every record of the concatenated
    table that passes the filter and for nothing else, the object of its nine
    output fields: text as it is, a finite number as a number, and a missing
    or infinite number as [null]; so the price per square foot of a kept
    record whose living area is zero is [null].  The bound on the days is an
    integer below 2^53 in magnitude. *)
Theorem X11_response_objects (K : Kernels) (env : Env) (filt : Filter) (w : World)
    (body : list (list (string * jval))) :
  argsort_permutes K →
  (Z.abs (max_days_on_zillow filt) < 2 ^ 53)%Z →
  (run_analysis_endpoint K env filt w).1 = Rows body →
  ∃ dfs df,
    (collect_all_regions env w).1 = Ok dfs ∧ concat dfs = Ok df
    ∧ (∀ o, o ∈ body ↔ ∃ i r, (i, r) ∈ rows df ∧ passes filt r = true
                               ∧ o = response_object K r)
    ∧ (∀ r, ("address", jcell K (at_ r "address")) ∈ response_object K r
            ∧ ("price", jcell K (at_ r "price")) ∈ response_object K r)
    ∧ (∀ r area, at_ r "livingArea" = CNum area → is_zero area = true →
                 ("price_per_sqft", JNull) ∈ response_object K r).
Proof.
  intros HK _ (out & Hrun & Hshape & -> & _)%run_analysis_endpoint_Rows.
  apply run_analysis_records in Hrun as (dfs & df & Hc & Hdf & _ & Hrec & Hout); [|done].
  exists dfs, df. split; [done|]. split; [done|]. split; [|split].
  - intros o. unfold to_json. rewrite Hshape. cbn [rows columns].
    rewrite list_elem_of_fmap. split.
    + intros ([i x] & -> & (r & Hin & Hpass & ->)%Hout). by exists i, r.
    + intros (i & r & Hin & Hpass & ->). destruct (Hrec i r Hin) as (_ & Hiff & Hrow).
      apply Hiff, list_elem_of_fmap in Hpass as ([j y] & Hj & Hy).
      cbn [fst] in Hj. subst j. exists (i, y). split; [|done].
      by rewrite (Hrow y Hy).
  - intros r. unfold response_object. split.
    + apply list_elem_of_fmap. exists "address".
      rewrite at_returned by (done || unfold cols; in_list).
      split; [done|]. unfold cols. in_list.
    + apply list_elem_of_fmap. exists "price".
      rewrite at_returned by (done || unfold cols; in_list).
      split; [done|]. unfold cols. in_list.
  - intros r area Ha Hz. unfold response_object. apply list_elem_of_fmap.
    exists "price_per_sqft". split; [|unfold cols; in_list].
    rewrite at_returned_ppsf, Ha. cbn [jcell value].
    by rewrite (IEEE.div_zero_not_finite _ _ Hz).
Qed.

Lemma X11_response_objects_witness :
  ∃ dfs df,
    (collect_all_regions env_Z fresh).1 = Ok dfs ∧ concat dfs = Ok df
    ∧ (∀ o, o ∈ [[("address", JStr "5 Fifth St"); ("region", JStr "south_bay");
                  ("price", JNum 1800000); ("livingArea", JNum 0);
                  ("lotAreaValue", JNum 5000); ("bathrooms", JNum 2); ("bedrooms", JNum 3);
                  ("daysOnZillow", JNum 3); ("price_per_sqft", JNull)];
                 [("address", JStr "1 First St"); ("region", JStr "south_bay");
                  ("price", JNum 1800000); ("livingArea", JNum 2000);
                  ("lotAreaValue", JNum 5000); ("bathrooms", JNum 2); ("bedrooms", JNum 3);
                  ("daysOnZillow", JNum 10); ("price_per_sqft", JNum 900)]]
            ↔ ∃ i r, (i, r) ∈ rows df ∧ passes Filter_default r = true
                     ∧ o = response_object K_stable r)
    ∧ (∀ r, ("address", jcell K_stable (at_ r "address")) ∈ response_object K_stable r
            ∧ ("price", jcell K_stable (at_ r "price")) ∈ response_object K_stable r)
    ∧ (∀ r area, at_ r "livingArea" = CNum area → is_zero area = true →
                 ("price_per_sqft", JNull) ∈ response_object K_stable r).
Proof.
  apply (X11_response_objects K_stable env_Z Filter_default fresh).
  - exact K_stable_permutes.
  - reflexivity.
  - vm_compute. reflexivity.
Defined.

(** ** X12: the concatenated table, listing by listing *)

(** X12: the concatenated table is the provider's listings, region after
    region in the order of the map and within a region in the order of the
    response, labelled 0, 1, 2, ...; its columns are [region] and every key
    some listing has, none twice; the record of a listing holds the listing's
    own value under each of its keys, the region it was requested under as
    [region], and a missing value under the keys only other listings have. *)
Theorem X12_concatenated_table (env : Env) (w : World) (dfs : list DataFrame)
    (df : DataFrame) :
  (collect_all_regions env w).1 = Ok dfs → concat dfs = Ok df →
  rows df
  = imap (λ i (rl : string * listing), (i, reindex (columns df) (record rl))) (stamped env)
  ∧ (∀ c, c ∈ columns df
          ↔ c = "region" ∨ ∃ rl : string * listing, rl ∈ stamped env ∧ c ∈ rl.2.*1)
  ∧ NoDup (columns df)
  ∧ (∀ i (rl : string * listing) r,
       stamped env !! i = Some rl → rows df !! i = Some (i, r) →
       at_ r "region" = CStr rl.1
       ∧ (∀ c, c ≠ "region" → c ∈ rl.2.*1 → at_ r c = at_ (dict rl.2) c)
       ∧ (∀ c, c ≠ "region" → c ∉ rl.2.*1 → at_ r c = NaN)).
Proof.
  intros Hc Hdf. pose proof (concatenated_rows env w dfs df Hc Hdf) as Hrows.
  rewrite collect_all_regions_result in Hc. apply fetched_frames in Hc as ->.
  set (frame := λ rp : string * string,
         setitem_scalar (json_normalize (listings_of (http_get env (the_query rp.2))))
                        "region" (CStr rp.1)) in *.
  assert (Hcols : ∀ c, c ∈ columns df
                       ↔ c = "region" ∨ ∃ rl : string * listing,
                                          rl ∈ stamped env ∧ c ∈ rl.2.*1).
  { intros c. rewrite (concat_columns _ _ Hdf), foldl_merge_columns_elem.
    rewrite <- list_fmap_compose. unfold stamped. split.
    - intros [Hnil|(l & (rp & -> & Hrp)%list_elem_of_fmap & Hc)];
        [by apply elem_of_nil in Hnil|].
      change (c ∈ columns (frame rp)) in Hc. unfold frame in Hc.
      apply setitem_scalar_columns_elem in Hc as [Hc|Hc]; [|by left].
      apply json_normalize_columns in Hc as (l & Hl & Hc). right.
      exists (rp.1, l). split; [|done]. apply list_elem_of_bind. exists rp.
      split; [|done]. apply list_elem_of_fmap. by exists l.
    - intros [->|(rl & (rp & (l & -> & Hl)%list_elem_of_fmap & Hrp)%list_elem_of_bind & Hc)];
        right.
      + exists (columns (frame south_bay)). split.
        * apply list_elem_of_fmap. exists south_bay. split; [done|].
          unfold south_bay, REGION_POLYGON_MAP. apply list_elem_of_here.
        * apply setitem_scalar_columns_elem. by right.
      + exists (columns (frame rp)). split.
        * apply list_elem_of_fmap. by exists rp.
        * apply setitem_scalar_columns_elem. left. apply json_normalize_columns.
          by exists l. }
  split; [exact Hrows|]. split; [exact Hcols|]. split.
  - rewrite (concat_columns _ _ Hdf). apply foldl_merge_columns_NoDup; [constructor|].
    apply Forall_fmap, Forall_fmap, Forall_forall. intros rp _.
    change (NoDup (columns (frame rp))). unfold frame.
    apply setitem_scalar_columns_NoDup. unfold json_normalize. cbn [columns].
    apply NoDup_first_seen.
  - intros i rl r Hi Hr. rewrite Hrows in Hr.
    apply list_lookup_imap_Some in Hr as (rl' & Hi' & [= ->]).
    assert (rl' = rl) as -> by congruence.
    assert (Hreg : "region" ∈ columns df) by (apply Hcols; by left).
    split; [|split].
    + rewrite at_reindex by done. unfold record. by rewrite at_insert.
    + intros c Hne Hc. rewrite at_reindex.
      * unfold record. rewrite at_insert. by destruct (decide _).
      * apply Hcols. right. exists rl. split; [by eapply list_elem_of_lookup_2|done].
    + intros c Hne Hc. destruct (decide (c ∈ columns df)) as [Hin|Hin].
      * rewrite at_reindex by done. unfold record. rewrite at_insert.
        destruct (decide _); [done|]. by apply at_dict_missing.
      * by apply at_reindex_missing.
Qed.

Lemma X12_concatenated_table_witness :
  rows (concatenated env_R fresh)
  = imap (λ i (rl : string * listing),
            (i, reindex (columns (concatenated env_R fresh)) (record rl)))
         (stamped env_R)
  ∧ (∀ c, c ∈ columns (concatenated env_R fresh)
          ↔ c = "region" ∨ ∃ rl : string * listing, rl ∈ stamped env_R ∧ c ∈ rl.2.*1)
  ∧ NoDup (columns (concatenated env_R fresh))
  ∧ (∀ i (rl : string * listing) r,
       stamped env_R !! i = Some rl →
       rows (concatenated env_R fresh) !! i = Some (i, r) →
       at_ r "region" = CStr rl.1
       ∧ (∀ c, c ≠ "region" → c ∈ rl.2.*1 → at_ r c = at_ (dict rl.2) c)
       ∧ (∀ c, c ≠ "region" → c ∉ rl.2.*1 → at_ r c = NaN)).
Proof.
  apply (X12_concatenated_table env_R fresh (frames_of (collect_all_regions env_R fresh))).
  - vm_compute. reflexivity.
  - vm_compute. reflexivity.
Defined.

(** ** X13: reading right after a run *)

(** X13: right after a run that answered with rows, the read path answers
    with rows too (never 404, never an error), changes nothing, and returns
    as many objects as the run did, each with the nine output keys in the
    same order. *)
Theorem X13_read_path_after_run (K : Kernels) (env : Env) (filt : Filter) (w : World)
    (body : list (list (string * jval))) :
  (run_analysis_endpoint K env filt w).1 = Rows body →
  ∃ body',
    get_latest_data K (run_analysis_endpoint K env filt w).2
    = (Rows body', (run_analysis_endpoint K env filt w).2)
    ∧ length body' = length body
    ∧ Forall (λ o : list (string * jval), o.*1 = cols) body'.
Proof.
  intros (out & _ & Hout & -> & _ & Hp & Hd)%run_analysis_endpoint_Rows.
  destruct (read_csv_shape K out) as (df' & Hread & Hcols & Hlen).
  { by rewrite Hout. }
  exists (to_json K df'). unfold get_latest_data.
  rewrite Hp, Hd, lookup_insert_eq, Hread. split; [done|]. split.
  - unfold to_json. by rewrite !length_fmap.
  - unfold to_json. rewrite Hcols, Hout. cbn [columns].
    apply Forall_fmap, Forall_forall. intros ir _. reflexivity.
Qed.

Lemma X13_read_path_after_run_witness :
  ∃ body',
    get_latest_data K_stable (run_analysis_endpoint K_stable env_blank Filter_default fresh).2
    = (Rows body', (run_analysis_endpoint K_stable env_blank Filter_default fresh).2)
    ∧ length body' = 1
    ∧ Forall (λ o : list (string * jval), o.*1 = cols) body'.
Proof.
  apply (X13_read_path_after_run K_stable env_blank Filter_default fresh
           [[("address", JStr EmptyString); ("region", JStr "south_bay");
             ("price", JNum 1800000); ("livingArea", JNum 2000);
             ("lotAreaValue", JNum 5000); ("bathrooms", JNum 2); ("bedrooms", JNum 3);
             ("daysOnZillow", JNum 10); ("price_per_sqft", JNum 900)]]).
  vm_compute. reflexivity.
Defined.

(** ** X14: fetching and analysing do not persist *)

(** X14: fetching and analysing touch neither the files nor [latest_csv]:
    one call of [fetch_region_df] records one request and nothing else,
    whether it returns or raises, and [run_analysis] leaves the files and the
    pointer as they were, whether it returns or raises.  Only the endpoint
    persists. *)
Theorem X14_analysis_leaves_storage (K : Kernels) (env : Env) (filt : Filter) (w : World) :
  latest_csv (run_analysis K env filt w).2 = latest_csv w
  ∧ disk (run_analysis K env filt w).2 = disk w
  ∧ ∀ region polygon,
      latest_csv (fetch_region_df env region polygon w).2 = latest_csv w
      ∧ disk (fetch_region_df env region polygon w).2 = disk w
      ∧ requests (fetch_region_df env region polygon w).2
        = (requests w ++ [mkQuery polygon "ForSale" "Houses"])%list.
Proof.
  destruct (run_analysis_split K env filt w) as (w' & _ & -> & Hp & Hd).
  split; [done|]. split; [done|]. intros region polygon.
  by rewrite fetch_region_df_split.
Qed.

(** ** X15: 404 until an analysis returns *)

(** X15: in a process that has not persisted anything yet ([latest_csv] is
    unset), the read path answers 404 "Run the analysis first.", and it keeps
    doing so after any number of runs that failed while fetching or
    analysing, whatever files the data directory holds. *)
Theorem X15_not_found_until_an_analysis_returns (K : Kernels) (runs : list (Env * Filter))
    (w : World) :
  latest_csv w = None →
  Forall (λ r : Env * Filter, ∃ e, (run_analysis K r.1 r.2 w).1 = Raise e) runs →
  get_latest_data K (after_runs K runs w)
  = (HTTPException 404 (Text "Run the analysis first."), after_runs K runs w).
Proof.
  intros Hnone [Hp _]%after_runs_failed. unfold get_latest_data.
  by rewrite Hp, Hnone.
Qed.

Lemma X15_not_found_until_an_analysis_returns_witness :
  get_latest_data K_stable
    (after_runs K_stable [(env_timeout, Filter_default); (env_empty, Filter_wide)] restarted)
  = (HTTPException 404 (Text "Run the analysis first."),
     after_runs K_stable [(env_timeout, Filter_default); (env_empty, Filter_wide)] restarted).
Proof.
  apply (X15_not_found_until_an_analysis_returns K_stable
           [(env_timeout, Filter_default); (env_empty, Filter_wide)] restarted).
  - reflexivity.
  - repeat constructor; eexists; vm_compute; reflexivity.
Defined.
